(** * parcel-mcp-server: the tool dispatcher of [src/server.js]

    A shallow embedding of the dispatcher ([runTool]), of the list payload
    normalizer, of the conversational memory, of the search renderer and
    of the router reply parsing of [POST /chat], together with the
    properties the specification states about them.

    Layout: JavaScript values and the coercions the program relies on;
    the outside world (backend, completion API, random source) as a step
    function on an abstract state, with a log of every exchange; the
    program, function by function; the specification's wording where a
    property compares the two; then the theorems.

    Conventions of the model.  A finite number is the rational it
    denotes; the one product the program computes is rounded as binary64
    products are, and the two conversions between numbers and strings
    are parameters.  A string is its sequence of UTF-8 bytes.  A request is
    kept in structured form (method, path shape, headers, body object).
    One invocation runs at a time: the interleaving of invocations at
    their [await] points is not modelled. *)

From Stdlib Require Import String Ascii List Bool Arith ZArith QArith Qround Qabs.
From Stdlib Require Import DecimalString Lia.
Import ListNotations.
Close Scope Q_scope.
Open Scope string_scope.

Set Implicit Arguments.
#[local] Set Warnings "-register-all".

(* ===================================================================== *)
(** ** Characters that cannot be written inside a string literal          *)
(* ===================================================================== *)

Definition chr (n : nat) : string := String (ascii_of_nat n) EmptyString.

(** The double quote, the line feed, the em dash U+2014 and the en dash
    U+2013 (strings are sequences of UTF-8 bytes). *)
Definition dq : string := chr 34.
Definition nl : string := chr 10.
Definition emdash : string := chr 226 ++ chr 128 ++ chr 148.
Definition endash : string := chr 226 ++ chr 128 ++ chr 147.

(* ===================================================================== *)
(** ** JavaScript values                                                  *)
(* ===================================================================== *)

(** A JavaScript number: a finite value, kept as the rational it denotes,
    or one of the three non-finite values. *)
Inductive Num : Type :=
| NFin (q : Q)
| NNaN
| NPosInf
| NNegInf.

(** The values the program handles are those [JSON.parse] builds, plus
    [undefined].  An object is the list of its own properties, in
    insertion order; a lookup takes the first binding of a key. *)
Inductive JV : Type :=
| JUndef
| JNull
| JBool (b : bool)
| JNum (n : Num)
| JStr (s : string)
| JArr (elems : list JV)
| JObj (fields : list (string * JV)).

Definition num_of_nat (n : nat) : Num := NFin (inject_Z (Z.of_nat n)).
Definition JNat (n : nat) : JV := JNum (num_of_nat n).

(** Thrown values.  [ErrOther] stands for what the outside world may
    reject with (an [AbortError], a provider specific error). *)
Inductive ErrName : Type :=
| ErrError
| ErrTypeError
| ErrSyntaxError
| ErrMcpMethodNotFound
| ErrOther (name : string).

Record JsErr : Type := mkErr { err_name : ErrName; err_message : string }.

Definition Error (m : string) : JsErr := mkErr ErrError m.
Definition TypeError (m : string) : JsErr := mkErr ErrTypeError m.

Inductive Result (A : Type) : Type :=
| Ok (a : A)
| Err (e : JsErr).
Arguments Ok {A} a.
Arguments Err {A} e.

Definition rbind {A B} (r : Result A) (k : A -> Result B) : Result B :=
  match r with
  | Ok a => k a
  | Err e => Err e
  end.

Notation "x <-? r ;; k" := (rbind r (fun x => k))
  (at level 61, r at next level, right associativity).

(** The two built-in number/string conversions are those of the host:
    [Number::toString] and [StringToNumber] of ECMA-262 (both round
    through binary64, which a rational does not record); [JSON.parse]
    is the host's parser. *)
Class Builtins : Type := {
  NumberToString : Num -> string;
  StringToNumber : string -> Num;
  JSON_parse : string -> Result JV
}.

Section Values.
Context {B : Builtins}.

Definition nullish (v : JV) : bool :=
  match v with
  | JUndef | JNull => true
  | _ => false
  end.

(** [a ?? b] *)
Definition coalesce (a b : JV) : JV := if nullish a then b else a.

(** [ToBoolean] *)
Definition truthy (v : JV) : bool :=
  match v with
  | JUndef | JNull => false
  | JBool b => b
  | JNum (NFin q) => negb (Qeq_bool q 0)
  | JNum NNaN => false
  | JNum _ => true
  | JStr s => negb (s =? "")
  | JArr _ | JObj _ => true
  end.

(** [a || b] *)
Definition or_else (a b : JV) : JV := if truthy a then a else b.

(** [typeof v === 'object'] *)
Definition typeofObject (v : JV) : bool :=
  match v with JNull | JArr _ | JObj _ => true | _ => false end.

(** [Number.isFinite(v)]: no coercion, only a finite number passes. *)
Definition Number_isFinite (v : JV) : bool :=
  match v with JNum (NFin _) => true | _ => false end.

Fixpoint lookup (k : string) (fs : list (string * JV)) : JV :=
  match fs with
  | [] => JUndef
  | (k', v) :: r => if k' =? k then v else lookup k r
  end.

Definition hasOwn (k : string) (fs : list (string * JV)) : bool :=
  existsb (fun kv => fst kv =? k) fs.

(** A canonical array index: decimal digits without a leading zero. *)
Definition digit (c : ascii) : option nat :=
  let n := nat_of_ascii c in
  if ((48 <=? n) && (n <=? 57))%nat then Some (n - 48) else None.

Fixpoint digits (s : string) (acc : nat) : option nat :=
  match s with
  | EmptyString => Some acc
  | String c r =>
      match digit c with
      | Some d => digits r (10 * acc + d)
      | None => None
      end
  end.

Definition arrayIndex (k : string) : option nat :=
  match k with
  | EmptyString => None
  | String c r =>
      if (nat_of_ascii c =? 48)%nat
      then (if r =? "" then Some 0 else None)
      else digits k 0
  end.

(** [v[k]] on a value that is neither [undefined] nor [null].  The keys
    the program reads are fixed names, none of which [Object.prototype],
    [Array.prototype] or the primitive wrappers define, so an absent own
    property reads as [undefined].  [length] is the exception; on a
    string it counts bytes here, and the program only tests it against
    zero. *)
Definition getField (v : JV) (k : string) : JV :=
  match v with
  | JObj fs => lookup k fs
  | JArr l =>
      if k =? "length" then JNat (List.length l)
      else match arrayIndex k with
           | Some i => nth i l JUndef
           | None => JUndef
           end
  | JStr s => if k =? "length" then JNat (String.length s) else JUndef
  | _ => JUndef
  end.

Definition typeName (v : JV) : string :=
  match v with JNull => "null" | _ => "undefined" end.

(** [v.k]: a [TypeError] on [undefined] and [null]. *)
Definition getProp (v : JV) (k : string) : Result JV :=
  if nullish v
  then Err (TypeError ("Cannot read properties of " ++ typeName v
                         ++ " (reading '" ++ k ++ "')"))
  else Ok (getField v k).

(** [v?.[k]] *)
Definition optGet (v : JV) (k : string) : JV :=
  if nullish v then JUndef else getField v k.

(** [o.k = x] on an object: the property keeps its place when it exists
    and is appended otherwise. *)
Fixpoint setField (k : string) (x : JV) (fs : list (string * JV))
  : list (string * JV) :=
  match fs with
  | [] => [(k, x)]
  | (k', v) :: r => if k' =? k then (k, x) :: r else (k', v) :: setField k x r
  end.

(** Module code is strict: assigning a property to a primitive throws.
    (Arrays never reach an assignment in this program.) *)
Definition setProp (v : JV) (k : string) (x : JV) : Result JV :=
  match v with
  | JObj fs => Ok (JObj (setField k x fs))
  | _ => Err (TypeError ("Cannot create property '" ++ k ++ "'"))
  end.

Definition cannotConvert : JsErr :=
  TypeError "Cannot convert object to primitive value".

(** [String(v)] / [ToString], also what a template literal applies.  An
    array is joined with commas, its [undefined] and [null] elements
    giving the empty string.  For an object, [OrdinaryToPrimitive] tries
    [toString], then [valueOf].  A parsed object has no callable property
    of its own, so an own [toString] key shadows the inherited method
    and is skipped; the inherited [valueOf] returns the object itself,
    which is no primitive; a [TypeError] is thrown.  Without such a key
    [Object.prototype.toString] answers. *)
Fixpoint ToString (v : JV) : Result string :=
  match v with
  | JUndef => Ok "undefined"
  | JNull => Ok "null"
  | JBool true => Ok "true"
  | JBool false => Ok "false"
  | JNum n => Ok (NumberToString n)
  | JStr s => Ok s
  | JArr l =>
      (fix join (l : list JV) : Result string :=
         match l with
         | [] => Ok ""
         | x :: r =>
             rbind (if nullish x then Ok "" else ToString x) (fun s =>
             match r with
             | [] => Ok s
             | _ => rbind (join r) (fun t => Ok (s ++ "," ++ t))
             end)
         end) l
  | JObj fs =>
      if hasOwn "toString" fs then Err cannotConvert
      else Ok "[object Object]"
  end.

(** [Number(v)] / [ToNumber]: an object goes through its string. *)
Definition ToNumber (v : JV) : Result Num :=
  match v with
  | JUndef => Ok NNaN
  | JNull => Ok (NFin 0)
  | JBool true => Ok (NFin 1)
  | JBool false => Ok (NFin 0)
  | JNum n => Ok n
  | JStr s => Ok (StringToNumber s)
  | JArr _ | JObj _ => rbind (ToString v) (fun s => Ok (StringToNumber s))
  end.

Definition Num_isFinite (n : Num) : bool :=
  match n with NFin _ => true | _ => false end.

(** [Math.max(a, b)] *)
Definition Math_max (a b : Num) : Num :=
  match a, b with
  | NNaN, _ | _, NNaN => NNaN
  | NPosInf, _ | _, NPosInf => NPosInf
  | NNegInf, x | x, NNegInf => x
  | NFin p, NFin q => NFin (if Qle_bool p q then q else p)
  end.

(** [a > b] on numbers *)
Definition Num_gt (a b : Num) : bool :=
  match a, b with
  | NNaN, _ | _, NNaN => false
  | NPosInf, NPosInf => false
  | NPosInf, _ => true
  | _, NPosInf => false
  | NNegInf, _ => false
  | _, NNegInf => true
  | NFin p, NFin q => negb (Qle_bool p q)
  end.

(** [v === n] for a finite number [n] *)
Definition strictEqNum (v : JV) (n : Q) : bool :=
  match v with
  | JNum (NFin q) => Qeq_bool q n
  | _ => false
  end.

(* --------------------------------------------------------------------- *)
(** *** Products of numbers                                               *)
(* --------------------------------------------------------------------- *)

(** A number of the program is an IEEE 754 binary64 value, and [a * b]
    is the exact product rounded to the nearest such value, to the one
    with an even significand when two are equally near.  [pow2 k] is
    [2^k]; [exponentOf a b] is the [e] with [2^e <= a/b < 2^(e+1)], for
    positive [a] and [b]; [nearestEven num den] is the integer nearest
    to [num/den]. *)
Definition pow2 (k : Z) : Q :=
  if (0 <=? k)%Z then inject_Z (2 ^ k) else 1 # Z.to_pos (2 ^ (- k)).

Definition exponentOf (a b : Z) : Z :=
  let e := (Z.log2 a - Z.log2 b)%Z in
  if (a * 2 ^ Z.max 0 (- e) <? b * 2 ^ Z.max 0 e)%Z then (e - 1)%Z else e.

Definition nearestEven (num den : Z) : Z :=
  let fl := (num / den)%Z in
  match (2 * (num mod den) ?= den)%Z with
  | Lt => fl
  | Gt => (fl + 1)%Z
  | Eq => if Z.even fl then fl else (fl + 1)%Z
  end.

(** The binary64 value nearest to [q], had the exponent no upper bound:
    53 significant bits above the exponent -1022, multiples of [2^-1074]
    below. *)
Definition round64 (q : Q) : Q :=
  let a := Z.abs (Qnum q) in
  let b := Zpos (Qden q) in
  if (a =? 0)%Z then 0%Q
  else
    let k := (Z.max (exponentOf a b) (-1022) - 52)%Z in
    let m := nearestEven (a * 2 ^ Z.max 0 (- k)) (b * 2 ^ Z.max 0 k) in
    Qmult (inject_Z (Z.sgn (Qnum q) * m)) (pow2 k).

(** [q] is a finite binary64 value. *)
Definition binary64 (q : Q) : bool :=
  Qeq_bool (round64 q) q && negb (Qle_bool (pow2 1024) (Qabs q)).

(** [a * b] for finite [a] and [b]: a product that rounds to [2^1024] or
    beyond is infinite. *)
Definition times (a b : Q) : Num :=
  let p := round64 (Qmult a b) in
  if Qle_bool (pow2 1024) (Qabs p)
  then (if Qle_bool 0 p then NPosInf else NNegInf)
  else NFin p.

(* --------------------------------------------------------------------- *)
(** *** [String.prototype.trim]                                           *)
(* --------------------------------------------------------------------- *)

Definition isAsciiWs (c : ascii) : bool :=
  let n := nat_of_ascii c in
  (((9 <=? n) && (n <=? 13)) || (n =? 32))%nat.

(** The white space and line terminator code points above U+007F, by
    their UTF-8 bytes: U+00A0, U+1680, U+2000..U+200A, U+2028, U+2029,
    U+202F, U+205F, U+3000 and U+FEFF. *)
Definition ws2 (a b : nat) : bool := (a =? 194)%nat && (b =? 160)%nat.
Definition ws3 (a b c : nat) : bool :=
  ((a =? 225) && (b =? 154) && (c =? 128))%nat
  || ((a =? 226)%nat && (b =? 128)%nat
      && (((128 <=? c) && (c <=? 138)) || (c =? 168) || (c =? 169)
          || (c =? 175))%nat)
  || ((a =? 226) && (b =? 129) && (c =? 159))%nat
  || ((a =? 227) && (b =? 128) && (c =? 128))%nat
  || ((a =? 239) && (b =? 187) && (c =? 191))%nat.

Fixpoint trimStart (s : string) : string :=
  match s with
  | EmptyString => EmptyString
  | String a r =>
      if isAsciiWs a then trimStart r
      else match r with
           | String b r2 =>
               if ws2 (nat_of_ascii a) (nat_of_ascii b) then trimStart r2
               else match r2 with
                    | String c r3 =>
                        if ws3 (nat_of_ascii a) (nat_of_ascii b) (nat_of_ascii c)
                        then trimStart r3 else s
                    | EmptyString => s
                    end
           | EmptyString => s
           end
  end.

Definition allWs (s : string) : bool := trimStart s =? "".

Fixpoint trimEnd (s : string) : string :=
  match s with
  | EmptyString => EmptyString
  | String a r => if allWs s then EmptyString else String a (trimEnd r)
  end.

Definition trim (s : string) : string := trimEnd (trimStart s).

End Values.

(* ===================================================================== *)
(** ** The outside world                                                  *)
(* ===================================================================== *)

(** [src/env.js]; every entry is a string, empty when unset. *)
Record Env : Type := {
  API_BASE_URL : string;
  API_KEY : string;
  OPENAI_API_KEY : string;
  OPENAI_MODEL : string
}.

Inductive Method : Type := GET | POST | PUT | DELETE.

(** The two URL shapes the program builds under [API_BASE_URL]:
    [/projects] with query parameters, before [URLSearchParams]
    serialises them, and [/projects/<id>], before [encodeURIComponent]. *)
Inductive Target : Type :=
| Projects (query : list (string * string))
| ProjectById (id : string).

(** One call of [http(path, init)]; the body is the object handed to
    [JSON.stringify]. *)
Record Request : Type := {
  rq_method : Method;
  rq_base : string;
  rq_target : Target;
  rq_headers : list (string * string);
  rq_body : option JV
}.

(** The argument of [callOpenAI]: messages as (role, content) pairs. *)
Record ChatRequest : Type := {
  ch_model : string;
  ch_messages : list (string * string);
  ch_max_tokens : nat;
  ch_temperature : Q
}.

Inductive Event : Type :=
| EvHttp (rq : Request) (resp : Result JV)
| EvChat (rq : ChatRequest) (resp : Result JV)
| EvRandom (r : Q).

(** What the program cannot decide: what [http] resolves to or rejects
    with ([src/http.js] over the backend), the reply text of the
    completion API, and the draws of [Math.random()]. *)
Class External : Type := {
  Ext : Type;
  http_step : Ext -> Request -> Result JV * Ext;
  chat_step : Ext -> ChatRequest -> Result JV * Ext;
  random_step : Ext -> Q * Ext
}.

(** The [memory] object of [src/server.js]. *)
Record Memory : Type := {
  lastProject : JV;
  lastSearchItems : list JV
}.

Definition initialMemory : Memory :=
  {| lastProject := JNull; lastSearchItems := [] |}.

Record World {X : External} : Type := {
  memory : Memory;
  ext : Ext;
  trace : list Event
}.

(* ===================================================================== *)
(** ** State and exception monad                                          *)
(* ===================================================================== *)

Section Monad.
Context {X : External}.

(** A computation either returns or throws, and leaves a world behind in
    both cases. *)
Definition M (A : Type) : Type := World -> Result A * World.

Definition ret {A} (a : A) : M A := fun w => (Ok a, w).

Definition throw {A} (e : JsErr) : M A := fun w => (Err e, w).

Definition bind {A C} (m : M A) (k : A -> M C) : M C :=
  fun w =>
    match m w with
    | (Ok a, w') => k a w'
    | (Err e, w') => (Err e, w')
    end.

Definition lift {A} (r : Result A) : M A := fun w => (r, w).

(** [try { m } catch (e) { h e }] *)
Definition try_catch {A} (m : M A) (h : JsErr -> M A) : M A :=
  fun w =>
    match m w with
    | (Ok a, w') => (Ok a, w')
    | (Err e, w') => h e w'
    end.

Definition getMemory : M Memory := fun w => (Ok (memory w), w).

(** [memory.lastProject = v] and [memory.lastSearchItems = l] *)
Definition withLastProject (v : JV) (w : World) : World :=
  {| memory := {| lastProject := v;
                  lastSearchItems := lastSearchItems (memory w) |};
     ext := ext w; trace := trace w |}.

Definition withLastSearchItems (l : list JV) (w : World) : World :=
  {| memory := {| lastProject := lastProject (memory w);
                  lastSearchItems := l |};
     ext := ext w; trace := trace w |}.

Definition setLastProject (v : JV) : M unit :=
  fun w => (Ok tt, withLastProject v w).

Definition setLastSearchItems (l : list JV) : M unit :=
  fun w => (Ok tt, withLastSearchItems l w).

Definition record (x : Ext) (ev : Event) (w : World) : World :=
  {| memory := memory w; ext := x; trace := (trace w ++ [ev])%list |}.

(** [await http(...)] *)
Definition http (rq : Request) : M JV :=
  fun w => let (r, x) := http_step (ext w) rq in (r, record x (EvHttp rq r) w).

(** [Math.random()] *)
Definition Math_random : M Q :=
  fun w => let (r, x) := random_step (ext w) in (Ok r, record x (EvRandom r) w).

End Monad.

Notation "x <- m ;; k" := (bind m (fun x => k))
  (at level 61, m at next level, right associativity).
Notation "m ;;; k" := (bind m (fun _ => k))
  (at level 61, right associativity).

(** What a computation does to the memory. *)
Section Outcomes.
Context {B : Builtins} {X : External}.

(** It leaves the memory as it found it, whether it returns or throws. *)
Definition preserves {A} (m : M A) : Prop :=
  forall w, memory (snd (m w)) = memory w.

(** It leaves [lastSearchItems] as it found it. *)
Definition keepsSearchItems {A} (m : M A) : Prop :=
  forall w,
    lastSearchItems (memory (snd (m w))) = lastSearchItems (memory w).

(** The state in which a deletion that threw may leave the world: the
    backend has answered the DELETE request, which is the last exchange;
    [lastProject] is cleared; the error is that of converting a display
    name to a string. *)
Definition clearedByDelete (before : Memory) (e : JsErr) (w' : World) : Prop :=
  memory w' = {| lastProject := JNull;
                 lastSearchItems := lastSearchItems before |}
  /\ (exists name, ToString name = Err e)
  /\ exists rq v evs,
       rq_method rq = DELETE /\ trace w' = (evs ++ [EvHttp rq (Ok v)])%list.

(** A failure leaves the memory untouched, or satisfies [Q]. *)
Definition failsAtomicallyOr (Q : Memory -> JsErr -> World -> Prop) {A}
  (m : M A) : Prop :=
  forall w e w',
    m w = (Err e, w') -> memory w' = memory w \/ Q (memory w) e w'.

(** Every run appends to the log of exchanges. *)
Definition extends {A} (m : M A) : Prop :=
  forall w, exists evs, trace (snd (m w)) = (trace w ++ evs)%list.

End Outcomes.

(* ===================================================================== *)
(** ** The program: [src/server.js]                                       *)
(* ===================================================================== *)

(** A content block of a tool result. *)
Inductive Block : Type :=
| BText (t : JV)
| BJson (j : JV).

(** The value [normalizeListPayload] returns. *)
Record Payload : Type := { items : list JV; total : Num }.

Definition payloadJson (p : Payload) : JV :=
  JObj [("items", JArr (items p)); ("total", JNum (total p))].

Section Program.
Context {B : Builtins} {X : External}.
Variable ENV : Env.

(** [const text = (t) => [{ type: 'text', text: String(t) }]] *)
Definition text (t : string) : list Block := [BText (JStr t)].

Definition withApiKey (headers : list (string * string))
  : list (string * string) :=
  if API_KEY ENV =? "" then headers
  else (headers ++ [("x-api-key", API_KEY ENV)])%list.

Definition missingOrInvalid (key : string) : JsErr :=
  Error ("Missing or invalid " ++ dq ++ key ++ dq).

Definition requireString (obj : JV) (key : string) : Result string :=
  match optGet obj key with
  | JStr v => if trim v =? "" then Err (missingOrInvalid key) else Ok (trim v)
  | _ => Err (missingOrInvalid key)
  end.

Definition hasNonEmptyString (obj : JV) (key : string) : bool :=
  match optGet obj key with
  | JStr v => negb (trim v =? "")
  | _ => false
  end.

(* --------------------------------------------------------------------- *)
(** *** Robust list payload normalizer                                    *)
(* --------------------------------------------------------------------- *)

Definition invalidListPayload : JsErr :=
  Error "Invalid list payload: expected array or object".

Definition candidates (result : JV) : list (string * JV) :=
  [ ("items", result); ("data", result); ("results", result);
    ("rows", result); ("projects", result);
    ("items", optGet result "data") ].

(** [Number(obj.total ?? obj.count ?? obj.totalCount ?? items.length)],
    then the finiteness test. *)
Definition payloadOf (obj : JV) (its : list JV) : Result Payload :=
  n <-? ToNumber (coalesce (getField obj "total")
                 (coalesce (getField obj "count")
                 (coalesce (getField obj "totalCount")
                           (JNat (List.length its))))) ;;
  Ok {| items := its;
        total := if Num_isFinite n then n else num_of_nat (List.length its) |}.

(** The [for ... of candidates] loop: [None] when it runs to its end. *)
Fixpoint probe (cs : list (string * JV)) : option (Result Payload) :=
  match cs with
  | [] => None
  | (key, obj) :: rest =>
      if truthy obj && typeofObject obj then
        match getField obj key with
        | JArr its => Some (payloadOf obj its)
        | _ => probe rest
        end
      else probe rest
  end.

Definition normalizeListPayload (result : JV) : Result Payload :=
  match result with
  | JArr l => Ok {| items := l; total := num_of_nat (List.length l) |}
  | _ =>
      if negb (truthy result) || negb (typeofObject result)
      then Err invalidListPayload
      else match probe (candidates result) with
           | Some r => r
           | None => Ok {| items := [result]; total := NFin 1 |}
           end
  end.

(* --------------------------------------------------------------------- *)
(** *** Helpers that use the backend                                      *)
(* --------------------------------------------------------------------- *)

Definition request (m : Method) (t : Target) (h : list (string * string))
  (b : option JV) : Request :=
  {| rq_method := m; rq_base := API_BASE_URL ENV; rq_target := t;
     rq_headers := h; rq_body := b |}.

Definition listRequest (query : list (string * string)) : Request :=
  request GET (Projects query) (withApiKey []) None.

Definition jsonHeaders : list (string * string) :=
  (("Content-Type", "application/json") :: withApiKey [])%list.

(** [callOpenAI] of [src/openai.js]: the credential check, then the
    exchange; the result is the [text] field of what it returns. *)
Definition chatRequest (messages : list (string * string)) (max_tokens : nat)
  (temperature : Q) : ChatRequest :=
  {| ch_model := OPENAI_MODEL ENV; ch_messages := messages;
     ch_max_tokens := max_tokens; ch_temperature := temperature |}.

Definition callOpenAI (rq : ChatRequest) : M JV :=
  if OPENAI_API_KEY ENV =? ""
  then throw (Error "Missing OPENAI_API_KEY in environment")
  else fun w =>
         let (r, x) := chat_step (ext w) rq in (r, record x (EvChat rq r) w).

Definition defaultTemperature : Q := 2 # 10.

(** [items[0] || null] *)
Definition firstOrNull (its : list JV) : JV := or_else (nth 0 its JUndef) JNull.

Definition searchFirstByName (name : JV) : M JV :=
  q <- lift (ToString name) ;;
  result <- http (listRequest [("q", q); ("limit", "1")]) ;;
  p <- lift (normalizeListPayload result) ;;
  ret (firstOrNull (items p)).

Definition fetchSomeProjects (limit : Num) : M (list JV) :=
  result <- http (listRequest [("limit", NumberToString limit)]) ;;
  p <- lift (normalizeListPayload result) ;;
  ret (items p).

(* --------------------------------------------------------------------- *)
(** *** The tools                                                         *)
(* --------------------------------------------------------------------- *)

(** [...(args.key ? { key: String(args.key) } : {})] *)
Definition optionalField (args : JV) (key : string)
  : Result (list (string * JV)) :=
  v <-? getProp args key ;;
  if truthy v then (s <-? ToString v ;; Ok [(key, JStr s)]) else Ok [].

Definition notConfigured : JsErr :=
  Error "OpenAI is not configured. Set OPENAI_API_KEY in .env.".

Definition summarizePrompt (input : string) : list (string * string) :=
  [ ("system", "You are a concise assistant. Summarize the text into 1"
                 ++ endash ++ "3 short bullet points.");
    ("user", input) ].

(** [case 'ai.summarize'] *)
Definition toolSummarize (args : JV) : M (list Block) :=
  input <- lift (requireString args "text") ;;
  if OPENAI_API_KEY ENV =? "" then throw notConfigured
  else
    summary <- callOpenAI (chatRequest (summarizePrompt input) 180
                                       defaultTemperature) ;;
    ret [BText summary].

(** [case 'projects.create'] *)
Definition toolCreate (args : JV) : M (list Block) :=
  projectName <- lift (requireString args "projectName") ;;
  address <- lift (requireString args "address") ;;
  zoningCode <- lift (requireString args "zoningCode") ;;
  zoneType <- lift (requireString args "zoneType") ;;
  notes <- lift (optionalField args "notes") ;;
  let body := JObj ([ ("projectName", JStr projectName);
                      ("address", JStr address);
                      ("zoningCode", JStr zoningCode);
                      ("zoneType", JStr zoneType) ] ++ notes)%list in
  created <- http (request POST (Projects []) jsonHeaders (Some body)) ;;
  setLastProject (or_else created JNull) ;;;
  ret [BJson created].

(** [String(v.id ?? v.projectId)] *)
Definition identifierOf (v : JV) : Result string :=
  i <-? getProp v "id" ;;
  j <-? (if nullish i then getProp v "projectId" else Ok i) ;;
  ToString j.

(** [!id] for the local [id], which is [null] or a string. *)
Definition idMissing (id : option string) : bool :=
  match id with
  | None => true
  | Some s => s =? ""
  end.

Definition notFoundByName (name : string) : JsErr :=
  Error ("Project not found by name: " ++ name).

Definition provideIdOrName : JsErr :=
  Error ("Provide either " ++ dq ++ "id" ++ dq ++ " or " ++ dq
           ++ "projectName" ++ dq ++ ", or run a search/get first.").

(** [let id = hasNonEmptyString(args, 'id') ? String(args.id) : null] *)
Definition explicitId (args : JV) : Result (option string) :=
  if hasNonEmptyString args "id"
  then (v <-? getProp args "id" ;; s <-? ToString v ;; Ok (Some s))
  else Ok None.

(** Lines 239-243 of [runTool]: the search by name of [projects.get],
    entered when no identifier was given. *)
Definition nameTier (args : JV) (id0 : option string) : M (option string) :=
  if idMissing id0 && hasNonEmptyString args "projectName" then
    name <- lift (getProp args "projectName") ;;
    found <- searchFirstByName name ;;
    if negb (truthy found)
    then (s <- lift (ToString name) ;; throw (notFoundByName s))
    else (s <- lift (identifierOf found) ;; ret (Some s))
  else ret id0.

(** Lines 244-250: the two fallbacks on the memory, and the failure. *)
Definition memoryTiers (id1 : option string) : M string :=
  mem <- getMemory ;;
  id2 <- (if idMissing id1 && truthy (optGet (lastProject mem) "id") then
            s <- lift (v <-? getProp (lastProject mem) "id" ;; ToString v) ;;
            ret (Some s)
          else ret id1) ;;
  mem <- getMemory ;;
  let first := nth 0 (lastSearchItems mem) JUndef in
  id3 <- (if idMissing id2 && truthy (optGet first "id") then
            s <- lift (v <-? getProp first "id" ;; ToString v) ;;
            ret (Some s)
          else ret id2) ;;
  match id3 with
  | Some s => if s =? "" then throw provideIdOrName else ret s
  | None => throw provideIdOrName
  end.

(** Lines 237-250: the identifier [projects.get] fetches. *)
Definition resolveGetId (args : JV) : M string :=
  id0 <- lift (explicitId args) ;;
  id1 <- nameTier args id0 ;;
  memoryTiers id1.

Definition summaryPrompt (notes : string) : list (string * string) :=
  [ ("system", "You are a concise summarizer. Summarize the project notes into 1"
                 ++ endash ++ "2 sentences.");
    ("user", notes) ].

Definition errNameText (n : ErrName) : string :=
  match n with
  | ErrError => "Error"
  | ErrTypeError => "TypeError"
  | ErrSyntaxError => "SyntaxError"
  | ErrMcpMethodNotFound => "McpError"
  | ErrOther s => s
  end.

(** [String(e?.message || e)] *)
Definition errorText (e : JsErr) : string :=
  if err_message e =? "" then errNameText (err_name e) else err_message e.

(** Lines 256-267: the notes summary, with its [try]/[catch]. *)
Definition summarizeNotes (project : JV) : M JV :=
  if negb (OPENAI_API_KEY ENV =? "") && truthy (optGet project "notes") then
    try_catch
      (notes <- lift (v <-? getProp project "notes" ;; ToString v) ;;
       summary <- callOpenAI (chatRequest (summaryPrompt notes) 120
                                          defaultTemperature) ;;
       lift (setProp project "notes_summary" summary))
      (fun e =>
         lift (setProp project "notes_summary_error" (JStr (errorText e))))
  else ret project.

(** [case 'projects.get'] *)
Definition toolGet (args : JV) : M (list Block) :=
  id <- resolveGetId args ;;
  fetched <- http (request GET (ProjectById id) (withApiKey []) None) ;;
  project <- summarizeNotes fetched ;;
  setLastProject (or_else project JNull) ;;;
  ret [BJson project].

(** [case 'projects.update'] *)
Definition toolUpdate (args : JV) : M (list Block) :=
  id <- lift (requireString args "id") ;;
  f1 <- lift (optionalField args "projectName") ;;
  f2 <- lift (optionalField args "address") ;;
  f3 <- lift (optionalField args "zoningCode") ;;
  f4 <- lift (optionalField args "zoneType") ;;
  f5 <- lift (optionalField args "notes") ;;
  let body := JObj (f1 ++ f2 ++ f3 ++ f4 ++ f5)%list in
  updated <- http (request PUT (ProjectById id) jsonHeaders (Some body)) ;;
  setLastProject (or_else updated JNull) ;;;
  ret [BJson updated].

(** Lines 299-304: the search by name of [projects.delete]; the second
    component is [nameUsed]. *)
Definition nameTierDelete (args : JV) (id0 : option string)
  : M (option string * JV) :=
  if idMissing id0 && hasNonEmptyString args "projectName" then
    name <- lift (getProp args "projectName") ;;
    nameUsed <- lift (ToString name) ;;
    found <- searchFirstByName (JStr nameUsed) ;;
    if negb (truthy found) then throw (notFoundByName nameUsed)
    else (s <- lift (identifierOf found) ;; ret (Some s, JStr nameUsed))
  else ret (id0, JNull).

(** Lines 305-314: the context fallbacks and the failure. *)
Definition memoryTiersDelete (r1 : option string * JV) : M (string * JV) :=
  mem <- getMemory ;;
  r2 <- (if idMissing (fst r1) && truthy (optGet (lastProject mem) "id") then
           s <- lift (v <-? getProp (lastProject mem) "id" ;; ToString v) ;;
           n <- lift (getProp (lastProject mem) "projectName") ;;
           ret (Some s, or_else n (snd r1))
         else ret r1) ;;
  mem <- getMemory ;;
  let first := nth 0 (lastSearchItems mem) JUndef in
  r3 <- (if idMissing (fst r2) && truthy (optGet first "id") then
           s <- lift (v <-? getProp first "id" ;; ToString v) ;;
           n <- lift (getProp first "projectName") ;;
           ret (Some s, or_else n (snd r2))
         else ret r2) ;;
  match fst r3 with
  | Some s => if s =? "" then throw provideIdOrName else ret (s, snd r3)
  | None => throw provideIdOrName
  end.

(** Lines 296-314: the identifier [projects.delete] removes, and the
    display name captured on the way. *)
Definition resolveDeleteId (args : JV) : M (string * JV) :=
  id0 <- lift (explicitId args) ;;
  r1 <- nameTierDelete args id0 ;;
  memoryTiersDelete r1.

(** The confirmation of [projects.delete]; the template literal converts
    [nameUsed] to a string. *)
Definition deletedMessage (nameUsed : JV) (id : string) : Result string :=
  if truthy nameUsed then
    n <-? ToString nameUsed ;;
    Ok ("Deleted project " ++ dq ++ n ++ dq ++ " (id: " ++ id ++ ").")
  else Ok ("Deleted project " ++ id ++ ".").

(** [case 'projects.delete'] *)
Definition toolDelete (args : JV) : M (list Block) :=
  r <- resolveDeleteId args ;;
  http (request DELETE (ProjectById (fst r)) (withApiKey []) None) ;;;
  setLastProject JNull ;;;
  humanMsg <- lift (deletedMessage (snd r) (fst r)) ;;
  ret (text humanMsg).

(** [Number.isFinite(args.limit) ? Math.max(1, Number(args.limit)) : 25] *)
Definition batchLimitOf (limit : JV) : Result Num :=
  if Number_isFinite limit
  then (n <-? ToNumber limit ;; Ok (Math_max (NFin 1) n))
  else Ok (NFin 25).

(** [items[Math.floor(r * items.length)]]: the product is a binary64
    product; an index that is no index of the array gives [undefined]. *)
Definition pickAt (its : list JV) (r : Q) : JV :=
  match times r (inject_Z (Z.of_nat (List.length its))) with
  | NFin p =>
      let i := Qfloor p in
      if (i <? 0)%Z then JUndef else nth (Z.to_nat i) its JUndef
  | _ => JUndef
  end.

Definition noProjects : JsErr := Error "No projects available to delete.".

Definition deletedRandomMessage (name : JV) (id : string) : Result string :=
  n <-? ToString name ;;
  Ok ("Deleted random project " ++ dq ++ n ++ dq ++ " (id: " ++ id ++ ").").

(** Lines 333-344: one of the fetched items is drawn and deleted. *)
Definition deleteRandomlyFrom (its : list JV) : M (list Block) :=
  if negb (truthy (JNat (List.length its))) then throw noProjects
  else
    r <- Math_random ;;
    let pick := pickAt its r in
    id <- lift (identifierOf pick) ;;
    name <- lift (n1 <-? getProp pick "projectName" ;;
                  n2 <-? (if nullish n1 then getProp pick "name" else Ok n1) ;;
                  Ok (coalesce n2 (JStr "(unnamed)"))) ;;
    http (request DELETE (ProjectById id) (withApiKey []) None) ;;;
    setLastProject JNull ;;;
    msg <- lift (deletedRandomMessage name id) ;;
    ret (text msg).

(** [case 'projects.deleteRandom'] *)
Definition toolDeleteRandom (args : JV) : M (list Block) :=
  limit <- lift (getProp args "limit") ;;
  batchLimit <- lift (batchLimitOf limit) ;;
  its <- fetchSomeProjects batchLimit ;;
  deleteRandomlyFrom its.

(** [if (args[key]) params.set(key, String(args[key]))], key by key. *)
Fixpoint filterParams (args : JV) (keys : list string)
  : Result (list (string * string)) :=
  match keys with
  | [] => Ok []
  | key :: rest =>
      v <-? getProp args key ;;
      here <-? (if truthy v then (s <-? ToString v ;; Ok [(key, s)])
                else Ok []) ;;
      more <-? filterParams args rest ;;
      Ok (here ++ more)%list
  end.

(** [if (Number.isFinite(args.key)) params.set(key, String(args.key))] *)
Definition numberParam (args : JV) (key : string)
  : Result (list (string * string)) :=
  v <-? getProp args key ;;
  if Number_isFinite v then (s <-? ToString v ;; Ok [(key, s)]) else Ok [].

Definition searchKeys : list string :=
  ["q"; "zoning_code"; "zone_type"; "address"; "city"; "state"].

(** [payload.items || []]: an array is truthy. *)
Definition itemsOrEmpty (its : list JV) : list JV :=
  if truthy (JArr its) then its else [].

(** [case 'projects.search'] *)
Definition toolSearch (args : JV) : M (list Block) :=
  filters <- lift (filterParams args searchKeys) ;;
  page <- lift (numberParam args "page") ;;
  limit <- lift (numberParam args "limit") ;;
  result <- http (listRequest (filters ++ page ++ limit)%list) ;;
  payload <- lift (normalizeListPayload result) ;;
  setLastSearchItems (itemsOrEmpty (items payload)) ;;;
  ret [BJson (payloadJson payload)].

Definition unknownTool (name : string) : JsErr :=
  mkErr ErrMcpMethodNotFound ("Unknown tool: " ++ name).

(** The default of the parameter [args = {}]. *)
Definition defaultArgs (args : JV) : JV :=
  match args with
  | JUndef => JObj []
  | _ => args
  end.

(** [async function runTool(name, args = {})] *)
Definition runTool (name : string) (args0 : JV) : M (list Block) :=
  let args := defaultArgs args0 in
  if name =? "ai.summarize" then toolSummarize args
  else if name =? "projects.create" then toolCreate args
  else if name =? "projects.get" then toolGet args
  else if name =? "projects.update" then toolUpdate args
  else if name =? "projects.delete" then toolDelete args
  else if name =? "projects.deleteRandom" then toolDeleteRandom args
  else if name =? "projects.search" then toolSearch args
  else throw (unknownTool name).

End Program.

(* ===================================================================== *)
(** ** Human-friendly renderers and the router reply                      *)
(* ===================================================================== *)

Section Render.
Context {B : Builtins}.

Definition pipe : ascii := ascii_of_nat 124.
Definition backslash : ascii := ascii_of_nat 92.

(** [.replace(/\|/g, '\\|')] *)
Fixpoint replacePipes (s : string) : string :=
  match s with
  | EmptyString => EmptyString
  | String c r =>
      if Ascii.eqb c pipe then String backslash (String pipe (replacePipes r))
      else String c (replacePipes r)
  end.

(** [mdEscape(s)]: [String(s ?? '')] with every pipe escaped. *)
Definition mdEscape (s : JV) : Result string :=
  t <-? ToString (coalesce s (JStr "")) ;;
  Ok (replacePipes t).

(** [p.k ?? '<em dash>'] and [p.k1 ?? p.k2 ?? '<em dash>'] *)
Definition field1 (p : JV) (k : string) : Result JV :=
  a <-? getProp p k ;;
  Ok (coalesce a (JStr emdash)).

Definition field2 (p : JV) (k1 k2 : string) : Result JV :=
  a <-? getProp p k1 ;;
  b <-? (if nullish a then getProp p k2 else Ok a) ;;
  Ok (coalesce b (JStr emdash)).

(** The arrow function mapped over the first five items. *)
Definition renderRow (p : JV) : Result string :=
  name <-? field2 p "projectName" "name" ;;
  addr <-? field1 p "address" ;;
  zc <-? field2 p "zoningCode" "zoning_code" ;;
  zt <-? field2 p "zoneType" "zone_type" ;;
  id <-? field2 p "id" "projectId" ;;
  c1 <-? mdEscape name ;;
  c2 <-? mdEscape addr ;;
  c3 <-? mdEscape zc ;;
  c4 <-? mdEscape zt ;;
  c5 <-? mdEscape id ;;
  Ok ("| " ++ c1 ++ " | " ++ c2 ++ " | " ++ c3 ++ " | " ++ c4
        ++ " | `" ++ c5 ++ "` |").

(** [Array.prototype.map] with a callback that may throw. *)
Fixpoint mapResult {A C} (f : A -> Result C) (l : list A) : Result (list C) :=
  match l with
  | [] => Ok []
  | a :: r => c <-? f a ;; cs <-? mapResult f r ;; Ok (c :: cs)
  end.

(** [.join('\n')] *)
Fixpoint joinLines (l : list string) : string :=
  match l with
  | [] => ""
  | [s] => s
  | s :: r => s ++ nl ++ joinLines r
  end.

Definition tableHead : string :=
  "| Project | Address | Zoning | Zone Type | ID |" ++ nl
    ++ "|---|---|---|---|---|".

Definition noMatching : string := "No matching projects found.".

Definition truncationNote (total : string) : string :=
  nl ++ nl ++ "_Showing 5 of " ++ total ++ " results._".

Definition renderSearch (json : JV) : Result string :=
  let j := or_else json (JObj []) in
  let its := match getField j "items" with JUndef => JArr [] | v => v end in
  total <-? match getField j "total" with
            | JUndef => getProp its "length"
            | v => Ok v
            end ;;
  len <-? getProp its "length" ;;
  if negb (truthy len) then Ok noMatching
  else
    match its with
    | JArr l =>
        rows <-? mapResult renderRow (firstn 5 l) ;;
        n <-? ToNumber total ;;
        more <-? (if Num_gt n (NFin 5)
                  then (t <-? ToString total ;; Ok (truncationNote t))
                  else Ok "") ;;
        t <-? ToString total ;;
        Ok ("**Found " ++ t ++ " project"
              ++ (if strictEqNum total 1 then "" else "s") ++ "**"
              ++ nl ++ nl ++ tableHead ++ nl ++ joinLines rows ++ more)
    | JStr _ => Err (TypeError "items.slice(...).map is not a function")
    | _ => Err (TypeError "items.slice is not a function")
    end.

(* --------------------------------------------------------------------- *)
(** *** The router reply of [POST /chat]                                  *)
(* --------------------------------------------------------------------- *)

Definition braceOpen : ascii := ascii_of_nat 123.
Definition braceClose : ascii := ascii_of_nat 125.

(** The longest prefix of [s] that ends with a closing brace: what the
    greedy [[\s\S]*\}] consumes. *)
Fixpoint lastClose (s : string) : option string :=
  match s with
  | EmptyString => None
  | String c r =>
      match lastClose r with
      | Some p => Some (String c p)
      | None => if Ascii.eqb c braceClose then Some (String c EmptyString)
                else None
      end
  end.

(** [toolPlanText.match(/\{[\s\S]*\}/)]: the leftmost start position at
    which the pattern matches, and the longest match from there. *)
Fixpoint matchBraces (s : string) : option string :=
  match s with
  | EmptyString => None
  | String c r =>
      if Ascii.eqb c braceOpen then
        match lastClose r with
        | Some p => Some (String c p)
        | None => matchBraces r
        end
      else matchBraces r
  end.

Definition noJson : JsErr := Error "Router did not return JSON".

(** Lines 537-544: [plan] from the reply text. *)
Definition parsePlan (toolPlanText : string) : Result JV :=
  match JSON_parse toolPlanText with
  | Ok plan => Ok plan
  | Err _ =>
      match matchBraces toolPlanText with
      | None => Err noJson
      | Some m => JSON_parse m
      end
  end.

(** Line 545 *)
Definition routerPlan (toolPlanText : string) : Result JV :=
  plan <-? parsePlan toolPlanText ;;
  if truthy (optGet plan "tool") then Ok plan
  else Err (Error "Router did not specify tool").

End Render.

(* ===================================================================== *)
(** ** The specification's wording, for comparison                        *)
(* ===================================================================== *)

Section Wording.
Context {B : Builtins}.

(** The first of [keys] whose value on [obj] is an array. *)
Fixpoint firstArray (obj : JV) (keys : list string) : option (list JV) :=
  match keys with
  | [] => None
  | k :: r =>
      match getField obj k with
      | JArr l => Some l
      | _ => firstArray obj r
      end
  end.

(** The first of [keys] that [obj] defines, else [dflt]. *)
Fixpoint firstPresent (obj : JV) (keys : list string) (dflt : JV) : JV :=
  match keys with
  | [] => dflt
  | k :: r =>
      if nullish (getField obj k) then firstPresent obj r dflt
      else getField obj k
  end.

Definition topLevelKeys : list string :=
  ["items"; "data"; "results"; "rows"; "projects"].

(** Section 4.3: the matching object and its array, top level first,
    then [items] under [data]. *)
Definition matchingShape (value : JV) : option (JV * list JV) :=
  match firstArray value topLevelKeys with
  | Some l => Some (value, l)
  | None =>
      match firstArray (getField value "data") ["items"] with
      | Some l => Some (getField value "data", l)
      | None => None
      end
  end.

(** Section 4.3: the total is the object's [total], else [count], else
    [totalCount], else the length of the sequence, coerced to a number;
    the length again when the coercion gives no finite number. *)
Definition totalCandidate (obj : JV) (its : list JV) : JV :=
  firstPresent obj ["total"; "count"; "totalCount"] (JNat (List.length its)).

Definition totalFor (obj : JV) (its : list JV) : Num :=
  match ToNumber (totalCandidate obj its) with
  | Ok (NFin q) => NFin q
  | _ => num_of_nat (List.length its)
  end.

(** Section 4.3 has two outcomes: a payload, and the failure on a value
    that is not an object at all. *)
Definition normalize_spec (value : JV) : Result Payload :=
  match value with
  | JArr l => Ok {| items := l; total := num_of_nat (List.length l) |}
  | JObj _ =>
      match matchingShape value with
      | Some (obj, its) => Ok {| items := its; total := totalFor obj its |}
      | None => Ok {| items := [value]; total := NFin 1 |}
      end
  | _ => Err (mkErr ErrError "Invalid list payload: expected array or object")
  end.

(** The first balanced brace substring: from the leftmost opening brace
    that is ever closed, up to the brace that closes it.  [closing s d]
    is the shortest prefix of [s] that brings the depth [S d] to zero. *)
Fixpoint closing (s : string) (depth : nat) : option string :=
  match s with
  | EmptyString => None
  | String c r =>
      if Ascii.eqb c braceOpen
      then option_map (String c) (closing r (S depth))
      else if Ascii.eqb c braceClose
      then match depth with
           | O => Some (String c EmptyString)
           | S d => option_map (String c) (closing r d)
           end
      else option_map (String c) (closing r depth)
  end.

Fixpoint firstBalanced (s : string) : option string :=
  match s with
  | EmptyString => None
  | String c r =>
      if Ascii.eqb c braceOpen then
        match closing r 0 with
        | Some p => Some (String c p)
        | None => firstBalanced r
        end
      else firstBalanced r
  end.

(** A character occurs in a string. *)
Fixpoint occurs (c : ascii) (s : string) : bool :=
  match s with
  | EmptyString => false
  | String d r => Ascii.eqb d c || occurs c r
  end.

(** Section 2: the identifier of an entity is under [id], else under
    [projectId]. *)
Definition identifierField (v : JV) : JV :=
  if nullish (getField v "id") then getField v "projectId"
  else getField v "id".






(** Section 4.4, get: the text that stands for a failed summary on the
    entity: the message the error carries; an error without message is
    there under the name of its kind. *)
Definition attachedText (e : JsErr) : string :=
  match err_message e with
  | String c m => String c m
  | EmptyString =>
      match err_name e with
      | ErrError => "Error"
      | ErrTypeError => "TypeError"
      | ErrSyntaxError => "SyntaxError"
      | ErrMcpMethodNotFound => "McpError"
      | ErrOther kind => kind
      end
  end.

(** The characters of section 4.6 that a literal cannot hold, byte by
    byte: the line feed and the em dash U+2014. *)
Definition lineFeed : string := String (ascii_of_nat 10) EmptyString.

Definition placeholder : string :=
  String (ascii_of_nat 226)
    (String (ascii_of_nat 128) (String (ascii_of_nat 148) EmptyString)).

(** The search renderer as section 4.6 words it: a cell is the value of
    a field under the first of its two names that is there, the em dash
    standing for a missing one. *)
Definition cellValue (p : JV) (k1 k2 : string) : JV :=
  firstPresent p [k1; k2] (JStr placeholder).

Definition rowCells (p : JV) : list JV :=
  [ cellValue p "projectName" "name";
    cellValue p "address" "address";
    cellValue p "zoningCode" "zoning_code";
    cellValue p "zoneType" "zone_type";
    cellValue p "id" "projectId" ].

Definition rowOf (cells : list string) : string :=
  match cells with
  | [c1; c2; c3; c4; c5] =>
      "| " ++ c1 ++ " | " ++ c2 ++ " | " ++ c3 ++ " | " ++ c4
        ++ " | `" ++ c5 ++ "` |"
  | _ => ""
  end.

(** Every pipe of [s] is preceded by a backslash. *)
Fixpoint pipesEscaped (s : string) : bool :=
  match s with
  | EmptyString => true
  | String c r =>
      if (nat_of_ascii c =? 124)%nat then false
      else match r with
           | String d r' =>
               if ((nat_of_ascii c =? 92) && (nat_of_ascii d =? 124))%nat
               then pipesEscaped r' else pipesEscaped r
           | EmptyString => true
           end
  end.

(** [String] applies to the value without throwing. *)
Definition convertible (v : JV) : bool :=
  match ToString v with
  | Ok _ => true
  | Err _ => false
  end.

(** An item the renderer can show: it is there (reading a field of
    [undefined] or [null] throws) and its five cells convert to strings.
    Every entity of the data model, a mapping whose known fields are
    strings, is of that kind. *)
Definition displayable (p : JV) : bool :=
  negb (nullish p) && forallb convertible (rowCells p).

(** The text of a convertible value. *)
Definition display (v : JV) : string :=
  match ToString v with
  | Ok s => s
  | Err _ => ""
  end.

(** A cell's text with a backslash put in front of every pipe (the
    byte 124), and the way back: a backslash that stands in front of a
    pipe is dropped. *)
Fixpoint escaped (s : string) : string :=
  match s with
  | EmptyString => EmptyString
  | String c r =>
      (if (nat_of_ascii c =? 124)%nat then "\|" else String c EmptyString)
        ++ escaped r
  end.

Fixpoint unescaped (s : string) : string :=
  match s with
  | EmptyString => EmptyString
  | String a r =>
      match r with
      | String b r' =>
          if ((nat_of_ascii a =? 92) && (nat_of_ascii b =? 124))%nat
          then String b (unescaped r')
          else String a (unescaped r)
      | EmptyString => String a EmptyString
      end
  end.

Definition rowText (p : JV) : string :=
  rowOf (map (fun v => escaped (display v)) (rowCells p)).

(** The total is 1; the total exceeds 5. *)
Definition isOne (total : Num) : bool :=
  match total with
  | NFin q => Qeq_bool q 1
  | _ => false
  end.

Definition exceedsFive (total : Num) : bool :=
  match total with
  | NFin q => negb (Qle_bool q 5)
  | NPosInf => true
  | _ => false
  end.

(** Section 4.6, search: the fixed sentence for no result; else the
    heading with the total, the table of the first five items, one row
    per line, and the note with the total when it exceeds five. *)
Definition renderSearch_spec (its : list JV) (total : Num) : string :=
  match its with
  | [] => "No matching projects found."
  | _ =>
      "**Found " ++ NumberToString total ++ " project"
        ++ (if isOne total then "" else "s") ++ "**"
        ++ lineFeed ++ lineFeed
        ++ "| Project | Address | Zoning | Zone Type | ID |" ++ lineFeed
        ++ "|---|---|---|---|---|" ++ lineFeed
        ++ String.concat lineFeed (map rowText (firstn 5 its))
        ++ (if exceedsFive total
            then lineFeed ++ lineFeed ++ "_Showing 5 of "
                   ++ NumberToString total ++ " results._"
            else "")
  end.

(** The text has a substring that opens with a brace and closes with
    one. *)
Definition braceDelimited (s : string) : Prop :=
  exists pre mid post,
    s = pre ++ String braceOpen (mid ++ String braceClose post).

End Wording.

(* ===================================================================== *)
(** ** The tool registry                                                  *)
(* ===================================================================== *)

(** One entry of [properties] in an [input_schema]. *)
Record Property : Type := {
  prop_type : string;
  prop_description : option string
}.

(** One entry of [tools]; every [input_schema] has the type [object], and
    the last entry has no [required] list. *)
Record Tool : Type := {
  tool_name : string;
  tool_description : string;
  tool_properties : list (string * Property);
  tool_required : option (list string)
}.

Definition stringProperty : Property :=
  {| prop_type := "string"; prop_description := None |}.

Definition numberProperty : Property :=
  {| prop_type := "number"; prop_description := None |}.

Definition tools : list Tool :=
  [ {| tool_name := "ai.summarize";
       tool_description :=
         "Summarize any given text in 1" ++ endash ++ "3 bullet points.";
       tool_properties := [("text", stringProperty)];
       tool_required := Some ["text"] |};
    {| tool_name := "projects.create";
       tool_description :=
         "Create a project (projectName, address, zoningCode, zoneType, optional notes)";
       tool_properties :=
         [ ("projectName", stringProperty); ("address", stringProperty);
           ("zoningCode", stringProperty); ("zoneType", stringProperty);
           ("notes", stringProperty) ];
       tool_required :=
         Some ["projectName"; "address"; "zoningCode"; "zoneType"] |};
    {| tool_name := "projects.get";
       tool_description :=
         "Get a project by id OR projectName (if projectName is provided, server will search and get first match). Optionally summarizes notes if OpenAI key is set.";
       tool_properties :=
         [("id", stringProperty); ("projectName", stringProperty)];
       tool_required := Some [] |};
    {| tool_name := "projects.update";
       tool_description :=
         "Update a project by id (partial fields). Uses PUT to match backend.";
       tool_properties :=
         [ ("id", stringProperty); ("projectName", stringProperty);
           ("address", stringProperty); ("zoningCode", stringProperty);
           ("zoneType", stringProperty); ("notes", stringProperty) ];
       tool_required := Some ["id"] |};
    {| tool_name := "projects.delete";
       tool_description :=
         "Delete a project by id OR by projectName. If neither is provided, will use last viewed project or the first item from the last search.";
       tool_properties :=
         [("id", stringProperty); ("projectName", stringProperty)];
       tool_required := Some [] |};
    {| tool_name := "projects.deleteRandom";
       tool_description :=
         "Delete a random project: fetch a batch, choose one randomly, delete it, and return which one was deleted.";
       tool_properties :=
         [ ("limit",
            {| prop_type := "number";
               prop_description :=
                 Some "Batch size to sample from (default 25)" |}) ];
       tool_required := Some [] |};
    {| tool_name := "projects.search";
       tool_description :=
         "Search/filter via GET /api/projects using q, zoning_code, zone_type, address, city, state, plus page/limit.";
       tool_properties :=
         [ ("q", stringProperty); ("zoning_code", stringProperty);
           ("zone_type", stringProperty); ("address", stringProperty);
           ("city", stringProperty); ("state", stringProperty);
           ("page", numberProperty); ("limit", numberProperty) ];
       tool_required := None |} ].

Definition toolNames : list string := map tool_name tools.

(** The keys a tool's schema requires. *)
Definition requiredKeys (t : Tool) : list string :=
  match tool_required t with
  | Some keys => keys
  | None => []
  end.

(* ===================================================================== *)
(** ** The other renderers and the two front ends of [src/server.js]      *)
(* ===================================================================== *)

(** What the front ends take from their runtime besides the built-ins:
    the [message] the MCP SDK gives an [McpError] of code
    [MethodNotFound], from the text it is built with, and
    [JSON.stringify(v, null, 2)]. *)
Class Host : Type := {
  McpError_message : string -> string;
  JSON_stringify_indented : JV -> string
}.

(** The check mark U+2705. *)
Definition checkMark : string := chr 226 ++ chr 156 ++ chr 133.

Section Renderers.
Context {B : Builtins} {H : Host}.

(** [${p.k ?? d}] and [${p.k1 ?? p.k2 ?? d}] inside a template literal. *)
Definition shown1 (p : JV) (k d : string) : Result string :=
  a <-? getProp p k ;;
  ToString (coalesce a (JStr d)).

Definition shown2 (p : JV) (k1 k2 d : string) : Result string :=
  a <-? getProp p k1 ;;
  b <-? (if nullish a then getProp p k2 else Ok a) ;;
  ToString (coalesce b (JStr d)).

Definition projectNotFound : string := "Project not found.".

(** [if (project.k) lines.push(`<before>${project.k}<after>`)] *)
Definition pushIfTruthy (project : JV) (k before after : string)
  (lines : list string) : Result (list string) :=
  v <-? getProp project k ;;
  if truthy v then (s <-? ToString v ;; Ok (List.app lines [before ++ s ++ after]))
  else Ok lines.

Definition renderGet (project : JV) : Result string :=
  if negb (truthy project) || negb (typeofObject project)
  then Ok projectNotFound
  else
    name <-? shown2 project "projectName" "name" "Project" ;;
    id <-? shown1 project "id" emdash ;;
    addr <-? shown1 project "address" emdash ;;
    zc <-? shown2 project "zoningCode" "zoning_code" emdash ;;
    zt <-? shown2 project "zoneType" "zone_type" emdash ;;
    let lines := [ "**" ++ name ++ "**";
                   "- **ID:** `" ++ id ++ "`";
                   "- **Address:** " ++ addr;
                   "- **Zoning:** " ++ zc;
                   "- **Zone Type:** " ++ zt ] in
    lines1 <-? pushIfTruthy project "notes_summary"
                 "- **Notes (summary):** " "" lines ;;
    lines2 <-? pushIfTruthy project "notes"
                 ("<details><summary>Full notes</summary>" ++ nl ++ nl)
                 (nl ++ nl ++ "</details>") lines1 ;;
    Ok (joinLines lines2).

(** The template of [renderCreate] and [renderUpdate], which differ by
    one word; every line but the last ends with two spaces. *)
Definition confirmationCard (verb : string) (v : JV) : Result string :=
  let p := or_else v (JObj []) in
  name <-? shown2 p "projectName" "name" "Project" ;;
  id <-? shown1 p "id" emdash ;;
  addr <-? shown1 p "address" emdash ;;
  zc <-? shown1 p "zoningCode" emdash ;;
  zt <-? shown1 p "zoneType" emdash ;;
  Ok (checkMark ++ " **" ++ verb ++ " project**: **" ++ name ++ "**  " ++ nl
        ++ "- **ID:** `" ++ id ++ "`  " ++ nl
        ++ "- **Address:** " ++ addr ++ "  " ++ nl
        ++ "- **Zoning:** " ++ zc ++ "  " ++ nl
        ++ "- **Zone Type:** " ++ zt).

Definition renderCreate (updatedOrCreated : JV) : Result string :=
  confirmationCard "Created" updatedOrCreated.

Definition renderUpdate (updated : JV) : Result string :=
  confirmationCard "Updated" updated.

(** [first?.text] and [first?.json], [first] being the head of a tool
    result or [undefined]. *)
Definition blockText (first : option Block) : JV :=
  match first with
  | Some (BText t) => t
  | _ => JUndef
  end.

Definition blockJson (first : option Block) : JV :=
  match first with
  | Some (BJson j) => j
  | _ => JUndef
  end.

Definition renderDelete (msgParts : list Block) : Result string :=
  t <-? ToString (or_else (blockText (hd_error msgParts)) (JStr "Deleted.")) ;;
  Ok (checkMark ++ " " ++ t).

Definition fence : string := "```".

Definition renderHumanFor (tool : string) (content : list Block) : Result JV :=
  let first := hd_error content in
  let json := coalesce (blockJson first) JNull in
  if tool =? "projects.search" then (s <-? renderSearch json ;; Ok (JStr s))
  else if tool =? "projects.get" then (s <-? renderGet json ;; Ok (JStr s))
  else if tool =? "projects.create" then (s <-? renderCreate json ;; Ok (JStr s))
  else if tool =? "projects.update" then (s <-? renderUpdate json ;; Ok (JStr s))
  else if (tool =? "projects.delete") || (tool =? "projects.deleteRandom")
  then (s <-? renderDelete content ;; Ok (JStr s))
  else if tool =? "ai.summarize"
  then Ok (or_else (blockText first) (JStr "Done."))
  else if truthy (blockText first) then Ok (blockText first)
  else if truthy (blockJson first)
  then Ok (JStr (fence ++ "json" ++ nl
                   ++ JSON_stringify_indented (blockJson first)
                   ++ nl ++ fence))
  else Ok (JStr "Done.").

(** The [message] property of a thrown value. *)
Definition messageOf (e : JsErr) : string :=
  match err_name e with
  | ErrMcpMethodNotFound => McpError_message (err_message e)
  | _ => err_message e
  end.

(** [err?.message || String(err)], which is also
    [String(e?.message || e)]: an error without message prints as its
    name. *)
Definition thrownText (e : JsErr) : string :=
  if messageOf e =? "" then errNameText (err_name e) else messageOf e.

End Renderers.

(** A content block as the value that is serialised. *)
Definition blockValue (b : Block) : JV :=
  match b with
  | BText t => JObj [("type", JStr "text"); ("text", t)]
  | BJson j => JObj [("type", JStr "json"); ("json", j)]
  end.

(** What the [CallTool] handler resolves to; [isError] is absent on a
    success. *)
Record CallToolResult : Type := {
  isError : bool;
  resultContent : list Block
}.

(** One request of the HTTP bridge, with the body its [data] events
    bring, and the response written to it; [rs_payload] is the object
    handed to [JSON.stringify], absent for the empty response. *)
Record BridgeRequest : Type := {
  br_method : string;
  br_url : string;
  br_data : string
}.

Record BridgeResponse : Type := {
  rs_status : nat;
  rs_headers : list (string * string);
  rs_payload : option JV
}.

Definition corsHeaders : list (string * string) :=
  [ ("Access-Control-Allow-Origin", "*");
    ("Access-Control-Allow-Headers", "content-type");
    ("Access-Control-Allow-Methods", "POST, OPTIONS") ].

Definition send (status : nat) (payload : JV) : BridgeResponse :=
  {| rs_status := status;
     rs_headers := (corsHeaders ++ [("Content-Type", "application/json")])%list;
     rs_payload := Some payload |}.

Definition errorPayload (message : string) : JV :=
  JObj [("error", JStr message)].

Section FrontEnds.
Context {B : Builtins} {H : Host} {X : External}.
Variable ENV : Env.

(** [runTool(name, args)] called with a value that need not be a string:
    the [switch] compares with [===], so only a string selects a case. *)
Definition runToolOn (name : JV) (args : JV) : M (list Block) :=
  match name with
  | JStr s => runTool ENV s args
  | _ => s <- lift (ToString name) ;; throw (unknownTool s)
  end.

(** The [CallToolRequestSchema] handler, on [req.params]. *)
Definition callToolHandler (params : JV) : M CallToolResult :=
  try_catch
    (name <- lift (getProp params "name") ;;
     args <- lift (getProp params "arguments") ;;
     content <- runToolOn name (or_else args (JObj [])) ;;
     ret {| isError := false; resultContent := content |})
    (fun err =>
       ret {| isError := true; resultContent := text (thrownText err) |}).

(** [data ? JSON.parse(data) : {}] *)
Definition readJson (data : string) : Result JV :=
  if data =? "" then Ok (JObj []) else JSON_parse data.

(** [const { k } = await readJson()]: a property read, but for the
    [TypeError] on [undefined] and [null], which has the engine's wording
    for a destructuring. *)
Definition destructured (v : JV) (k : string) : Result JV :=
  if nullish v
  then Err (TypeError ("Cannot destructure property '" ++ k
                         ++ "' of '(intermediate value)' as it is "
                         ++ typeName v ++ "."))
  else Ok (getField v k).

Definition missingName : string := "Missing " ++ dq ++ "name" ++ dq.

(** Lines 516-518, and 548-550 without the plan: the tool is run and its
    result rendered; [fields] are the properties that precede [content]
    in the payload. *)
Definition runAndRender (tool : string) (args : JV)
  (fields : list (string * JV)) : M BridgeResponse :=
  content <- runTool ENV tool (or_else args (JObj [])) ;;
  human <- lift (renderHumanFor tool content) ;;
  ret (send 200 (JObj (fields ++ [ ("content", JArr (map blockValue content));
                                   ("human", human) ])%list)).

(** [POST /tool] *)
Definition toolRoute (data : string) : M BridgeResponse :=
  body <- lift (readJson data) ;;
  name <- lift (destructured body "name") ;;
  args <- lift (destructured body "arguments") ;;
  if negb (truthy name) then ret (send 400 (errorPayload missingName))
  else
    tool <- lift (ToString name) ;;
    runAndRender tool args [].

Definition routerSystem : string :=
  "You route user requests to one of these tools and return STRICT JSON only.".

Definition toolsList : string :=
  joinLines (map (fun t => "- " ++ tool_name t ++ ": " ++ tool_description t)
                 tools).

Definition routerPrompt (userText : string) : list (string * string) :=
  [ ("system",
     routerSystem ++ nl ++ nl ++ "TOOLS:" ++ nl ++ toolsList ++ nl ++ nl
       ++ "Notes:" ++ nl
       ++ "- Deletions may use implicit context (last viewed or last search result) if no id/name provided."
       ++ nl ++ "- There is a projects.deleteRandom tool." ++ nl ++ nl
       ++ "Output EXACT JSON: {" ++ dq ++ "tool" ++ dq ++ ":" ++ dq
       ++ "<name>" ++ dq ++ "," ++ dq ++ "arguments" ++ dq ++ ":{...}}");
    ("user", userText) ].

(** Lines 537-544 on the reply [callOpenAI] returns, which is a string
    when the completion API answers as documented.  On another value
    [JSON.parse] reads its string, and the fallback finds no [match] to
    call. *)
Definition planOf (reply : JV) : Result JV :=
  match reply with
  | JStr s => parsePlan s
  | _ =>
      match (s <-? ToString reply ;; JSON_parse s) with
      | Ok plan => Ok plan
      | Err _ =>
          _ <-? getProp reply "match" ;;
          Err (TypeError "toolPlanText.match is not a function")
      end
  end.

Definition noTool : JsErr := Error "Router did not specify tool".

Definition missingText : string :=
  "Missing " ++ dq ++ "text" ++ dq ++ " in body".

(** [POST /chat] *)
Definition chatRoute (data : string) : M BridgeResponse :=
  if OPENAI_API_KEY ENV =? ""
  then ret (send 400 (errorPayload "OpenAI not configured"))
  else
    body <- lift (readJson data) ;;
    userText <- lift (destructured body "text") ;;
    match userText with
    | JStr (String c r) =>
        reply <- callOpenAI ENV (chatRequest ENV (routerPrompt (String c r))
                                             220 0%Q) ;;
        plan <- lift (planOf reply) ;;
        if negb (truthy (optGet plan "tool")) then throw noTool
        else
          tool <- lift (t <-? getProp plan "tool" ;; ToString t) ;;
          args <- lift (getProp plan "arguments") ;;
          runAndRender tool args [("plan", plan)]
    | _ => ret (send 400 (errorPayload missingText))
    end.

Definition notFound : string := "Not found".

(** The request listener of the bridge. *)
Definition bridge (req : BridgeRequest) : M BridgeResponse :=
  if br_method req =? "OPTIONS"
  then ret {| rs_status := 204; rs_headers := corsHeaders;
              rs_payload := None |}
  else
    try_catch
      (if (br_method req =? "POST") && (br_url req =? "/tool")
       then toolRoute (br_data req)
       else if (br_method req =? "POST") && (br_url req =? "/chat")
       then chatRoute (br_data req)
       else ret (send 404 (errorPayload notFound)))
      (fun e => ret (send 500 (errorPayload (thrownText e)))).

End FrontEnds.

(* ===================================================================== *)
(** ** [src/http.js] and [src/openai.js] over [fetch]                     *)
(* ===================================================================== *)

(** What [fetch] resolves to, as far as the two wrappers read it;
    reading the body may itself fail. *)
Record Response : Type := {
  res_ok : bool;
  res_status : nat;
  res_statusText : string;
  res_text : Result string
}.

(** The network: [fetch] on a backend request (which rejects when the
    timer of [http] aborts it) and on a completion request. *)
Class Network : Type := {
  Net : Type;
  fetch_backend : Net -> Request -> Result Response * Net;
  fetch_completion : Net -> ChatRequest -> Result Response * Net;
  random_draw : Net -> Q * Net
}.

Section Wrappers.
Context {B : Builtins}.

Definition statusOf (res : Response) : string :=
  NumberToString (num_of_nat (res_status res)).

Definition httpError (res : Response) (body : string) : JsErr :=
  Error ("HTTP " ++ statusOf res ++ " " ++ res_statusText res ++ ": " ++ body).

(** What [http(path, init)] makes of the outcome of [fetch]. *)
Definition httpOutcome (fetched : Result Response) : Result JV :=
  res <-? fetched ;;
  body <-? res_text res ;;
  if negb (res_ok res) then Err (httpError res body)
  else match JSON_parse body with
       | Ok v => Ok v
       | Err _ => Ok (JStr body)
       end.

Definition openAIError (res : Response) (body : string) : JsErr :=
  Error ("OpenAI API error " ++ statusOf res ++ ": " ++ body).

(** [choices?.[0]]: indexing a string gives its first character, a
    string (here its first byte). *)
Definition firstChoice (choices : JV) : JV :=
  match choices with
  | JStr (String c _) => JStr (String c EmptyString)
  | _ => optGet choices "0"
  end.

(** [json?.choices?.[0]?.message?.content ?? ''] *)
Definition replyText (json : JV) : JV :=
  coalesce
    (optGet (optGet (firstChoice (optGet json "choices")) "message") "content")
    (JStr "").

(** The [text] of what [callOpenAI] returns, from the outcome of
    [fetch]. *)
Definition completionOutcome (fetched : Result Response) : Result JV :=
  res <-? fetched ;;
  body <-? res_text res ;;
  if negb (res_ok res) then Err (openAIError res body)
  else (json <-? JSON_parse body ;; Ok (replyText json)).

(** The outside world of the dispatcher, made of the two wrappers over
    the network. *)
Definition overNetwork (N : Network) : External := {|
  Ext := Net;
  http_step := fun x rq =>
                 let (f, x') := fetch_backend x rq in (httpOutcome f, x');
  chat_step := fun x rq =>
                 let (f, x') := fetch_completion x rq in
                 (completionOutcome f, x');
  random_step := random_draw
|}.

End Wrappers.

(* ===================================================================== *)
(** ** Requests and logs, for the statements                              *)
(* ===================================================================== *)

Section Shapes.
Context {B : Builtins} {X : External}.
Variable ENV : Env.

Definition updateKeys : list string :=
  ["projectName"; "address"; "zoningCode"; "zoneType"; "notes"].

(** The fields among [keys] that [args] gives a truthy value, each with
    the text of that value, in the order of [keys]. *)
Definition providedFields (args : JV) (keys : list string)
  : list (string * JV) :=
  flat_map (fun k => if truthy (getField args k)
                     then [(k, JStr (display (getField args k)))] else [])
           keys.

Definition providedParams (args : JV) (keys : list string)
  : list (string * string) :=
  flat_map (fun k => if truthy (getField args k)
                     then [(k, display (getField args k))] else [])
           keys.

(** The parameter [k] when [args] gives it a finite number. *)
Definition finiteParam (args : JV) (k : string) : list (string * string) :=
  if Number_isFinite (getField args k)
  then [(k, display (getField args k))] else [].

Definition isBackendRequest (ev : Event) : bool :=
  match ev with EvHttp _ _ => true | _ => false end.

Definition isCompletion (ev : Event) : bool :=
  match ev with EvChat _ _ => true | _ => false end.

Definition backendRequests (evs : list Event) : nat :=
  List.length (filter isBackendRequest evs).

Definition completions (evs : list Event) : nat :=
  List.length (filter isCompletion evs).

(** The form of the exchanges of the dispatcher.  A backend request goes
    to [API_BASE_URL]; a GET or DELETE has the key header alone and no
    body, and a DELETE names one entity; a POST goes to the collection
    and a PUT to one entity, both with the JSON content type, the key
    header and an object as body.  A completion request is made with a
    credential only, for the configured model, at the default
    temperature, for 180 reply tokens at most, with a system and a user
    message. *)
Definition conforms (ev : Event) : Prop :=
  match ev with
  | EvHttp rq _ =>
      rq_base rq = API_BASE_URL ENV
      /\ match rq_method rq with
         | GET => rq_headers rq = withApiKey ENV [] /\ rq_body rq = None
         | DELETE =>
             rq_headers rq = withApiKey ENV [] /\ rq_body rq = None
             /\ exists id, rq_target rq = ProjectById id
         | POST =>
             rq_headers rq = jsonHeaders ENV /\ rq_target rq = Projects []
             /\ exists fs, rq_body rq = Some (JObj fs)
         | PUT =>
             rq_headers rq = jsonHeaders ENV
             /\ (exists id, rq_target rq = ProjectById id)
             /\ exists fs, rq_body rq = Some (JObj fs)
         end
  | EvChat rq _ =>
      OPENAI_API_KEY ENV <> ""
      /\ ch_model rq = OPENAI_MODEL ENV
      /\ ch_temperature rq = defaultTemperature
      /\ (ch_max_tokens rq <= 180)%nat
      /\ exists system user,
           ch_messages rq = [("system", system); ("user", user)]
  | EvRandom _ => True
  end.

(** A computation appends exchanges of the form [P] to the log, [h]
    backend requests and [c] completion requests at most. *)
Definition conducts (P : Event -> Prop) (h c : nat) {A} (m : M A) : Prop :=
  forall w, exists evs,
    trace (snd (m w)) = (trace w ++ evs)%list
    /\ Forall P evs
    /\ (backendRequests evs <= h)%nat
    /\ (completions evs <= c)%nat.

(** The fields [renderGet] shows. *)
Definition shownKeys : list string :=
  [ "projectName"; "name"; "id"; "address"; "zoningCode"; "zoning_code";
    "zoneType"; "zone_type"; "notes_summary"; "notes" ].

(** Backend and completion requests a tool may make in one invocation. *)
Definition budget (name : string) : nat * nat :=
  if name =? "projects.get" then (2, 1)%nat
  else if (name =? "projects.delete") || (name =? "projects.deleteRandom")
  then (2, 0)%nat
  else if (name =? "projects.create") || (name =? "projects.update")
          || (name =? "projects.search")
  then (1, 0)%nat
  else if name =? "ai.summarize" then (0, 1)%nat
  else (0, 0)%nat.

End Shapes.

(* ===================================================================== *)
(** ** A scripted outside world and sample built-ins                      *)
(* ===================================================================== *)

Module Sample.

(** Replies are served in order from three queues; an exhausted queue
    answers with a network failure (or with the draw 0). *)
Record Script : Type := {
  http_replies : list (Result JV);
  chat_replies : list (Result JV);
  draws : list Q
}.

Definition fetchFailed : JsErr := mkErr ErrTypeError "fetch failed".

Definition scripted_http (s : Script) (_ : Request) : Result JV * Script :=
  match http_replies s with
  | [] => (Err fetchFailed, s)
  | r :: rest =>
      (r, {| http_replies := rest; chat_replies := chat_replies s;
             draws := draws s |})
  end.

Definition scripted_chat (s : Script) (_ : ChatRequest) : Result JV * Script :=
  match chat_replies s with
  | [] => (Err fetchFailed, s)
  | r :: rest =>
      (r, {| http_replies := http_replies s; chat_replies := rest;
             draws := draws s |})
  end.

Definition scripted_random (s : Script) : Q * Script :=
  match draws s with
  | [] => (0%Q, s)
  | r :: rest =>
      (r, {| http_replies := http_replies s; chat_replies := chat_replies s;
             draws := rest |})
  end.

#[export] Instance scripted : External := {|
  Ext := Script;
  http_step := scripted_http;
  chat_step := scripted_chat;
  random_step := scripted_random
|}.

(** Built-ins that agree with the host on what the examples use: integers
    and the non-finite numbers print as the host prints them (below
    10^21); strings of decimal digits and the empty string read as the
    host reads them, and no other string of the examples is a numeric
    literal; [JSON.parse] is given on the three texts of the router
    example. *)
Definition printNum (n : Num) : string :=
  match n with
  | NNaN => "NaN"
  | NPosInf => "Infinity"
  | NNegInf => "-Infinity"
  | NFin q =>
      if (Qden q =? 1)%positive
      then (if (Qnum q <? 0)%Z then "-" else "")
             ++ NilZero.string_of_uint (N.to_uint (Z.to_N (Z.abs (Qnum q))))
      else NilZero.string_of_uint (N.to_uint (Z.to_N (Z.abs (Qnum q))))
             ++ "/" ++ NilZero.string_of_uint (Pos.to_uint (Qden q))
  end.

Definition readNum (s : string) : Num :=
  match digits s 0 with
  | Some n => num_of_nat n
  | None => NNaN
  end.

Definition routerReply : string :=
  "Sure: {" ++ dq ++ "tool" ++ dq ++ ":" ++ dq ++ "projects.search" ++ dq
    ++ "} and then {" ++ dq ++ "tool" ++ dq ++ ":" ++ dq ++ "projects.get"
    ++ dq ++ "}".

Definition firstPlanText : string :=
  "{" ++ dq ++ "tool" ++ dq ++ ":" ++ dq ++ "projects.search" ++ dq ++ "}".

Definition firstToLastText : string :=
  "{" ++ dq ++ "tool" ++ dq ++ ":" ++ dq ++ "projects.search" ++ dq
    ++ "} and then {" ++ dq ++ "tool" ++ dq ++ ":" ++ dq ++ "projects.get"
    ++ dq ++ "}".

Definition syntaxError : JsErr := mkErr ErrSyntaxError "Unexpected token".

Definition parseSample (s : string) : Result JV :=
  if s =? firstPlanText then Ok (JObj [("tool", JStr "projects.search")])
  else Err syntaxError.

#[export] Instance builtins : Builtins := {|
  NumberToString := printNum;
  StringToNumber := readNum;
  JSON_parse := parseSample
|}.

Definition env : Env := {|
  API_BASE_URL := "http://localhost:3333";
  API_KEY := "";
  OPENAI_API_KEY := "";
  OPENAI_MODEL := "gpt-4o-mini"
|}.

Definition envWithKey : Env := {|
  API_BASE_URL := "http://localhost:3333";
  API_KEY := "";
  OPENAI_API_KEY := "sk-test";
  OPENAI_MODEL := "gpt-4o-mini"
|}.

Definition world (m : Memory) (h c : list (Result JV)) (d : list Q) : World :=
  {| memory := m;
     ext := {| http_replies := h; chat_replies := c; draws := d |};
     trace := [] |}.

Definition oak : JV :=
  JObj [ ("id", JStr "1"); ("projectName", JStr "Oak St");
         ("address", JStr "1 Oak"); ("zoningCode", JStr "R1");
         ("zoneType", JStr "Residential") ].

(** Arguments. *)
Definition argsNone : JV := JObj [].
Definition argsId : JV := JObj [("id", JStr "42")].
Definition argsName : JV := JObj [("projectName", JStr "Oak")].
Definition argsCreate : JV :=
  JObj [ ("projectName", JStr "Oak St"); ("address", JStr "1 Oak");
         ("zoningCode", JStr "R1"); ("zoneType", JStr "Residential") ].
Definition argsUpdate : JV := JObj [("id", JStr "1"); ("address", JStr "1 Oak")].

(** Memories. *)
Definition memOak : Memory := {| lastProject := oak; lastSearchItems := [] |}.
Definition memSearch : Memory :=
  {| lastProject := JNull; lastSearchItems := [oak] |}.

(** An entity that carries its identifier under [projectId] only. *)
Definition pine : JV :=
  JObj [("projectId", JStr "7"); ("projectName", JStr "Pine Rd")].
Definition memPine : Memory :=
  {| lastProject := pine; lastSearchItems := [pine] |}.

(** An entity with notes, and what [projects.get] makes of it. *)
Definition noted : JV := JObj [("id", JStr "1"); ("notes", JStr "long notes")].
Definition notedSummary : JV :=
  JObj [ ("id", JStr "1"); ("notes", JStr "long notes");
         ("notes_summary", JStr "short") ].
Definition notedError : JV :=
  JObj [ ("id", JStr "1"); ("notes", JStr "long notes");
         ("notes_summary_error", JStr "boom") ].

(** An entity whose name is an object with a [toString] key. *)
Definition shadowed : JV :=
  JObj [ ("id", JStr "1");
         ("projectName", JObj [("toString", JNum (NFin 1))]) ].

(** Backend answers. *)
Definition oneOak : Result JV :=
  Ok (JObj [("items", JArr [oak]); ("total", JNum (NFin 1))]).
Definition nothing : Result JV := Ok (JObj [("items", JArr [])]).

Definition getRequest (e : Env) (id : string) : Request :=
  request e GET (ProjectById id) (withApiKey e []) None.
Definition deleteRequest (e : Env) (id : string) : Request :=
  request e DELETE (ProjectById id) (withApiKey e []) None.

(** The registry entry of [projects.create]. *)
Definition createEntry : Tool :=
  nth 1 tools {| tool_name := ""; tool_description := "";
                 tool_properties := []; tool_required := None |}.

(** A host whose [McpError] message is the SDK's; none of the examples
    prints indented JSON. *)
#[export] Instance host : Host := {|
  McpError_message := fun m => "MCP error -32601: " ++ m;
  JSON_stringify_indented := fun _ => "{}"
|}.

(** Bodies of bridge requests and of a completion, and a parser that
    reads them besides the texts above. *)
Definition toolBody : string :=
  "{" ++ dq ++ "name" ++ dq ++ ":" ++ dq ++ "projects.search" ++ dq ++ "}".

Definition chatBody : string :=
  "{" ++ dq ++ "text" ++ dq ++ ":" ++ dq ++ "find oak" ++ dq ++ "}".

Definition completionBody : string :=
  "{" ++ dq ++ "choices" ++ dq ++ ":[{" ++ dq ++ "message" ++ dq ++ ":{"
    ++ dq ++ "content" ++ dq ++ ":" ++ dq ++ "short" ++ dq ++ "}}]}".

Definition completion : JV :=
  JObj [("choices",
         JArr [JObj [("message", JObj [("content", JStr "short")])]])].

Definition parseBodies (s : string) : Result JV :=
  if s =? toolBody then Ok (JObj [("name", JStr "projects.search")])
  else if s =? chatBody then Ok (JObj [("text", JStr "find oak")])
  else if s =? completionBody then Ok completion
  else parseSample s.

Definition bridgeBuiltins : Builtins := {|
  NumberToString := printNum;
  StringToNumber := readNum;
  JSON_parse := parseBodies
|}.

Definition postTool (data : string) : BridgeRequest :=
  {| br_method := "POST"; br_url := "/tool"; br_data := data |}.

Definition postChat (data : string) : BridgeRequest :=
  {| br_method := "POST"; br_url := "/chat"; br_data := data |}.

(** A scripted network: the answers of [fetch] are served in order from
    two queues, an exhausted queue rejecting; every draw is 0. *)
Definition Wire : Type :=
  (list (Result Response) * list (Result Response))%type.

Definition wired : Network := {|
  Net := Wire;
  fetch_backend := fun n _ =>
    match fst n with
    | [] => (Err fetchFailed, n)
    | r :: rest => (r, (rest, snd n))
    end;
  fetch_completion := fun n _ =>
    match snd n with
    | [] => (Err fetchFailed, n)
    | r :: rest => (r, (fst n, rest))
    end;
  random_draw := fun n => (0%Q, n)
|}.

Definition answered (body : string) : Response :=
  {| res_ok := true; res_status := 200; res_statusText := "OK";
     res_text := Ok body |}.

Definition wiredWorld (m : Memory) (b c : list (Result Response))
  : @World (@overNetwork bridgeBuiltins wired) :=
  @Build_World (@overNetwork bridgeBuiltins wired) m (b, c) [].

Definition argsText : JV := JObj [("text", JStr " long text ")].

(** Search arguments: a filter, a page that is no number, a limit. *)
Definition argsQuery : JV :=
  JObj [("q", JStr "oak"); ("page", JStr "2"); ("limit", JNum (NFin 5))].

(** A list answer whose total is no number. *)
Definition manyOaks : JV :=
  JObj [("items", JArr [oak]); ("total", JStr "many")].

(** An entity under the backend's other field names, with a pipe in its
    name, and a batch of six results. *)
Definition elm : JV :=
  JObj [ ("projectId", JStr "3"); ("name", JStr "Elm|Ash");
         ("address", JStr "3 Elm"); ("zoning_code", JStr "C2");
         ("zone_type", JStr "Commercial") ].
Definition sixResults : list JV := [oak; pine; elm; oak; pine; elm].


(** Twenty-five entities, numbered from 0, and the draw 0.24: the exact
    product of the two is below 6, the binary64 product is 6. *)
Definition numbered (i : nat) : JV :=
  JObj [("id", JStr (NilZero.string_of_uint (Nat.to_uint i)))].
Definition batch25 : list JV := map numbered (seq 0 25).
Definition draw24 : Q := (1080863910568919 # 4503599627370496)%Q.

End Sample.

(* ===================================================================== *)
(** ** Properties                                                         *)
(* ===================================================================== *)

(* --------------------------------------------------------------------- *)
(** *** The list payload normalizer                                       *)
(* --------------------------------------------------------------------- *)

Section NormalizerFacts.
Context {B : Builtins}.

Lemma probe_same_object (keys : list string) (obj : JV)
  (rest : list (string * JV)) :
  truthy obj && typeofObject obj = true ->
  probe (map (fun k => (k, obj)) keys ++ rest)
  = match firstArray obj keys with
    | Some l => Some (payloadOf obj l)
    | None => probe rest
    end.
Proof.
  intros Hobj. induction keys as [|k keys IH]; simpl.
  - reflexivity.
  - rewrite Hobj. destruct (getField obj k); auto.
Qed.

(** [String] throws one error only. *)
Fixpoint ToString_fails (v : JV) (e : JsErr) {struct v} :
  ToString v = Err e -> e = cannotConvert.
Proof.
  destruct v as [| |b|n|s|l|fs]; cbn [ToString]; try discriminate.
  - destruct b; discriminate.
  - induction l as [|x r IH]; [discriminate|].
    destruct (nullish x) eqn:Hx; cbn [rbind].
    + destruct r as [|y r']; [discriminate|].
      match type of IH with
      | ?j = _ -> _ => destruct j; cbn [rbind]; [discriminate | exact IH]
      end.
    + destruct (ToString x) eqn:Hs; cbn [rbind].
      * destruct r as [|y r']; [discriminate|].
        match type of IH with
        | ?j = _ -> _ => destruct j; cbn [rbind]; [discriminate | exact IH]
        end.
      * intros H. injection H as <-. exact (ToString_fails x _ Hs).
  - destruct (hasOwn "toString" fs); [|discriminate].
    intros H. now injection H as <-.
Qed.

Lemma ToNumber_convertible (v : JV) :
  convertible v = true -> exists n, ToNumber v = Ok n.
Proof.
  unfold convertible. intros H.
  destruct v as [| |b|n|s|l|fs]; cbn [ToNumber];
    try (eexists; reflexivity).
  - destruct b; eexists; reflexivity.
  - destruct (ToString (JArr l)); [eexists; reflexivity | discriminate].
  - destruct (ToString (JObj fs)); [eexists; reflexivity | discriminate].
Qed.

Lemma ToNumber_not_convertible (v : JV) :
  convertible v = false -> ToNumber v = Err cannotConvert.
Proof.
  unfold convertible. destruct (ToString v) as [s|e] eqn:Hs; [discriminate|].
  intros _. pose proof (ToString_fails _ Hs) as ->.
  destruct v as [| |b|n|t|l|fs]; cbn [ToNumber]; try discriminate.
  - destruct b; discriminate.
  - now rewrite Hs.
  - now rewrite Hs.
Qed.

Lemma payloadOf_candidate (obj : JV) (its : list JV) :
  payloadOf obj its
  = (n <-? ToNumber (totalCandidate obj its) ;;
     Ok {| items := its;
           total := if Num_isFinite n then n
                    else num_of_nat (List.length its) |}).
Proof. reflexivity. Qed.

Lemma payloadOf_totalFor (obj : JV) (its : list JV) :
  convertible (totalCandidate obj its) = true ->
  payloadOf obj its = Ok {| items := its; total := totalFor obj its |}.
Proof.
  intros H. destruct (ToNumber_convertible _ H) as [n Hn].
  rewrite payloadOf_candidate. unfold totalFor. rewrite Hn. cbn [rbind].
  destruct n; reflexivity.
Qed.

Lemma payloadOf_throws (obj : JV) (its : list JV) :
  convertible (totalCandidate obj its) = false ->
  payloadOf obj its = Err cannotConvert.
Proof.
  intros H. rewrite payloadOf_candidate.
  now rewrite (ToNumber_not_convertible _ H).
Qed.

Lemma probe_nested (d : JV) :
  probe [("items", d)]
  = match firstArray d ["items"] with
    | Some l => Some (payloadOf d l)
    | None => None
    end.
Proof.
  destruct d as [| |b|n|s|l|fs]; simpl; try reflexivity.
  - destruct b; reflexivity.
  - destruct n as [q| | |]; simpl; try reflexivity.
    destruct (Qeq_bool q 0); reflexivity.
  - destruct (s =? ""); reflexivity.
  - destruct (lookup "items" fs); reflexivity.
Qed.

Lemma normalizeListPayload_shape (fs : list (string * JV)) :
  normalizeListPayload (JObj fs)
  = match matchingShape (JObj fs) with
    | Some (obj, its) => payloadOf obj its
    | None => Ok {| items := [JObj fs]; total := NFin 1 |}
    end.
Proof.
  unfold normalizeListPayload, matchingShape.
  change (negb (truthy (JObj fs)) || negb (typeofObject (JObj fs)))
    with false.
  cbv iota.
  change (candidates (JObj fs))
    with (map (fun k => (k, JObj fs)) topLevelKeys
            ++ [("items", getField (JObj fs) "data")])%list.
  rewrite probe_same_object by reflexivity.
  destruct (firstArray (JObj fs) topLevelKeys) as [l|]; [reflexivity|].
  rewrite probe_nested.
  destruct (firstArray (getField (JObj fs) "data") ["items"]); reflexivity.
Qed.

Lemma matchingShape_object (value obj : JV) (its : list JV) :
  matchingShape value = Some (obj, its) -> exists fs, value = JObj fs.
Proof.
  destruct value as [| |b|n|s|l|fs]; try discriminate; eauto.
Qed.

(** C2, as the code has it.  [normalizeListPayload] wraps an array with
    its length; fails with the invalid payload error on a value that is
    not an object; probes an object for [items], [data], [results],
    [rows], [projects], then for [items] under [data], and returns the
    first array found with the total of the object that holds it
    ([total], else [count], else [totalCount], else the length; coerced
    by [Number], the length again when not finite); returns an object
    without any of these as a single item.  That is the function of
    section 4.3 whenever the total to coerce converts to a primitive;
    when it does not (an object with a [toString] key of its own, or an
    array that holds one), the normalizer throws the [TypeError] of the
    coercion. *)
Theorem normalizeListPayload_spec (value : JV) :
  ((forall obj its,
      matchingShape value = Some (obj, its) ->
      convertible (totalCandidate obj its) = true) ->
   normalizeListPayload value = normalize_spec value)
  /\ (forall obj its,
        matchingShape value = Some (obj, its) ->
        convertible (totalCandidate obj its) = false ->
        normalizeListPayload value
        = Err (mkErr ErrTypeError "Cannot convert object to primitive value")).
Proof.
  split.
  - intros Hc. destruct value as [| |b|n|s|l|fs]; try reflexivity.
    + simpl. now rewrite orb_true_r.
    + simpl. now rewrite orb_true_r.
    + simpl. now rewrite orb_true_r.
    + rewrite normalizeListPayload_shape. unfold normalize_spec.
      destruct (matchingShape (JObj fs)) as [[obj its]|]; [|reflexivity].
      apply payloadOf_totalFor. now apply Hc.
  - intros obj its Hm Hc.
    destruct (matchingShape_object _ Hm) as [fs ->].
    rewrite normalizeListPayload_shape, Hm.
    now rewrite (payloadOf_throws _ _ Hc).
Qed.

End NormalizerFacts.

(* --------------------------------------------------------------------- *)
(** *** The router reply                                                  *)
(* --------------------------------------------------------------------- *)

Section RouterFacts.
Context {B : Builtins}.

Lemma lastClose_none (s : string) :
  occurs braceClose s = false -> lastClose s = None.
Proof.
  induction s as [|c r IH]; simpl; intros H.
  - reflexivity.
  - apply orb_false_iff in H as [Hc Hr].
    rewrite (IH Hr), Hc. reflexivity.
Qed.

Lemma lastClose_last (mid post : string) :
  occurs braceClose post = false ->
  lastClose (mid ++ String braceClose post)
  = Some (mid ++ String braceClose EmptyString).
Proof.
  intros H. induction mid as [|c r IH]; simpl.
  - rewrite (lastClose_none _ H). reflexivity.
  - rewrite IH. reflexivity.
Qed.

Lemma matchBraces_first_to_last (pre mid post : string) :
  occurs braceOpen pre = false ->
  occurs braceClose post = false ->
  matchBraces (pre ++ String braceOpen (mid ++ String braceClose post))
  = Some (String braceOpen (mid ++ String braceClose EmptyString)).
Proof.
  intros Hpre Hpost. induction pre as [|c r IH]; simpl.
  - rewrite (lastClose_last _ _ Hpost). reflexivity.
  - simpl in Hpre. apply orb_false_iff in Hpre as [Hc Hr].
    rewrite Hc. exact (IH Hr).
Qed.

Lemma occurs_app (c : ascii) (s t : string) :
  occurs c (s ++ t) = occurs c s || occurs c t.
Proof.
  induction s as [|d r IH]; simpl.
  - reflexivity.
  - rewrite IH. apply orb_assoc.
Qed.

Lemma lastClose_closes (s p : string) :
  lastClose s = Some p -> exists mid post, s = mid ++ String braceClose post.
Proof.
  revert p. induction s as [|c r IH]; simpl; intros p H.
  - discriminate.
  - destruct (lastClose r) as [q|] eqn:Eq.
    + destruct (IH q eq_refl) as (mid & post & E).
      exists (String c mid), post. simpl. now rewrite E.
    + destruct (Ascii.eqb c braceClose) eqn:Ec; [|discriminate].
      apply Ascii.eqb_eq in Ec. subst c.
      exists EmptyString, r. reflexivity.
Qed.

Lemma matchBraces_none (s : string) :
  ~ braceDelimited s -> matchBraces s = None.
Proof.
  induction s as [|c r IH]; simpl; intros H.
  - reflexivity.
  - assert (Hr : ~ braceDelimited r).
    { intros (pre & mid & post & E). apply H.
      exists (String c pre), mid, post. simpl. now rewrite E. }
    destruct (Ascii.eqb c braceOpen) eqn:Ec.
    + destruct (lastClose r) as [p|] eqn:El.
      * exfalso. apply H. apply Ascii.eqb_eq in Ec. subst c.
        destruct (lastClose_closes _ El) as (mid & post & E).
        exists EmptyString, mid, post. simpl. now rewrite E.
      * exact (IH Hr).
    + exact (IH Hr).
Qed.

Lemma occurs_head (c : ascii) (s : string) : occurs c (String c s) = true.
Proof. simpl. now rewrite Ascii.eqb_refl. Qed.

Lemma occurs_tail (c d : ascii) (s : string) :
  occurs c (String d s) = Ascii.eqb d c || occurs c s.
Proof. reflexivity. Qed.

Lemma last_closing_brace (u : string) :
  occurs braceClose u = true ->
  exists m q, u = m ++ String braceClose q /\ occurs braceClose q = false.
Proof.
  induction u as [|c r IH]; simpl; intros H.
  - discriminate.
  - destruct (occurs braceClose r) eqn:Er.
    + destruct (IH eq_refl) as (m & q & E & Hq).
      exists (String c m), q. simpl. now rewrite E.
    + rewrite orb_false_r in H. apply Ascii.eqb_eq in H. subst c.
      exists EmptyString, r. auto.
Qed.

(** Every text with a brace delimited substring splits at its first
    opening and its last closing brace. *)
Lemma braceDelimited_split (s : string) :
  braceDelimited s ->
  exists pre mid post,
    s = pre ++ String braceOpen (mid ++ String braceClose post)
    /\ occurs braceOpen pre = false /\ occurs braceClose post = false.
Proof.
  intros (pre & mid & post & E). subst s.
  induction pre as [|c r IH].
  - destruct (last_closing_brace (mid ++ String braceClose post))
      as (m & q & E & Hq).
    { rewrite occurs_app, occurs_head. apply orb_true_r. }
    exists EmptyString, m, q. simpl. rewrite E. auto.
  - destruct (Ascii.eqb c braceOpen) eqn:Ec.
    + apply Ascii.eqb_eq in Ec. subst c.
      destruct (last_closing_brace
                  (r ++ String braceOpen (mid ++ String braceClose post)))
        as (m & q & E & Hq).
      { rewrite occurs_app.
        replace (occurs braceClose
                   (String braceOpen (mid ++ String braceClose post)))
          with true; [apply orb_true_r|].
        symmetry. rewrite occurs_tail, occurs_app, occurs_head.
        rewrite !orb_true_r. reflexivity. }
      exists EmptyString, m, q. simpl. rewrite E. auto.
    + destruct IH as (p & m & q & E & Hp & Hq).
      exists (String c p), m, q. simpl. rewrite E, Ec, Hp. auto.
Qed.

(** C8, as the code has it.  A reply that parses as JSON is the plan.
    Otherwise the substring running from the first opening brace of the
    reply to its last closing brace is parsed as the plan, whatever lies
    between them; a reply without a brace delimited substring fails with
    [Router did not return JSON].  Every reply with a brace delimited
    substring splits at its first opening and last closing brace, so the
    three cases cover all replies. *)
Theorem parsePlan_first_to_last_brace (reply : string) :
  (forall plan, JSON_parse reply = Ok plan -> parsePlan reply = Ok plan)
  /\ (forall e pre mid post,
        JSON_parse reply = Err e ->
        reply = pre ++ String braceOpen (mid ++ String braceClose post) ->
        occurs braceOpen pre = false ->
        occurs braceClose post = false ->
        parsePlan reply
        = JSON_parse (String braceOpen (mid ++ String braceClose EmptyString)))
  /\ (forall e,
        JSON_parse reply = Err e ->
        ~ braceDelimited reply ->
        parsePlan reply = Err noJson)
  /\ (braceDelimited reply ->
      exists pre mid post,
        reply = pre ++ String braceOpen (mid ++ String braceClose post)
        /\ occurs braceOpen pre = false /\ occurs braceClose post = false).
Proof.
  unfold parsePlan. repeat apply conj.
  - intros plan H. now rewrite H.
  - intros e pre mid post H E Hpre Hpost. rewrite H. subst reply.
    now rewrite (matchBraces_first_to_last _ _ _ Hpre Hpost).
  - intros e H Hn. rewrite H. now rewrite (matchBraces_none Hn).
  - apply braceDelimited_split.
Qed.

End RouterFacts.

(* --------------------------------------------------------------------- *)
(** *** The search renderer                                               *)
(* --------------------------------------------------------------------- *)

Section RenderFacts.
Context {B : Builtins}.

Lemma truthy_length (n : nat) : truthy (JNat n) = negb (n =? 0)%nat.
Proof.
  destruct n as [|n]; [reflexivity|].
  unfold JNat, num_of_nat, truthy.
  destruct (Qeq_bool _ _) eqn:E; [|reflexivity].
  apply Qeq_bool_eq in E. unfold Qeq in E. simpl in E. lia.
Qed.

Lemma ToString_convertible (v : JV) :
  convertible v = true -> ToString v = Ok (display v).
Proof.
  unfold convertible, display. destruct (ToString v); [reflexivity|].
  discriminate.
Qed.

Lemma pipe_byte (c : ascii) :
  Ascii.eqb c pipe = (nat_of_ascii c =? 124)%nat.
Proof.
  destruct (Ascii.eqb_spec c pipe) as [->|Hne].
  - reflexivity.
  - symmetry. apply Nat.eqb_neq. intros E. apply Hne.
    rewrite <- (ascii_nat_embedding c), E. reflexivity.
Qed.

Lemma replacePipes_is_escaped (s : string) : replacePipes s = escaped s.
Proof.
  induction s as [|c r IH]; [reflexivity|].
  cbn [replacePipes escaped]. rewrite pipe_byte, IH.
  destruct (nat_of_ascii c =? 124)%nat eqn:E; [|reflexivity].
  apply Nat.eqb_eq in E.
  assert (Hc : c = ascii_of_nat 124)
    by (rewrite <- (ascii_nat_embedding c), E; reflexivity).
  subst c. reflexivity.
Qed.

Lemma joinLines_concat (l : list string) :
  joinLines l = String.concat lineFeed l.
Proof.
  induction l as [|s r IH]; [reflexivity|].
  destruct r as [|t r]; [reflexivity|].
  cbn [joinLines String.concat] in *. now rewrite IH.
Qed.

Lemma mdEscape_convertible (v : JV) :
  nullish v = false -> convertible v = true ->
  mdEscape v = Ok (escaped (display v)).
Proof.
  intros Hn Hp. unfold mdEscape, coalesce. rewrite Hn.
  rewrite (ToString_convertible _ Hp). cbn [rbind].
  now rewrite replacePipes_is_escaped.
Qed.

Lemma cellValue_not_nullish (p : JV) (k1 k2 : string) :
  nullish (cellValue p k1 k2) = false.
Proof.
  unfold cellValue. simpl.
  destruct (nullish (getField p k1)) eqn:E1; [|exact E1].
  destruct (nullish (getField p k2)) eqn:E2; [reflexivity|exact E2].
Qed.

Lemma field2_there (p : JV) (k1 k2 : string) :
  nullish p = false -> field2 p k1 k2 = Ok (cellValue p k1 k2).
Proof.
  intros Hp. unfold field2, cellValue, getProp, coalesce. rewrite Hp.
  cbn [rbind firstPresent].
  destruct (nullish (getField p k1)) eqn:E1; cbn [rbind]; [|now rewrite E1].
  destruct (nullish (getField p k2)); reflexivity.
Qed.

Lemma field1_there (p : JV) (k : string) :
  nullish p = false -> field1 p k = Ok (cellValue p k k).
Proof.
  intros Hp. unfold field1, cellValue, getProp, coalesce. rewrite Hp.
  cbn [rbind firstPresent].
  destruct (nullish (getField p k)); reflexivity.
Qed.

Lemma renderRow_displayable (p : JV) :
  displayable p = true -> renderRow p = Ok (rowText p).
Proof.
  unfold displayable, rowCells. simpl forallb. rewrite !andb_true_iff.
  intros (Hp & H1 & H2 & H3 & H4 & H5 & _). apply negb_true_iff in Hp.
  unfold renderRow, rowText, rowCells.
  rewrite !field2_there, field1_there by exact Hp. simpl rbind.
  rewrite !mdEscape_convertible by (auto using cellValue_not_nullish).
  reflexivity.
Qed.

Lemma mapResult_displayable (l : list JV) :
  forallb displayable l = true -> mapResult renderRow l = Ok (map rowText l).
Proof.
  induction l as [|p l IH]; simpl; intros H.
  - reflexivity.
  - apply andb_true_iff in H as [Hp Hl].
    now rewrite (renderRow_displayable _ Hp), (IH Hl).
Qed.

Lemma byte_is (c : ascii) (n : nat) :
  (nat_of_ascii c =? n)%nat = true -> c = ascii_of_nat n.
Proof.
  intros E. apply Nat.eqb_eq in E.
  now rewrite <- (ascii_nat_embedding c), E.
Qed.

Lemma escaped_head (s : string) :
  match escaped s with
  | String d _ => (nat_of_ascii d =? 124)%nat = false
  | EmptyString => True
  end.
Proof.
  destruct s as [|c r]; cbn [escaped]; [exact I|].
  destruct (nat_of_ascii c =? 124)%nat eqn:E; [reflexivity | exact E].
Qed.

Lemma escaped_pipesEscaped (s : string) : pipesEscaped (escaped s) = true.
Proof.
  induction s as [|c r IH]; [reflexivity|].
  cbn [escaped]. destruct (nat_of_ascii c =? 124)%nat eqn:E.
  - exact IH.
  - cbn [append pipesEscaped]. rewrite E.
    pose proof (escaped_head r) as Hh.
    destruct (escaped r) as [|d r'] eqn:Er; [reflexivity|].
    rewrite Hh, andb_false_r. exact IH.
Qed.

(** Dropping the backslashes gives the text back. *)
Lemma unescaped_escaped (s : string) : unescaped (escaped s) = s.
Proof.
  induction s as [|c r IH]; [reflexivity|].
  cbn [escaped]. destruct (nat_of_ascii c =? 124)%nat eqn:E.
  - apply Nat.eqb_eq in E.
    assert (Hc : c = ascii_of_nat 124)
      by (rewrite <- (ascii_nat_embedding c), E; reflexivity).
    subst c. cbn [append unescaped].
    change (nat_of_ascii "\" =? 92)%nat with true.
    change (nat_of_ascii (ascii_of_nat 124) =? 124)%nat with true.
    cbn [andb]. now rewrite IH.
  - cbn [append unescaped].
    pose proof (escaped_head r) as Hh.
    destruct (escaped r) as [|d r'] eqn:Er.
    + destruct r; [reflexivity|]. cbn [escaped] in Er.
      destruct (nat_of_ascii a =? 124)%nat; discriminate.
    + rewrite Hh, andb_false_r. now rewrite IH.
Qed.

Lemma payload_items_field (p : Payload) :
  getField (or_else (payloadJson p) (JObj [])) "items" = JArr (items p).
Proof. reflexivity. Qed.

Lemma payload_total_field (p : Payload) :
  getField (or_else (payloadJson p) (JObj [])) "total" = JNum (total p).
Proof. reflexivity. Qed.

(** C9, as the code has it.  On a normalized payload whose first five
    items are entities (more generally: items that are there and whose
    cells convert to strings), the search renderer returns the fixed
    sentence when there is no item; otherwise the heading with the
    total, the table head and one row per item for the first five items
    at most, with the name, the address, the two classification fields
    and the identifier, followed by the truncation note with the
    payload's total when that total exceeds five.  In a cell every pipe
    has a backslash in front, and nothing else of the text is changed;
    a field missing under both of its names shows as an em dash.  An
    item that is [null] makes the renderer throw. *)
Theorem renderSearch_table (its : list JV) (n : Num) :
  (forallb displayable (firstn 5 its) = true ->
   renderSearch (payloadJson {| items := its; total := n |})
   = Ok (renderSearch_spec its n))
  /\ renderSearch_spec [] n = "No matching projects found."
  /\ (List.length (map rowText (firstn 5 its)) <= 5)%nat
  /\ (forall s, pipesEscaped (escaped s) = true /\ unescaped (escaped s) = s)
  /\ (forall p k1 k2,
        nullish (getField p k1) = true -> nullish (getField p k2) = true ->
        cellValue p k1 k2 = JStr placeholder)
  /\ (forall p rest,
        its = p :: rest -> nullish p = true ->
        renderSearch (payloadJson {| items := its; total := n |})
        = Err (TypeError ("Cannot read properties of "
                            ++ (if match p with JNull => true | _ => false end
                                then "null" else "undefined")
                            ++ " (reading 'projectName')"))).
Proof.
  assert (Hrun : forall p l,
             its = p :: l ->
             renderSearch (payloadJson {| items := its; total := n |})
             = (rows <-? mapResult renderRow (firstn 5 its) ;;
                Ok ("**Found " ++ NumberToString n ++ " project"
                      ++ (if strictEqNum (JNum n) 1 then "" else "s") ++ "**"
                      ++ nl ++ nl ++ tableHead ++ nl ++ joinLines rows
                      ++ (if Num_gt n (NFin 5)
                          then truncationNote (NumberToString n) else "")))).
  { intros p l ->. unfold renderSearch. cbv zeta.
    rewrite payload_items_field, payload_total_field.
    cbn [items total rbind getProp nullish getField].
    change ("length" =? "length") with true. cbv iota.
    rewrite truthy_length. cbn [List.length Nat.eqb negb].
    destruct (mapResult renderRow (firstn 5 (p :: l))) as [rows|e];
      [|reflexivity].
    cbn [rbind ToNumber ToString].
    destruct (Num_gt n (NFin 5)); reflexivity. }
  repeat apply conj.
  - intros H. destruct its as [|p l]; [reflexivity|].
    rewrite (Hrun p l eq_refl), (mapResult_displayable _ H). cbn [rbind].
    unfold renderSearch_spec. rewrite joinLines_concat.
    replace (strictEqNum (JNum n) 1) with (isOne n) by reflexivity.
    replace (Num_gt n (NFin 5)) with (exceedsFive n)
      by (destruct n; reflexivity).
    destruct (exceedsFive n); reflexivity.
  - reflexivity.
  - rewrite length_map, length_firstn. apply Nat.le_min_l.
  - intros s. split.
    + apply escaped_pipesEscaped.
    + apply unescaped_escaped.
  - intros p k1 k2 H1 H2. unfold cellValue. simpl. now rewrite H1, H2.
  - intros p rest E Hp. rewrite (Hrun p rest E). subst its.
    cbn [firstn mapResult]. unfold renderRow at 1. unfold field2 at 1.
    unfold getProp at 1. rewrite Hp. cbn [rbind].
    destruct p; try discriminate; reflexivity.
Qed.

End RenderFacts.

(* --------------------------------------------------------------------- *)
(** *** Reasoning about computations                                      *)
(* --------------------------------------------------------------------- *)

Create HintDb tools.

Section MonadFacts.
Context {B : Builtins} {X : External}.
Variable ENV : Env.

Lemma bind_ok_inv {A C} (m : M A) (k : A -> M C) w c w' :
  bind m k w = (Ok c, w') ->
  exists a w1, m w = (Ok a, w1) /\ k a w1 = (Ok c, w').
Proof.
  unfold bind. destruct (m w) as [[a|e] w1]; intros H.
  - eauto.
  - discriminate.
Qed.

Lemma bind_err_inv {A C} (m : M A) (k : A -> M C) w e w' :
  bind m k w = (Err e, w') ->
  m w = (Err e, w') \/ exists a w1, m w = (Ok a, w1) /\ k a w1 = (Err e, w').
Proof.
  unfold bind. destruct (m w) as [[a|e0] w1]; intros H.
  - right. eauto.
  - left. injection H as <- <-. reflexivity.
Qed.

Lemma lift_inv {A} (r r' : Result A) w w' :
  lift r w = (r', w') -> r' = r /\ w' = w.
Proof. unfold lift. intros H. injection H as <- <-. auto. Qed.

Lemma preserves_ret {A} (a : A) : preserves (ret a).
Proof. intros w. reflexivity. Qed.

Lemma preserves_throw {A} (e : JsErr) : preserves (@throw _ A e).
Proof. intros w. reflexivity. Qed.

Lemma preserves_lift {A} (r : Result A) : preserves (lift r).
Proof. intros w. reflexivity. Qed.

Lemma preserves_getMemory : preserves getMemory.
Proof. intros w. reflexivity. Qed.

Lemma preserves_http (rq : Request) : preserves (http rq).
Proof. intros w. unfold http. now destruct (http_step (ext w) rq). Qed.

Lemma preserves_random : preserves Math_random.
Proof. intros w. unfold Math_random. now destruct (random_step (ext w)). Qed.

Lemma preserves_callOpenAI (rq : ChatRequest) : preserves (callOpenAI ENV rq).
Proof.
  intros w. unfold callOpenAI. destruct (OPENAI_API_KEY ENV =? "").
  - reflexivity.
  - now destruct (chat_step (ext w) rq).
Qed.

Lemma preserves_bind {A C} (m : M A) (k : A -> M C) :
  preserves m -> (forall a, preserves (k a)) -> preserves (bind m k).
Proof.
  intros Hm Hk w. unfold bind. specialize (Hm w).
  destruct (m w) as [[a|e] w1]; simpl in *.
  - rewrite <- Hm. apply Hk.
  - exact Hm.
Qed.

Lemma preserves_try_catch {A} (m : M A) (h : JsErr -> M A) :
  preserves m -> (forall e, preserves (h e)) -> preserves (try_catch m h).
Proof.
  intros Hm Hh w. unfold try_catch. specialize (Hm w).
  destruct (m w) as [[a|e] w1]; simpl in *.
  - exact Hm.
  - rewrite <- Hm. apply Hh.
Qed.

End MonadFacts.

#[export] Hint Resolve preserves_ret preserves_throw preserves_lift
  preserves_getMemory preserves_http preserves_random preserves_callOpenAI
  : tools.

(** Walks down a computation built from the combinators above. *)
Ltac preserve :=
  cbv zeta;
  repeat match goal with
    | |- preserves (bind _ _) => apply preserves_bind; [|intros]
    | |- preserves (try_catch _ _) => apply preserves_try_catch; [|intros]
    | |- preserves (if ?b then _ else _) => destruct b
    | |- preserves (match ?x with _ => _ end) => destruct x
    | |- preserves _ => solve [auto with tools]
    end.

Section ToolFacts.
Context {B : Builtins} {X : External}.
Variable ENV : Env.

Lemma preserves_searchFirstByName (name : JV) :
  preserves (searchFirstByName ENV name).
Proof. unfold searchFirstByName. preserve. Qed.

Lemma preserves_fetchSomeProjects (limit : Num) :
  preserves (fetchSomeProjects ENV limit).
Proof. unfold fetchSomeProjects. preserve. Qed.

Hint Resolve preserves_searchFirstByName preserves_fetchSomeProjects : tools.

Lemma preserves_resolveGetId (args : JV) : preserves (resolveGetId ENV args).
Proof. unfold resolveGetId, nameTier, memoryTiers. preserve. Qed.

Lemma preserves_resolveDeleteId (args : JV) :
  preserves (resolveDeleteId ENV args).
Proof.
  unfold resolveDeleteId, nameTierDelete, memoryTiersDelete. preserve.
Qed.

Lemma preserves_summarizeNotes (project : JV) :
  preserves (summarizeNotes ENV project).
Proof. unfold summarizeNotes. preserve. Qed.

Lemma preserves_toolSummarize (args : JV) : preserves (toolSummarize ENV args).
Proof. unfold toolSummarize. preserve. Qed.

End ToolFacts.

(* --------------------------------------------------------------------- *)
(** *** Failures and the memory                                           *)
(* --------------------------------------------------------------------- *)

Section FailureFacts.
Context {B : Builtins} {X : External}.
Variable ENV : Env.
Variable Q : Memory -> JsErr -> World -> Prop.

Lemma atomic_preserves {A} (m : M A) : preserves m -> failsAtomicallyOr Q m.
Proof.
  intros Hm w e w' H. left. specialize (Hm w). now rewrite H in Hm.
Qed.

Lemma atomic_bind {A C} (m : M A) (k : A -> M C) :
  preserves m -> (forall a, failsAtomicallyOr Q (k a)) ->
  failsAtomicallyOr Q (bind m k).
Proof.
  intros Hm Hk w e w' H. specialize (Hm w).
  apply bind_err_inv in H as [H | (a & w1 & H1 & H2)].
  - left. now rewrite H in Hm.
  - rewrite H1 in Hm. simpl in Hm. rewrite <- Hm. exact (Hk a w1 e w' H2).
Qed.

(** The last two statements of create, get and update cannot throw. *)
Lemma atomic_setLastProject {A} (v : JV) (a : A) :
  failsAtomicallyOr Q (setLastProject v ;;; ret a).
Proof. intros w e w' H. discriminate. Qed.

Lemma atomic_setLastSearchItems {A} (l : list JV) (a : A) :
  failsAtomicallyOr Q (setLastSearchItems l ;;; ret a).
Proof. intros w e w' H. discriminate. Qed.

End FailureFacts.

Ltac atomic :=
  cbv zeta;
  repeat match goal with
    | |- failsAtomicallyOr _ (bind (setLastProject _) (fun _ => ret _)) =>
        apply atomic_setLastProject
    | |- failsAtomicallyOr _ (bind (setLastSearchItems _) (fun _ => ret _)) =>
        apply atomic_setLastSearchItems
    | |- failsAtomicallyOr _
           (bind (http _) (fun _ => bind (setLastProject JNull) _)) =>
        fail 1
    | |- failsAtomicallyOr _ (bind _ _) =>
        apply atomic_bind; [solve [auto with tools] | intros]
    | |- failsAtomicallyOr _ (if ?b then _ else _) => destruct b
    | |- failsAtomicallyOr _ (throw _) =>
        apply atomic_preserves; apply preserves_throw
    end.

Section DeleteFacts.
Context {B : Builtins} {X : External}.
Variable ENV : Env.

Hint Resolve preserves_searchFirstByName preserves_fetchSomeProjects
  preserves_resolveGetId preserves_resolveDeleteId preserves_summarizeNotes
  preserves_toolSummarize : tools.

Lemma deletedMessage_err (nameUsed : JV) (id : string) (e : JsErr) :
  deletedMessage nameUsed id = Err e -> exists name, ToString name = Err e.
Proof.
  unfold deletedMessage. destruct (truthy nameUsed); [|discriminate].
  destruct (ToString nameUsed) eqn:E; simpl; [discriminate|].
  intros H. injection H as <-. eauto.
Qed.

Lemma deletedRandomMessage_err (name : JV) (id : string) (e : JsErr) :
  deletedRandomMessage name id = Err e -> exists name, ToString name = Err e.
Proof.
  unfold deletedRandomMessage. destruct (ToString name) eqn:E; simpl;
    [discriminate|].
  intros H. injection H as <-. eauto.
Qed.

(** DELETE, then the assignment, then the confirmation text. *)
Lemma atomic_delete_tail (id : string) (msg : Result string) :
  (forall e, msg = Err e -> exists name, ToString name = Err e) ->
  failsAtomicallyOr clearedByDelete
    (http (request ENV DELETE (ProjectById id) (withApiKey ENV []) None) ;;;
     setLastProject JNull ;;;
     humanMsg <- lift msg ;;
     ret (text humanMsg)).
Proof.
  intros Hmsg w e w' H. unfold bind, http in H.
  destruct (http_step (ext w) _) as [[v|e0] x].
  - unfold setLastProject, lift, ret in H. destruct msg as [s|e1].
    + discriminate.
    + injection H as <- <-. right. repeat split.
      * exact (Hmsg _ eq_refl).
      * eexists _, v, (trace w). split; [|reflexivity]. reflexivity.
  - injection H as <- <-. left. reflexivity.
Qed.

Lemma atomic_toolSummarize (args : JV) :
  failsAtomicallyOr (fun _ _ _ => False) (toolSummarize ENV args).
Proof. apply atomic_preserves. auto with tools. Qed.

Lemma atomic_toolCreate (args : JV) :
  failsAtomicallyOr (fun _ _ _ => False) (toolCreate ENV args).
Proof. unfold toolCreate. atomic. Qed.

Lemma atomic_toolGet (args : JV) :
  failsAtomicallyOr (fun _ _ _ => False) (toolGet ENV args).
Proof. unfold toolGet. atomic. Qed.

Lemma atomic_toolUpdate (args : JV) :
  failsAtomicallyOr (fun _ _ _ => False) (toolUpdate ENV args).
Proof. unfold toolUpdate. atomic. Qed.

Lemma atomic_toolSearch (args : JV) :
  failsAtomicallyOr (fun _ _ _ => False) (toolSearch ENV args).
Proof. unfold toolSearch. atomic. Qed.

Lemma atomic_toolDelete (args : JV) :
  failsAtomicallyOr clearedByDelete (toolDelete ENV args).
Proof.
  unfold toolDelete. atomic. apply atomic_delete_tail.
  intros e. apply deletedMessage_err.
Qed.

Lemma atomic_toolDeleteRandom (args : JV) :
  failsAtomicallyOr clearedByDelete (toolDeleteRandom ENV args).
Proof.
  unfold toolDeleteRandom. atomic. unfold deleteRandomlyFrom. atomic.
  apply atomic_delete_tail.
  intros e. apply deletedRandomMessage_err.
Qed.

End DeleteFacts.

Section MemoryTheorems.
Context {B : Builtins} {X : External}.
Variable ENV : Env.

(** C10, as the code has it.  A tool invocation that throws leaves the
    memory exactly as it was, with one exception: [projects.delete] and
    [projects.deleteRandom] clear [lastProject] as soon as the backend
    has answered their DELETE request, before they build the
    confirmation text; when that text cannot be built, the invocation
    throws with [lastProject] cleared and [lastSearchItems] untouched. *)
Theorem failure_leaves_memory_or_cleared (name : string) (args : JV)
  (w : World) (e : JsErr) (w' : World) :
  runTool ENV name args w = (Err e, w') ->
  memory w' = memory w
  \/ ((name = "projects.delete" \/ name = "projects.deleteRandom")
      /\ clearedByDelete (memory w) e w').
Proof.
  unfold runTool. cbv zeta.
  destruct (name =? "ai.summarize");
    [intros H; destruct (atomic_toolSummarize ENV _ _ H) as [|[]]; now left|].
  destruct (name =? "projects.create");
    [intros H; destruct (atomic_toolCreate ENV _ _ H) as [|[]]; now left|].
  destruct (name =? "projects.get");
    [intros H; destruct (atomic_toolGet ENV _ _ H) as [|[]]; now left|].
  destruct (name =? "projects.update");
    [intros H; destruct (atomic_toolUpdate ENV _ _ H) as [|[]]; now left|].
  destruct (name =? "projects.delete") eqn:Ed.
  { apply String.eqb_eq in Ed. intros H.
    destruct (atomic_toolDelete ENV _ _ H); auto. }
  destruct (name =? "projects.deleteRandom") eqn:Er.
  { apply String.eqb_eq in Er. intros H.
    destruct (atomic_toolDeleteRandom ENV _ _ H); auto. }
  destruct (name =? "projects.search");
    [intros H; destruct (atomic_toolSearch ENV _ _ H) as [|[]]; now left|].
  intros H. injection H as <- <-. now left.
Qed.

End MemoryTheorems.

(* --------------------------------------------------------------------- *)
(** *** Who writes [lastSearchItems]                                      *)
(* --------------------------------------------------------------------- *)

Section SearchFacts.
Context {B : Builtins} {X : External}.
Variable ENV : Env.

Lemma keeps_of_preserves {A} (m : M A) : preserves m -> keepsSearchItems m.
Proof. intros H w. now rewrite (H w). Qed.

Lemma keeps_bind {A C} (m : M A) (k : A -> M C) :
  keepsSearchItems m -> (forall a, keepsSearchItems (k a)) ->
  keepsSearchItems (bind m k).
Proof.
  intros Hm Hk w. unfold bind. specialize (Hm w).
  destruct (m w) as [[a|e] w1]; simpl in *.
  - rewrite <- Hm. apply Hk.
  - exact Hm.
Qed.

Lemma keeps_setLastProject (v : JV) : keepsSearchItems (setLastProject v).
Proof. intros w. reflexivity. Qed.

End SearchFacts.

Ltac keeps :=
  cbv zeta;
  repeat match goal with
    | |- keepsSearchItems (setLastProject _) => apply keeps_setLastProject
    | |- keepsSearchItems (bind _ _) => apply keeps_bind; [|intros]
    | |- keepsSearchItems (if ?b then _ else _) => destruct b
    | |- keepsSearchItems _ => solve [apply keeps_of_preserves; auto with tools]
    end.

Section SearchTheorem.
Context {B : Builtins} {X : External}.
Variable ENV : Env.

Hint Resolve preserves_searchFirstByName preserves_fetchSomeProjects
  preserves_resolveGetId preserves_resolveDeleteId preserves_summarizeNotes
  preserves_toolSummarize : tools.

Lemma keeps_other_tools (name : string) (args : JV) :
  name <> "projects.search" -> keepsSearchItems (runTool ENV name args).
Proof.
  intros Hname. unfold runTool. cbv zeta.
  destruct (name =? "ai.summarize"); [keeps|].
  destruct (name =? "projects.create"); [unfold toolCreate; keeps|].
  destruct (name =? "projects.get"); [unfold toolGet; keeps|].
  destruct (name =? "projects.update"); [unfold toolUpdate; keeps|].
  destruct (name =? "projects.delete"); [unfold toolDelete; keeps|].
  destruct (name =? "projects.deleteRandom");
    [unfold toolDeleteRandom; keeps; unfold deleteRandomlyFrom; keeps|].
  destruct (name =? "projects.search") eqn:E.
  - apply String.eqb_eq in E. contradiction.
  - keeps.
Qed.

(** C5. A successful [projects.search] leaves in [lastSearchItems] the
    items of the normalized payload of the backend's answer, whatever the
    list held before (so an answer without items leaves it empty), and
    touches nothing else of the memory; no other tool changes
    [lastSearchItems], whether it returns or throws. *)
Theorem search_overwrites_lastSearchItems (args : JV) (w : World) :
  (forall c w',
      runTool ENV "projects.search" args w = (Ok c, w') ->
      exists rq result payload w1,
        http rq w = (Ok result, w1)
        /\ normalizeListPayload result = Ok payload
        /\ c = [BJson (payloadJson payload)]
        /\ w' = withLastSearchItems (items payload) w1
        /\ lastSearchItems (memory w') = items payload
        /\ lastProject (memory w') = lastProject (memory w))
  /\ (forall name,
        name <> "projects.search" ->
        lastSearchItems (memory (snd (runTool ENV name args w)))
        = lastSearchItems (memory w)).
Proof.
  split.
  - intros c w' H.
    change (runTool ENV "projects.search" args)
      with (toolSearch ENV (defaultArgs args)) in H.
    unfold toolSearch in H.
    apply bind_ok_inv in H as (filters & w1 & H1 & H).
    apply lift_inv in H1 as [_ ->].
    apply bind_ok_inv in H as (page & w2 & H2 & H).
    apply lift_inv in H2 as [_ ->].
    apply bind_ok_inv in H as (limit & w3 & H3 & H).
    apply lift_inv in H3 as [_ ->].
    apply bind_ok_inv in H as (result & w4 & Hh & H).
    apply bind_ok_inv in H as (payload & w5 & Hn & H).
    apply lift_inv in Hn as [Hn ->].
    apply bind_ok_inv in H as (u & w6 & Hs & H).
    unfold setLastSearchItems in Hs. injection Hs as _ <-.
    unfold ret in H. injection H as <- <-.
    exists (listRequest ENV (filters ++ page ++ limit)), result, payload, w4.
    repeat split; auto.
    pose proof (preserves_http (listRequest ENV (filters ++ page ++ limit)) w)
      as Hp.
    rewrite Hh in Hp. simpl in Hp. simpl. now rewrite Hp.
  - intros name Hname. exact (keeps_other_tools args Hname w).
Qed.

End SearchTheorem.

(* --------------------------------------------------------------------- *)
(** *** What [lastProject] holds after a success                          *)
(* --------------------------------------------------------------------- *)

Ltac inv_bind H a w1 H1 :=
  apply bind_ok_inv in H as (a & w1 & H1 & H).

Ltac inv_lift H a w1 H1 :=
  apply bind_ok_inv in H as (a & w1 & H1 & H);
  apply lift_inv in H1 as [H1 ->].

Section LastProjectFacts.
Context {B : Builtins} {X : External}.
Variable ENV : Env.

Lemma or_else_truthy (v d : JV) : truthy v = true -> or_else v d = v.
Proof. unfold or_else. now intros ->. Qed.

(** The three ways out of the notes summary. *)
Lemma summarizeNotes_ok (fetched project : JV) (w w' : World) :
  summarizeNotes ENV fetched w = (Ok project, w') ->
  project = fetched
  \/ (exists summary, setProp fetched "notes_summary" summary = Ok project)
  \/ (exists e, setProp fetched "notes_summary_error" (JStr (errorText e))
                = Ok project).
Proof.
  unfold summarizeNotes.
  destruct (negb (OPENAI_API_KEY ENV =? "") && truthy (optGet fetched "notes")).
  - unfold try_catch.
    match goal with |- context [match ?m w with _ => _ end] =>
      destruct (m w) as [[p|e] w1] eqn:E end.
    + intros H. injection H as <- <-.
      inv_lift E notes w2 E1. inv_bind E summary w3 E2.
      apply lift_inv in E as [E _]. right. left. eauto.
    + intros H. apply lift_inv in H as [H _]. right. right. eauto.
  - intros H. injection H as <- <-. now left.
Qed.

(** C4, as the code has it.  After a successful [projects.create] or
    [projects.update], [lastProject] is the value that very backend call
    returned (an entity, being an object, is stored as it is; a falsy
    value is stored as [null]).  After a successful [projects.get] it is
    the entity the invocation returns: the backend's, or the backend's
    with the [notes_summary] or the [notes_summary_error] field set when
    the summary step ran.  After a successful [projects.delete] or
    [projects.deleteRandom] it is [null], whatever it was. *)
Theorem lastProject_after_success (args : JV) (w : World) (c : list Block)
  (w' : World) :
  (runTool ENV "projects.create" args w = (Ok c, w') ->
   exists rq created w1,
     rq_method rq = POST /\ http rq w = (Ok created, w1)
     /\ c = [BJson created]
     /\ lastProject (memory w') = or_else created JNull
     /\ (forall fs, created = JObj fs -> lastProject (memory w') = created))
  /\ (runTool ENV "projects.update" args w = (Ok c, w') ->
      exists rq updated w1,
        rq_method rq = PUT /\ http rq w = (Ok updated, w1)
        /\ c = [BJson updated]
        /\ lastProject (memory w') = or_else updated JNull
        /\ (forall fs, updated = JObj fs -> lastProject (memory w') = updated))
  /\ (runTool ENV "projects.get" args w = (Ok c, w') ->
      exists id w1 fetched w2 project,
        resolveGetId ENV (defaultArgs args) w = (Ok id, w1)
        /\ http (request ENV GET (ProjectById id) (withApiKey ENV []) None) w1
           = (Ok fetched, w2)
        /\ c = [BJson project]
        /\ lastProject (memory w') = or_else project JNull
        /\ (forall fs, project = JObj fs -> lastProject (memory w') = project)
        /\ (project = fetched
            \/ (exists summary,
                   setProp fetched "notes_summary" summary = Ok project)
            \/ (exists e,
                   setProp fetched "notes_summary_error" (JStr (errorText e))
                   = Ok project)))
  /\ (runTool ENV "projects.delete" args w = (Ok c, w') ->
      lastProject (memory w') = JNull)
  /\ (runTool ENV "projects.deleteRandom" args w = (Ok c, w') ->
      lastProject (memory w') = JNull).
Proof.
  repeat apply conj.
  - change (runTool ENV "projects.create" args)
      with (toolCreate ENV (defaultArgs args)).
    unfold toolCreate. intros H.
    inv_lift H projectName w1 H1. inv_lift H address w2 H2.
    inv_lift H zoningCode w3 H3. inv_lift H zoneType w4 H4.
    inv_lift H notes w5 H5. cbv zeta in H.
    inv_bind H created w6 Hh. inv_bind H u w7 Hs.
    unfold setLastProject in Hs. injection Hs as _ <-.
    unfold ret in H. injection H as <- <-.
    eexists _, created, w6. repeat split; try eassumption; try reflexivity.
    intros fs ->. reflexivity.
  - change (runTool ENV "projects.update" args)
      with (toolUpdate ENV (defaultArgs args)).
    unfold toolUpdate. intros H.
    inv_lift H pid w1 H1. inv_lift H f1 w2 H2. inv_lift H f2 w3 H3.
    inv_lift H f3 w4 H4. inv_lift H f4 w5 H5. inv_lift H f5 w6 H6.
    cbv zeta in H.
    inv_bind H updated w7 Hh. inv_bind H u w8 Hs.
    unfold setLastProject in Hs. injection Hs as _ <-.
    unfold ret in H. injection H as <- <-.
    eexists _, updated, w7. repeat split; try eassumption; try reflexivity.
    intros fs ->. reflexivity.
  - change (runTool ENV "projects.get" args)
      with (toolGet ENV (defaultArgs args)).
    unfold toolGet. intros H.
    inv_bind H pid w1 Hr. inv_bind H fetched w2 Hh.
    inv_bind H project w3 Hn. inv_bind H u w4 Hs.
    unfold setLastProject in Hs. injection Hs as _ <-.
    unfold ret in H. injection H as <- <-.
    exists pid, w1, fetched, w2, project.
    repeat split; try eassumption; try reflexivity.
    + intros fs ->. reflexivity.
    + exact (summarizeNotes_ok _ _ Hn).
  - change (runTool ENV "projects.delete" args)
      with (toolDelete ENV (defaultArgs args)).
    unfold toolDelete. intros H.
    inv_bind H r w1 Hr. inv_bind H v w2 Hh. inv_bind H u w3 Hs.
    unfold setLastProject in Hs. injection Hs as _ <-.
    inv_lift H msg w4 Hm. unfold ret in H. injection H as <- <-.
    reflexivity.
  - change (runTool ENV "projects.deleteRandom" args)
      with (toolDeleteRandom ENV (defaultArgs args)).
    unfold toolDeleteRandom. intros H.
    inv_lift H limit w1 H1. inv_lift H batchLimit w2 H2.
    inv_bind H its w3 Hf. unfold deleteRandomlyFrom in H.
    destruct (negb (truthy (JNat (List.length its)))); [discriminate|].
    inv_bind H r w4 Hd. cbv zeta in H.
    inv_lift H pid w5 Hi. inv_lift H name w6 Hn.
    inv_bind H v w7 Hh. inv_bind H u w8 Hs.
    unfold setLastProject in Hs. injection Hs as _ <-.
    inv_lift H msg w9 Hm. unfold ret in H. injection H as <- <-.
    reflexivity.
Qed.

End LastProjectFacts.

(* --------------------------------------------------------------------- *)
(** *** The notes summary of [projects.get]                               *)
(* --------------------------------------------------------------------- *)

Section SummaryFacts.
Context {B : Builtins} {X : External}.
Variable ENV : Env.

Lemma truthy_notes_object (v : JV) :
  truthy (optGet v "notes") = true -> exists fs, v = JObj fs.
Proof.
  destruct v as [| |b|n|s|l|fs]; simpl; try discriminate.
  eauto.
Qed.

Lemma toolGet_after_fetch (args : JV) (w : World) (pid : string)
  (w1 : World) (fetched : JV) (w2 : World) (project : JV) (w3 : World) :
  resolveGetId ENV args w = (Ok pid, w1) ->
  http (request ENV GET (ProjectById pid) (withApiKey ENV []) None) w1
  = (Ok fetched, w2) ->
  summarizeNotes ENV fetched w2 = (Ok project, w3) ->
  toolGet ENV args w
  = (Ok [BJson project], withLastProject (or_else project JNull) w3).
Proof.
  intros Hr Hh Hs. unfold toolGet, bind. rewrite Hr, Hh, Hs. reflexivity.
Qed.

Lemma errorText_attached (e : JsErr) : errorText e = attachedText e.
Proof.
  unfold errorText, attachedText.
  destruct (err_message e); [|reflexivity].
  destruct (err_name e); reflexivity.
Qed.

(** C6. Once [projects.get] has fetched the entity: when a credential is
    configured and the entity has truthy (for a string: non-empty) notes,
    the completion API is called once, with the notes and at most 120
    reply tokens; whether that call answers or fails, and also when the
    notes do not convert to a string, the invocation succeeds, returns
    the entity with the summary or with the error attached (its message;
    the name of its kind when it has no message), and stores that same
    entity in [lastProject].  Without a credential or
    without notes, no call is made and the fetched entity is returned. *)
Theorem get_summary_best_effort (args : JV) (w : World) (pid : string)
  (w1 : World) (fetched : JV) (w2 : World) :
  resolveGetId ENV (defaultArgs args) w = (Ok pid, w1) ->
  http (request ENV GET (ProjectById pid) (withApiKey ENV []) None) w1
  = (Ok fetched, w2) ->
  let attempted :=
    negb (OPENAI_API_KEY ENV =? "") && truthy (optGet fetched "notes") in
  (attempted = true ->
   forall notes r x,
     ToString (getField fetched "notes") = Ok notes ->
     let rq := chatRequest ENV (summaryPrompt notes) 120 defaultTemperature in
     chat_step (ext w2) rq = (r, x) ->
     exists project,
       match r with
       | Ok summary => setProp fetched "notes_summary" summary
       | Err e => setProp fetched "notes_summary_error" (JStr (attachedText e))
       end = Ok project
       /\ runTool ENV "projects.get" args w
          = (Ok [BJson project],
             withLastProject project (record x (EvChat rq r) w2)))
  /\ (attempted = true ->
      forall e,
        ToString (getField fetched "notes") = Err e ->
        exists project,
          setProp fetched "notes_summary_error" (JStr (attachedText e))
          = Ok project
          /\ runTool ENV "projects.get" args w
             = (Ok [BJson project], withLastProject project w2))
  /\ (attempted = false ->
      runTool ENV "projects.get" args w
      = (Ok [BJson fetched], withLastProject (or_else fetched JNull) w2)).
Proof.
  intros Hr Hh attempted.
  change (runTool ENV "projects.get" args)
    with (toolGet ENV (defaultArgs args)).
  repeat apply conj.
  - intros Ha notes r x Hn rq Hc.
    pose proof Ha as Ha'. apply andb_true_iff in Ha' as [Hkey Hnotes].
    destruct (truthy_notes_object _ Hnotes) as [fs ->].
    assert (Hs : summarizeNotes ENV (JObj fs) w2
                 = (match r with
                    | Ok summary => Ok (JObj (setField "notes_summary" summary fs))
                    | Err e => Ok (JObj (setField "notes_summary_error"
                                           (JStr (errorText e)) fs))
                    end, record x (EvChat rq r) w2)).
    { unfold summarizeNotes. fold attempted. rewrite Ha.
      unfold try_catch, bind, lift, getProp. cbn [nullish rbind].
      rewrite Hn. unfold callOpenAI.
      apply negb_true_iff in Hkey. rewrite Hkey.
      fold rq. rewrite Hc. destruct r; reflexivity. }
    destruct r as [summary|e].
    + eexists. split; [reflexivity|].
      rewrite (toolGet_after_fetch (defaultArgs args) w Hr Hh Hs). reflexivity.
    + rewrite <- errorText_attached. eexists. split; [reflexivity|].
      rewrite (toolGet_after_fetch (defaultArgs args) w Hr Hh Hs). reflexivity.
  - intros Ha e Hn. rewrite <- errorText_attached.
    pose proof Ha as Ha'. apply andb_true_iff in Ha' as [Hkey Hnotes].
    destruct (truthy_notes_object _ Hnotes) as [fs ->].
    assert (Hs : summarizeNotes ENV (JObj fs) w2
                 = (Ok (JObj (setField "notes_summary_error"
                                (JStr (errorText e)) fs)), w2)).
    { unfold summarizeNotes. fold attempted. rewrite Ha.
      unfold try_catch, bind, lift, getProp. cbn [nullish rbind].
      rewrite Hn. reflexivity. }
    eexists. split; [reflexivity|].
    rewrite (toolGet_after_fetch (defaultArgs args) w Hr Hh Hs). reflexivity.
  - intros Ha.
    assert (Hs : summarizeNotes ENV fetched w2 = (Ok fetched, w2)).
    { unfold summarizeNotes. fold attempted. now rewrite Ha. }
    exact (toolGet_after_fetch (defaultArgs args) w Hr Hh Hs).
Qed.

End SummaryFacts.

(* --------------------------------------------------------------------- *)
(** *** The log of exchanges                                              *)
(* --------------------------------------------------------------------- *)

Section TraceFacts.
Context {B : Builtins} {X : External}.
Variable ENV : Env.

Lemma bind_assoc {A C D} (m : M A) (f : A -> M C) (g : C -> M D) w :
  bind (bind m f) g w = bind m (fun a => bind (f a) g) w.
Proof. unfold bind. destruct (m w) as [[a|e] w1]; reflexivity. Qed.

Lemma bind_lift_ok {A C} (r : Result A) (a : A) (k : A -> M C) w :
  r = Ok a -> bind (lift r) k w = k a w.
Proof. intros ->. reflexivity. Qed.

Lemma bind_ret {A C} (a : A) (k : A -> M C) w : bind (ret a) k w = k a w.
Proof. reflexivity. Qed.

Lemma bind_http_ok {C} (rq : Request) (k : JV -> M C) w v x :
  http_step (ext w) rq = (Ok v, x) ->
  bind (http rq) k w = k v (record x (EvHttp rq (Ok v)) w).
Proof. intros H. unfold bind, http. now rewrite H. Qed.


Lemma extends_ret {A} (a : A) : extends (ret a).
Proof. intros w. exists []. simpl. now rewrite app_nil_r. Qed.

Lemma extends_throw {A} (e : JsErr) : extends (@throw _ A e).
Proof. intros w. exists []. simpl. now rewrite app_nil_r. Qed.

Lemma extends_lift {A} (r : Result A) : extends (lift r).
Proof. intros w. exists []. simpl. now rewrite app_nil_r. Qed.

Lemma extends_getMemory : extends getMemory.
Proof. intros w. exists []. simpl. now rewrite app_nil_r. Qed.

Lemma extends_setLastProject (v : JV) : extends (setLastProject v).
Proof. intros w. exists []. simpl. now rewrite app_nil_r. Qed.

Lemma extends_setLastSearchItems (l : list JV) :
  extends (setLastSearchItems l).
Proof. intros w. exists []. simpl. now rewrite app_nil_r. Qed.

Lemma extends_http (rq : Request) : extends (http rq).
Proof.
  intros w. unfold http. destruct (http_step (ext w) rq) as [r x].
  now exists [EvHttp rq r].
Qed.

Lemma extends_random : extends Math_random.
Proof.
  intros w. unfold Math_random. destruct (random_step (ext w)) as [r x].
  now exists [EvRandom r].
Qed.

Lemma extends_callOpenAI (rq : ChatRequest) : extends (callOpenAI ENV rq).
Proof.
  intros w. unfold callOpenAI. destruct (OPENAI_API_KEY ENV =? "").
  - apply extends_throw.
  - destruct (chat_step (ext w) rq) as [r x]. now exists [EvChat rq r].
Qed.




End TraceFacts.

#[export] Hint Resolve extends_ret extends_throw extends_lift
  extends_getMemory extends_setLastProject extends_setLastSearchItems
  extends_http extends_random extends_callOpenAI : tools.


(* --------------------------------------------------------------------- *)
(** *** The batch of [projects.deleteRandom]                              *)
(* --------------------------------------------------------------------- *)

Section BatchFacts.
Context {B : Builtins} {X : External}.
Variable ENV : Env.

Lemma getProp_defaultArgs (args : JV) (k : string) :
  args <> JNull -> getProp (defaultArgs args) k = Ok (optGet args k).
Proof.
  destruct args; try reflexivity. intros H. now elim H.
Qed.



End BatchFacts.

(* --------------------------------------------------------------------- *)
(** *** Identifier resolution                                             *)
(* --------------------------------------------------------------------- *)

(** Runs a straight-line computation whose tests are known. *)
Ltac tiers :=
  cbv zeta;
  repeat first
    [ progress cbn [andb fst snd idMissing rbind]
    | progress cbv beta iota
    | match goal with H : _ = _ |- _ => rewrite H end ].

Section ResolutionFacts.
Context {B : Builtins} {X : External}.
Variable ENV : Env.

Lemma bind_ok {A C} (m : M A) (k : A -> M C) w a w1 :
  m w = (Ok a, w1) -> bind m k w = k a w1.
Proof. intros H. unfold bind. now rewrite H. Qed.

Lemma bind_err {A C} (m : M A) (k : A -> M C) w e w1 :
  m w = (Err e, w1) -> bind m k w = (Err e, w1).
Proof. intros H. unfold bind. now rewrite H. Qed.

Lemma truthy_optGet (v : JV) (k : string) :
  truthy (optGet v k) = true -> getProp v k = Ok (getField v k).
Proof.
  unfold optGet, getProp. destruct (nullish v); [discriminate | reflexivity].
Qed.

Lemma hasNonEmptyString_inv (args : JV) (k : string) :
  hasNonEmptyString args k = true ->
  exists s, getField args k = JStr s /\ getProp args k = Ok (JStr s)
            /\ s <> "".
Proof.
  unfold hasNonEmptyString, optGet, getProp.
  destruct (nullish args); [discriminate|].
  destruct (getField args k) as [| |b|n|s|l|fs]; try discriminate.
  intros H. exists s. repeat split. intros ->. discriminate.
Qed.

Lemma explicitId_given (args : JV) :
  hasNonEmptyString args "id" = true ->
  exists s, getField args "id" = JStr s /\ s <> ""
            /\ explicitId args = Ok (Some s).
Proof.
  intros H. destruct (hasNonEmptyString_inv _ _ H) as (s & Hf & Hp & Hs).
  exists s. repeat split; auto.
  unfold explicitId. rewrite H, Hp. reflexivity.
Qed.

Lemma explicitId_absent (args : JV) :
  hasNonEmptyString args "id" = false -> explicitId args = Ok None.
Proof. intros H. unfold explicitId. now rewrite H. Qed.

Lemma idMissing_given (s : string) : s <> "" -> idMissing (Some s) = false.
Proof. intros H. now apply String.eqb_neq. Qed.

(** An identifier found by an earlier tier goes through the fallbacks
    untouched. *)
Lemma memoryTiers_given (s : string) (w : World) :
  s <> "" -> memoryTiers (Some s) w = (Ok s, w).
Proof.
  intros H. apply String.eqb_neq in H.
  unfold memoryTiers, bind, getMemory, ret. tiers. reflexivity.
Qed.


Lemma memoryTiers_lastProject (id1 : option string) (w : World) (s : string) :
  idMissing id1 = true ->
  truthy (optGet (lastProject (memory w)) "id") = true ->
  ToString (getField (lastProject (memory w)) "id") = Ok s ->
  s <> "" ->
  memoryTiers id1 w = (Ok s, w).
Proof.
  intros Hm Ht Hs Hne. apply String.eqb_neq in Hne.
  pose proof (truthy_optGet _ _ Ht) as Hp.
  unfold memoryTiers, bind, getMemory, ret, lift. tiers. reflexivity.
Qed.

Lemma getProp_sibling (v : JV) (k k' : string) :
  truthy (optGet v k) = true -> getProp v k' = Ok (getField v k').
Proof.
  unfold optGet, getProp. destruct (nullish v); [discriminate | reflexivity].
Qed.

Lemma memoryTiersDelete_lastProject (r1 : option string * JV) (w : World)
  (s : string) :
  idMissing (fst r1) = true ->
  truthy (optGet (lastProject (memory w)) "id") = true ->
  ToString (getField (lastProject (memory w)) "id") = Ok s ->
  s <> "" ->
  memoryTiersDelete r1 w
  = (Ok (s, or_else (getField (lastProject (memory w)) "projectName")
                    (snd r1)), w).
Proof.
  intros Hm Ht Hs Hne. apply String.eqb_neq in Hne.
  pose proof (truthy_optGet _ _ Ht) as Hp.
  pose proof (getProp_sibling _ _ "projectName" Ht) as Hn.
  unfold memoryTiersDelete, bind, getMemory, ret, lift. tiers. reflexivity.
Qed.

Lemma memoryTiers_lastSearch (id1 : option string) (w : World) (s : string) :
  idMissing id1 = true ->
  truthy (optGet (lastProject (memory w)) "id") = false ->
  truthy (optGet (nth 0 (lastSearchItems (memory w)) JUndef) "id") = true ->
  ToString (getField (nth 0 (lastSearchItems (memory w)) JUndef) "id") = Ok s ->
  s <> "" ->
  memoryTiers id1 w = (Ok s, w).
Proof.
  intros Hm Hl Ht Hs Hne. apply String.eqb_neq in Hne.
  pose proof (truthy_optGet _ _ Ht) as Hp.
  unfold memoryTiers, bind, getMemory, ret, lift. tiers. reflexivity.
Qed.

Lemma memoryTiersDelete_lastSearch (r1 : option string * JV) (w : World)
  (s : string) :
  idMissing (fst r1) = true ->
  truthy (optGet (lastProject (memory w)) "id") = false ->
  truthy (optGet (nth 0 (lastSearchItems (memory w)) JUndef) "id") = true ->
  ToString (getField (nth 0 (lastSearchItems (memory w)) JUndef) "id") = Ok s ->
  s <> "" ->
  memoryTiersDelete r1 w
  = (Ok (s, or_else (getField (nth 0 (lastSearchItems (memory w)) JUndef)
                              "projectName") (snd r1)), w).
Proof.
  intros Hm Hl Ht Hs Hne. apply String.eqb_neq in Hne.
  pose proof (truthy_optGet _ _ Ht) as Hp.
  pose proof (getProp_sibling _ _ "projectName" Ht) as Hn.
  unfold memoryTiersDelete, bind, getMemory, ret, lift. tiers. reflexivity.
Qed.

Lemma memoryTiers_empty (id1 : option string) (w : World) :
  idMissing id1 = true ->
  truthy (optGet (lastProject (memory w)) "id") = false ->
  truthy (optGet (nth 0 (lastSearchItems (memory w)) JUndef) "id") = false ->
  memoryTiers id1 w = (Err provideIdOrName, w).
Proof.
  intros Hm Hl Ht.
  unfold memoryTiers, bind, getMemory, ret, lift. tiers.
  destruct id1 as [s|]; [|reflexivity].
  simpl in Hm. now rewrite Hm.
Qed.

Lemma memoryTiersDelete_empty (r1 : option string * JV) (w : World) :
  idMissing (fst r1) = true ->
  truthy (optGet (lastProject (memory w)) "id") = false ->
  truthy (optGet (nth 0 (lastSearchItems (memory w)) JUndef) "id") = false ->
  memoryTiersDelete r1 w = (Err provideIdOrName, w).
Proof.
  intros Hm Hl Ht.
  unfold memoryTiersDelete, bind, getMemory, ret, lift. tiers.
  destruct (fst r1) as [s|]; [|reflexivity].
  simpl in Hm. now rewrite Hm.
Qed.








End ResolutionFacts.

Section ResolutionTheorem.
Context {B : Builtins} {X : External}.
Variable ENV : Env.

Lemma nameTier_skip (args : JV) (id0 : option string) (w : World) :
  idMissing id0 && hasNonEmptyString args "projectName" = false ->
  nameTier ENV args id0 w = (Ok id0, w)
  /\ nameTierDelete ENV args id0 w = (Ok (id0, JNull), w).
Proof.
  intros H. unfold nameTier, nameTierDelete. now rewrite H.
Qed.




(** [String(v.id ?? v.projectId)] is the text of the identifier of a
    value that is there. *)
Lemma identifierOf_there (v : JV) :
  nullish v = false -> identifierOf v = ToString (identifierField v).
Proof.
  intros H. unfold identifierOf, identifierField, getProp. rewrite H.
  cbn [rbind]. destruct (nullish (getField v "id")); reflexivity.
Qed.





End ResolutionTheorem.

(* --------------------------------------------------------------------- *)
(** *** Required arguments                                                *)
(* --------------------------------------------------------------------- *)

Section RequiredFacts.
Context {B : Builtins}.

Lemma length_trimStart (s : string) :
  (String.length (trimStart s) <= String.length s)%nat.
Proof.
  assert (H : forall n s, (String.length s <= n)%nat ->
                          (String.length (trimStart s) <= String.length s)%nat);
    [|now apply (H (String.length s))].
  clear s. induction n as [|n IH]; intros s Hn.
  - destruct s; simpl in *; lia.
  - destruct s as [|a r]; [simpl; lia|].
    cbn [trimStart]. simpl in Hn.
    destruct (isAsciiWs a).
    { specialize (IH r). simpl. lia. }
    destruct r as [|b r2]; [simpl; lia|].
    destruct (ws2 (nat_of_ascii a) (nat_of_ascii b)).
    { specialize (IH r2). simpl in *. lia. }
    destruct r2 as [|c r3]; [simpl; lia|].
    destruct (ws3 (nat_of_ascii a) (nat_of_ascii b) (nat_of_ascii c)).
    { specialize (IH r3). simpl in *. lia. }
    simpl. lia.
Qed.

(** White space in front of a text is dropped with it. *)
Lemma trimStart_app (u v : string) :
  allWs u = true -> trimStart (u ++ v) = trimStart v.
Proof.
  remember (String.length u) as n eqn:En.
  assert (Hn : (String.length u <= n)%nat) by lia. clear En.
  revert u Hn. induction n as [|n IH]; intros u Hn Hu.
  - destruct u; [reflexivity | simpl in Hn; lia].
  - destruct u as [|a r]; [reflexivity|].
    unfold allWs in Hu. simpl in Hn.
    cbn [trimStart append] in *.
    destruct (isAsciiWs a).
    { apply IH; [lia | exact Hu]. }
    destruct r as [|b r2]; [discriminate|].
    cbn [append].
    destruct (ws2 (nat_of_ascii a) (nat_of_ascii b)).
    { apply IH; [simpl in Hn; lia | exact Hu]. }
    destruct r2 as [|c r3]; [discriminate|].
    cbn [append].
    destruct (ws3 (nat_of_ascii a) (nat_of_ascii b) (nat_of_ascii c)).
    { apply IH; [simpl in Hn; lia | exact Hu]. }
    discriminate.
Qed.

(** What [trimEnd] cuts off is white space. *)
Lemma trimEnd_split (s : string) :
  exists q, s = trimEnd s ++ q /\ allWs q = true.
Proof.
  induction s as [|a r IH].
  - exists "". split; reflexivity.
  - cbn [trimEnd]. destruct (allWs (String a r)) eqn:E.
    + exists (String a r). split; [reflexivity | exact E].
    + destruct IH as (q & Hq & Hw). exists q. split; [|exact Hw].
      simpl. now rewrite <- Hq.
Qed.

Lemma trimEnd_idempotent (s : string) : trimEnd (trimEnd s) = trimEnd s.
Proof.
  induction s as [|a r IH]; [reflexivity|].
  cbn [trimEnd]. destruct (allWs (String a r)) eqn:E; [reflexivity|].
  cbn [trimEnd]. rewrite IH.
  destruct (allWs (String a (trimEnd r))) eqn:E'; [|reflexivity].
  destruct (trimEnd_split r) as (q & Hq & Hw).
  pose proof (trimStart_app (String a (trimEnd r)) q E') as Happ.
  simpl append in Happ. rewrite <- Hq in Happ.
  unfold allWs in E, Hw. rewrite Happ in E.
  rewrite Hw in E. discriminate.
Qed.

(** A text that starts with something else than white space keeps that
    start when it is cut at the end. *)
Lemma trimStart_prefix (p q : string) :
  trimStart (p ++ q) = p ++ q -> trimStart p = p.
Proof.
  destruct p as [|a p1]; [reflexivity|].
  cbn [append trimStart].
  destruct (isAsciiWs a).
  { intros E. pose proof (length_trimStart (p1 ++ q)) as Hl.
    rewrite E in Hl. simpl in Hl. lia. }
  destruct p1 as [|b p2]; [reflexivity|]. cbn [append].
  destruct (ws2 (nat_of_ascii a) (nat_of_ascii b)).
  { intros E. pose proof (length_trimStart (p2 ++ q)) as Hl.
    rewrite E in Hl. simpl in Hl. lia. }
  destruct p2 as [|c p3]; [reflexivity|]. cbn [append].
  destruct (ws3 (nat_of_ascii a) (nat_of_ascii b) (nat_of_ascii c)).
  { intros E. pose proof (length_trimStart (p3 ++ q)) as Hl.
    rewrite E in Hl. simpl in Hl. lia. }
  reflexivity.
Qed.

Lemma trimStart_idempotent (s : string) : trimStart (trimStart s) = trimStart s.
Proof.
  remember (String.length s) as n eqn:En.
  assert (Hn : (String.length s <= n)%nat) by lia. clear En.
  revert s Hn. induction n as [|n IH]; intros s Hn.
  - destruct s; [reflexivity | simpl in Hn; lia].
  - destruct s as [|a r]; [reflexivity|]. simpl in Hn.
    cbn [trimStart].
    destruct (isAsciiWs a) eqn:Ea.
    { apply IH. lia. }
    destruct r as [|b r2].
    { cbn [trimStart]. now rewrite Ea. }
    destruct (ws2 (nat_of_ascii a) (nat_of_ascii b)) eqn:Eb.
    { apply IH. simpl in Hn. lia. }
    destruct r2 as [|c r3].
    { cbn [trimStart]. now rewrite Ea, Eb. }
    destruct (ws3 (nat_of_ascii a) (nat_of_ascii b) (nat_of_ascii c)) eqn:Ec.
    { apply IH. simpl in Hn. lia. }
    cbn [trimStart]. now rewrite Ea, Eb, Ec.
Qed.

Lemma trim_idempotent (s : string) : trim (trim s) = trim s.
Proof.
  unfold trim.
  destruct (trimEnd_split (trimStart s)) as (q & Hq & _).
  assert (H : trimStart (trimEnd (trimStart s)) = trimEnd (trimStart s)).
  { apply trimStart_prefix with (q := q). rewrite <- Hq.
    apply trimStart_idempotent. }
  rewrite H. apply trimEnd_idempotent.
Qed.

Lemma requireString_cases (obj : JV) (key : string) :
  (hasNonEmptyString obj key = true
   /\ exists v, optGet obj key = JStr v /\ requireString obj key = Ok (trim v)
                /\ trim v <> "")
  \/ (hasNonEmptyString obj key = false
      /\ requireString obj key = Err (missingOrInvalid key)).
Proof.
  unfold hasNonEmptyString, requireString.
  destruct (optGet obj key) as [| |b|n|v|l|fs]; try (right; split; reflexivity).
  destruct (trim v =? "") eqn:E.
  - right. split; reflexivity.
  - left. split; [reflexivity|]. exists v. repeat split.
    now apply String.eqb_neq.
Qed.

Lemma hasNonEmptyString_defaultArgs (args : JV) (key : string) :
  hasNonEmptyString (defaultArgs args) key = hasNonEmptyString args key.
Proof. destruct args; reflexivity. Qed.

(** X3. [requireString] and [hasNonEmptyString] agree on what a usable
    argument is: the first returns exactly when the second holds.  What
    it returns is the argument without its surrounding white space, is
    not empty and has no surrounding white space left; every failure is
    the error [Missing or invalid "<key>"]. *)
Theorem requireString_trimmed (obj : JV) (key : string) :
  (hasNonEmptyString obj key = true <-> exists s, requireString obj key = Ok s)
  /\ (forall s,
        requireString obj key = Ok s ->
        s <> "" /\ trim s = s /\ exists v, optGet obj key = JStr v /\ s = trim v)
  /\ (forall e, requireString obj key = Err e -> e = missingOrInvalid key).
Proof.
  destruct (requireString_cases obj key)
    as [(Hh & v & Hv & Hr & Hne) | (Hh & Hr)]; rewrite Hh, Hr.
  - repeat split.
    + eauto.
    + injection H as <-. exact Hne.
    + injection H as <-. apply trim_idempotent.
    + injection H as <-. eauto.
    + discriminate.
  - repeat split.
    + discriminate.
    + intros [s Hs]. discriminate.
    + discriminate.
    + discriminate.
    + discriminate.
    + intros e He. now injection He as <-.
Qed.

End RequiredFacts.

(* --------------------------------------------------------------------- *)
(** *** The registry and the dispatcher                                   *)
(* --------------------------------------------------------------------- *)

Section RegistryFacts.
Context {B : Builtins} {X : External}.
Variable ENV : Env.

Lemma unregistered_is_unknown (name : string) (args : JV) (w : World) :
  ~ In name toolNames -> runTool ENV name args w = (Err (unknownTool name), w).
Proof.
  intros Hn. unfold runTool. cbv zeta.
  repeat match goal with
    | |- context [name =? ?s] =>
        destruct (name =? s) eqn:?E;
        [apply String.eqb_eq in E; exfalso; apply Hn; subst name;
         unfold toolNames; simpl; tauto|]; clear E
    end.
  reflexivity.
Qed.

(** X1. The dispatcher and the registry list the same tools: the seven
    registered names are distinct; a name that is not registered is
    rejected as an unknown tool, with the name in the message, before
    anything is read, asked or stored; so an invocation that returns was
    one of a registered tool. *)
Theorem dispatcher_agrees_with_registry (name : string) (args : JV)
  (w : World) :
  NoDup toolNames
  /\ (~ In name toolNames ->
      runTool ENV name args w = (Err (unknownTool name), w))
  /\ (forall c w', runTool ENV name args w = (Ok c, w') -> In name toolNames).
Proof.
  split; [|split].
  - unfold toolNames. simpl.
    repeat constructor; simpl; intuition discriminate.
  - apply unregistered_is_unknown.
  - intros c w' Hrun.
    destruct (in_dec string_dec name toolNames) as [Hin|Hout]; [exact Hin|].
    rewrite (unregistered_is_unknown args w Hout) in Hrun. discriminate.
Qed.

(** X2. The [required] lists of the registry are enforced by the
    dispatcher: when an argument that a tool's schema requires is not a
    string with something else than white space in it, the invocation
    fails with [Missing or invalid "<key>"] for such a required key, and
    nothing has happened: no request was made and the memory is as it
    was. *)
Theorem required_arguments_enforced (t : Tool) (key : string) (args : JV)
  (w : World) :
  In t tools ->
  In key (requiredKeys t) ->
  hasNonEmptyString args key = false ->
  exists key',
    In key' (requiredKeys t)
    /\ hasNonEmptyString args key' = false
    /\ runTool ENV (tool_name t) args w = (Err (missingOrInvalid key'), w).
Proof.
  intros Ht Hk Hmiss.
  assert (Hcase : forall k,
             (exists s, hasNonEmptyString args k = true
                        /\ requireString (defaultArgs args) k = Ok s)
             \/ (hasNonEmptyString args k = false
                 /\ requireString (defaultArgs args) k
                    = Err (missingOrInvalid k))).
  { intros k. rewrite <- hasNonEmptyString_defaultArgs.
    destruct (requireString_cases (defaultArgs args) k)
      as [(Hh & v & _ & Hr & _) | (Hh & Hr)]; eauto. }
  unfold tools in Ht. simpl in Ht.
  destruct Ht as [<-|[<-|[<-|[<-|[<-|[<-|[<-|[]]]]]]]];
    cbn [requiredKeys tool_required tool_name] in *;
    try contradiction.
  - destruct Hk as [<-|[]].
    exists "text". split; [simpl; auto | split; [exact Hmiss|]].
    change (runTool ENV "ai.summarize" args)
      with (toolSummarize ENV (defaultArgs args)).
    unfold toolSummarize.
    destruct (Hcase "text") as [(s & Hh & _) | (_ & Hr)]; [congruence|].
    unfold bind, lift. now rewrite Hr.
  - change (runTool ENV "projects.create" args)
      with (toolCreate ENV (defaultArgs args)).
    unfold toolCreate, bind, lift.
    destruct (Hcase "projectName") as [(s1 & H1 & ->) | (H1 & ->)];
      [|exists "projectName"; simpl; auto].
    destruct (Hcase "address") as [(s2 & H2 & ->) | (H2 & ->)];
      [|exists "address"; simpl; auto].
    destruct (Hcase "zoningCode") as [(s3 & H3 & ->) | (H3 & ->)];
      [|exists "zoningCode"; simpl; auto].
    destruct (Hcase "zoneType") as [(s4 & H4 & ->) | (H4 & ->)];
      [|exists "zoneType"; simpl; auto 6].
    exfalso. destruct Hk as [<-|[<-|[<-|[<-|[]]]]]; congruence.
  - destruct Hk as [<-|[]].
    exists "id". split; [simpl; auto | split; [exact Hmiss|]].
    change (runTool ENV "projects.update" args)
      with (toolUpdate ENV (defaultArgs args)).
    unfold toolUpdate.
    destruct (Hcase "id") as [(s & Hh & _) | (_ & Hr)]; [congruence|].
    unfold bind, lift. now rewrite Hr.
Qed.

End RegistryFacts.

(* --------------------------------------------------------------------- *)
(** *** What create, update, search and summarize send                    *)
(* --------------------------------------------------------------------- *)

Section RequestFacts.
Context {B : Builtins} {X : External}.
Variable ENV : Env.

Lemma requireString_there (args : JV) (k s : string) :
  requireString args k = Ok s -> nullish args = false /\ defaultArgs args = args.
Proof.
  unfold requireString, optGet.
  destruct args; simpl; try discriminate; auto.
Qed.

Lemma getField_defaultArgs (args : JV) (k : string) :
  getField (defaultArgs args) k = getField args k.
Proof. destruct args; reflexivity. Qed.

Lemma nullish_defaultArgs (args : JV) :
  args <> JNull -> nullish (defaultArgs args) = false.
Proof. destruct args; try reflexivity. intros H. now elim H. Qed.

Lemma getProp_there (v : JV) (k : string) :
  nullish v = false -> getProp v k = Ok (getField v k).
Proof. intros H. unfold getProp. now rewrite H. Qed.

Lemma optionalField_provided (args : JV) (k : string) :
  nullish args = false ->
  convertible (getField args k) = true ->
  optionalField args k = Ok (providedFields args [k]).
Proof.
  intros Hn Hc. unfold optionalField, providedFields.
  rewrite (getProp_there _ _ Hn). cbn [rbind flat_map]. rewrite app_nil_r.
  destruct (truthy (getField args k)); [|reflexivity].
  now rewrite (ToString_convertible _ Hc).
Qed.

Lemma providedFields_in (args : JV) (keys : list string) (k : string) (v : JV) :
  In (k, v) (providedFields args keys) ->
  In k keys /\ truthy (getField args k) = true
  /\ v = JStr (display (getField args k)).
Proof.
  unfold providedFields. rewrite in_flat_map. intros (k' & Hk & Hin).
  destruct (truthy (getField args k')) eqn:E; [|contradiction].
  destruct Hin as [Heq|[]]. injection Heq as <- <-. auto.
Qed.

Lemma filterParams_provided (args : JV) (keys : list string) :
  nullish args = false ->
  forallb (fun k => convertible (getField args k)) keys = true ->
  filterParams args keys = Ok (providedParams args keys).
Proof.
  intros Hn. induction keys as [|k keys IH]; intros Hc; [reflexivity|].
  cbn [forallb] in Hc. apply andb_true_iff in Hc as [Hk Hks].
  cbn [filterParams]. rewrite (getProp_there _ _ Hn). cbn [rbind].
  rewrite (IH Hks). unfold providedParams. cbn [flat_map].
  destruct (truthy (getField args k)); [|reflexivity].
  now rewrite (ToString_convertible _ Hk).
Qed.

Lemma numberParam_finite (args : JV) (k : string) :
  nullish args = false -> numberParam args k = Ok (finiteParam args k).
Proof.
  intros Hn. unfold numberParam, finiteParam.
  rewrite (getProp_there _ _ Hn). cbn [rbind].
  destruct (getField args k) as [| |b|[q| | |]|s|l|fs]; reflexivity.
Qed.

(** X4. [projects.update] takes the identifier from [id], without its
    surrounding white space, and sends one PUT for that entity whose body
    holds, of the five editable fields and in their order, exactly those
    the arguments give a truthy value, each as a string; the identifier
    is not part of the body.  The backend's answer is the result and the
    new [lastProject]; its failure is the failure of the invocation. *)
Theorem update_sends_provided_fields (args : JV) (w : World) (id : string)
  (r : Result JV) (x : Ext) :
  requireString args "id" = Ok id ->
  forallb (fun k => convertible (getField args k)) updateKeys = true ->
  let rq := request ENV PUT (ProjectById id) (jsonHeaders ENV)
                    (Some (JObj (providedFields args updateKeys))) in
  http_step (ext w) rq = (r, x) ->
  runTool ENV "projects.update" args w
  = match r with
    | Ok updated =>
        (Ok [BJson updated],
         withLastProject (or_else updated JNull) (record x (EvHttp rq r) w))
    | Err e => (Err e, record x (EvHttp rq r) w)
    end
  /\ (forall k v,
        In (k, v) (providedFields args updateKeys) ->
        In k updateKeys /\ truthy (getField args k) = true
        /\ v = JStr (display (getField args k))).
Proof.
  intros Hid Hc rq Hstep. split; [|intros k v; apply providedFields_in].
  destruct (requireString_there _ _ Hid) as [Hn Hd].
  change (runTool ENV "projects.update" args)
    with (toolUpdate ENV (defaultArgs args)).
  rewrite Hd. unfold toolUpdate.
  cbn [forallb updateKeys] in Hc. rewrite !andb_true_iff in Hc.
  destruct Hc as (H1 & H2 & H3 & H4 & H5 & _).
  erewrite bind_lift_ok by exact Hid.
  erewrite bind_lift_ok by (now apply optionalField_provided).
  erewrite bind_lift_ok by (now apply optionalField_provided).
  erewrite bind_lift_ok by (now apply optionalField_provided).
  erewrite bind_lift_ok by (now apply optionalField_provided).
  erewrite bind_lift_ok by (now apply optionalField_provided).
  cbv zeta.
  replace (providedFields args ["projectName"] ++ providedFields args ["address"]
             ++ providedFields args ["zoningCode"]
             ++ providedFields args ["zoneType"]
             ++ providedFields args ["notes"])%list
    with (providedFields args updateKeys)
    by (unfold providedFields, updateKeys; cbn [flat_map];
        now rewrite !app_nil_r).
  fold rq. unfold bind, http. rewrite Hstep.
  destruct r; reflexivity.
Qed.

(** X5. [projects.create] sends one POST to the collection whose body
    holds the four required fields without their surrounding white
    space, in the order [projectName], [address], [zoningCode],
    [zoneType], followed by [notes] as a string when the argument is
    truthy and by nothing else.  The backend's answer is the result and
    the new [lastProject]; its failure is the failure of the
    invocation. *)
Theorem create_sends_trimmed_fields (args : JV) (w : World)
  (projectName address zoningCode zoneType : string)
  (r : Result JV) (x : Ext) :
  requireString args "projectName" = Ok projectName ->
  requireString args "address" = Ok address ->
  requireString args "zoningCode" = Ok zoningCode ->
  requireString args "zoneType" = Ok zoneType ->
  convertible (getField args "notes") = true ->
  let body := JObj ([ ("projectName", JStr projectName);
                      ("address", JStr address);
                      ("zoningCode", JStr zoningCode);
                      ("zoneType", JStr zoneType) ]
                      ++ providedFields args ["notes"])%list in
  let rq := request ENV POST (Projects []) (jsonHeaders ENV) (Some body) in
  http_step (ext w) rq = (r, x) ->
  runTool ENV "projects.create" args w
  = match r with
    | Ok created =>
        (Ok [BJson created],
         withLastProject (or_else created JNull) (record x (EvHttp rq r) w))
    | Err e => (Err e, record x (EvHttp rq r) w)
    end.
Proof.
  intros H1 H2 H3 H4 Hc body rq Hstep.
  destruct (requireString_there _ _ H1) as [Hn Hd].
  change (runTool ENV "projects.create" args)
    with (toolCreate ENV (defaultArgs args)).
  rewrite Hd. unfold toolCreate.
  erewrite bind_lift_ok by exact H1.
  erewrite bind_lift_ok by exact H2.
  erewrite bind_lift_ok by exact H3.
  erewrite bind_lift_ok by exact H4.
  erewrite bind_lift_ok by (now apply optionalField_provided).
  cbv zeta. fold body. fold rq. unfold bind, http. rewrite Hstep.
  destruct r; reflexivity.
Qed.

(** X6. [projects.search] makes one request, a GET on the collection,
    and nothing else is exchanged.  Its query holds, in this order, the
    filters [q], [zoning_code], [zone_type], [address], [city] and
    [state] that the arguments give a truthy value, then [page] and
    [limit] when they are finite numbers; a filter given as a number or
    [page] given as a string of digits is sent, respectively left out,
    accordingly.  Without any of the eight arguments the query is
    empty. *)
Theorem search_query_from_arguments (args : JV) (w : World) (r : Result JV)
  (x : Ext) :
  args <> JNull ->
  forallb (fun k => convertible (getField args k)) searchKeys = true ->
  let query := (providedParams args searchKeys ++ finiteParam args "page"
                  ++ finiteParam args "limit")%list in
  http_step (ext w) (listRequest ENV query) = (r, x) ->
  trace (snd (runTool ENV "projects.search" args w))
  = (trace w ++ [EvHttp (listRequest ENV query) r])%list
  /\ ((forall k, In k (searchKeys ++ ["page"; "limit"])%list ->
                 getField args k = JUndef) ->
      query = []).
Proof.
  intros Hargs Hc query Hstep. split.
  - change (runTool ENV "projects.search" args)
      with (toolSearch ENV (defaultArgs args)).
    pose proof (nullish_defaultArgs Hargs) as Hn.
    unfold toolSearch.
    assert (Hc' : forallb (fun k => convertible (getField (defaultArgs args) k))
                          searchKeys = true).
    { cbn [forallb searchKeys] in *. now rewrite !getField_defaultArgs. }
    erewrite bind_lift_ok by (now apply filterParams_provided).
    erewrite bind_lift_ok by (now apply numberParam_finite).
    erewrite bind_lift_ok by (now apply numberParam_finite).
    replace (providedParams (defaultArgs args) searchKeys
               ++ finiteParam (defaultArgs args) "page"
               ++ finiteParam (defaultArgs args) "limit")%list
      with query
      by (unfold query, providedParams, finiteParam;
          cbn [flat_map searchKeys]; now rewrite !getField_defaultArgs).
    unfold bind at 1. unfold http. rewrite Hstep.
    destruct r as [result|e]; [|reflexivity].
    unfold bind, lift.
    destruct (normalizeListPayload result); reflexivity.
  - intros Hnone. unfold query, providedParams, finiteParam.
    cbn [flat_map searchKeys].
    rewrite !Hnone by (simpl; tauto). reflexivity.
Qed.

(** X7. [ai.summarize] on an argument [text] that is a string with
    something else than white space in it: without a credential it fails
    with the not configured error and nothing is exchanged; with one it
    makes exactly one completion request, with the summary instruction,
    the text without its surrounding white space and at most 180 reply
    tokens, returns the reply as its one text block and fails as that
    request fails.  No backend request is made and the memory is left as
    it was. *)
Theorem summarize_one_completion (args : JV) (w : World) (input : string) :
  requireString args "text" = Ok input ->
  (OPENAI_API_KEY ENV = "" ->
   runTool ENV "ai.summarize" args w = (Err notConfigured, w))
  /\ (OPENAI_API_KEY ENV <> "" ->
      forall r x,
        let rq := chatRequest ENV (summarizePrompt input) 180
                              defaultTemperature in
        chat_step (ext w) rq = (r, x) ->
        runTool ENV "ai.summarize" args w
        = (match r with
           | Ok summary => Ok [BText summary]
           | Err e => Err e
           end, record x (EvChat rq r) w))
  /\ memory (snd (runTool ENV "ai.summarize" args w)) = memory w.
Proof.
  intros Hin.
  destruct (requireString_there _ _ Hin) as [Hn Hd].
  change (runTool ENV "ai.summarize" args)
    with (toolSummarize ENV (defaultArgs args)).
  rewrite Hd. split; [|split].
  - intros Hkey. unfold toolSummarize.
    erewrite bind_lift_ok by exact Hin. now rewrite Hkey.
  - intros Hkey r x rq Hstep. apply String.eqb_neq in Hkey.
    unfold toolSummarize.
    erewrite bind_lift_ok by exact Hin. rewrite Hkey.
    unfold bind, callOpenAI. rewrite Hkey. fold rq. rewrite Hstep.
    destruct r; reflexivity.
  - apply preserves_toolSummarize.
Qed.

End RequestFacts.

(* --------------------------------------------------------------------- *)
(** *** The exchanges of an invocation                                    *)
(* --------------------------------------------------------------------- *)

Section ConductFacts.
Context {B : Builtins} {X : External}.
Variable ENV : Env.
Variable P : Event -> Prop.

Lemma backendRequests_app (l l' : list Event) :
  backendRequests (l ++ l') = (backendRequests l + backendRequests l')%nat.
Proof. unfold backendRequests. now rewrite filter_app, length_app. Qed.

Lemma completions_app (l l' : list Event) :
  completions (l ++ l') = (completions l + completions l')%nat.
Proof. unfold completions. now rewrite filter_app, length_app. Qed.

Lemma conducts_weaken {A} (h c h' c' : nat) (m : M A) :
  conducts P h c m -> (h <= h')%nat -> (c <= c')%nat -> conducts P h' c' m.
Proof.
  intros Hm Hh Hc w. destruct (Hm w) as (evs & E & HP & H1 & H2).
  exists evs. repeat split; auto; lia.
Qed.

Lemma conducts_still {A} (m : M A) :
  (forall w, trace (snd (m w)) = trace w) -> conducts P 0 0 m.
Proof.
  intros Hm w. exists []. rewrite app_nil_r.
  repeat split; auto.
Qed.

Lemma conducts_ret {A} (a : A) : conducts P 0 0 (ret a).
Proof. now apply conducts_still. Qed.

Lemma conducts_throw {A} (e : JsErr) : conducts P 0 0 (@throw _ A e).
Proof. now apply conducts_still. Qed.

Lemma conducts_lift {A} (r : Result A) : conducts P 0 0 (lift r).
Proof. now apply conducts_still. Qed.

Lemma conducts_getMemory : conducts P 0 0 getMemory.
Proof. now apply conducts_still. Qed.

Lemma conducts_setLastProject (v : JV) : conducts P 0 0 (setLastProject v).
Proof. now apply conducts_still. Qed.

Lemma conducts_setLastSearchItems (l : list JV) :
  conducts P 0 0 (setLastSearchItems l).
Proof. now apply conducts_still. Qed.

Lemma conducts_random : (forall r, P (EvRandom r)) -> conducts P 0 0 Math_random.
Proof.
  intros HP w. unfold Math_random. destruct (random_step (ext w)) as [r x].
  exists [EvRandom r]. repeat split; auto.
Qed.

Lemma conducts_http (rq : Request) :
  (forall r, P (EvHttp rq r)) -> conducts P 1 0 (http rq).
Proof.
  intros HP w. unfold http. destruct (http_step (ext w) rq) as [r x].
  exists [EvHttp rq r]. repeat split; auto.
Qed.

Lemma conducts_callOpenAI (rq : ChatRequest) :
  (OPENAI_API_KEY ENV <> "" -> forall r, P (EvChat rq r)) ->
  conducts P 0 1 (callOpenAI ENV rq).
Proof.
  intros HP. unfold callOpenAI.
  destruct (OPENAI_API_KEY ENV =? "") eqn:E.
  - apply conducts_weaken with (h := 0%nat) (c := 0%nat);
      [apply conducts_throw | lia | lia].
  - apply String.eqb_neq in E. intros w.
    destruct (chat_step (ext w) rq) as [r x].
    exists [EvChat rq r]. repeat split; auto.
Qed.

Lemma conducts_bind {A C} (h1 c1 h2 c2 : nat) (m : M A) (k : A -> M C) :
  conducts P h1 c1 m -> (forall a, conducts P h2 c2 (k a)) ->
  conducts P (h1 + h2) (c1 + c2) (bind m k).
Proof.
  intros Hm Hk w. unfold bind.
  destruct (Hm w) as (evs & E & HP & H1 & H2).
  destruct (m w) as [[a|e] w1]; simpl in E.
  - destruct (Hk a w1) as (evs' & E' & HP' & H1' & H2').
    exists (evs ++ evs')%list. rewrite E', E, <- app_assoc.
    rewrite backendRequests_app, completions_app.
    repeat split; [now apply Forall_app | lia | lia].
  - exists evs. simpl. repeat split; auto; lia.
Qed.

Lemma conducts_bind_still {A C} (h c : nat) (m : M A) (k : A -> M C) :
  conducts P 0 0 m -> (forall a, conducts P h c (k a)) ->
  conducts P h c (bind m k).
Proof. intros Hm Hk. exact (@conducts_bind A C 0 0 h c m k Hm Hk). Qed.

Lemma conducts_bind_request {A C} (h c : nat) (m : M A) (k : A -> M C) :
  conducts P 1 0 m -> (forall a, conducts P h c (k a)) ->
  conducts P (S h) c (bind m k).
Proof. intros Hm Hk. exact (@conducts_bind A C 1 0 h c m k Hm Hk). Qed.

Lemma conducts_bind_completion {A C} (h c : nat) (m : M A) (k : A -> M C) :
  conducts P 0 1 m -> (forall a, conducts P h c (k a)) ->
  conducts P h (S c) (bind m k).
Proof. intros Hm Hk. exact (@conducts_bind A C 0 1 h c m k Hm Hk). Qed.

Lemma conducts_try_catch {A} (h c : nat) (m : M A) (handler : JsErr -> M A) :
  conducts P h c m -> (forall e, conducts P 0 0 (handler e)) ->
  conducts P h c (try_catch m handler).
Proof.
  intros Hm Hh w. unfold try_catch.
  destruct (Hm w) as (evs & E & HP & H1 & H2).
  destruct (m w) as [[a|e] w1]; simpl in E.
  - exists evs. simpl. repeat split; auto.
  - destruct (Hh e w1) as (evs' & E' & HP' & H1' & H2').
    exists (evs ++ evs')%list. rewrite E', E, <- app_assoc.
    rewrite backendRequests_app, completions_app.
    repeat split; [now apply Forall_app | lia | lia].
Qed.

End ConductFacts.

#[export] Hint Resolve conducts_ret conducts_throw conducts_lift
  conducts_getMemory conducts_setLastProject conducts_setLastSearchItems
  : tools.

(** The form of a request that is written out. *)
Ltac conformity :=
  intros; unfold conforms, listRequest, request, chatRequest,
    summarizePrompt, summaryPrompt;
  cbn [rq_base rq_method rq_headers rq_body rq_target ch_model ch_messages
       ch_max_tokens ch_temperature];
  repeat split; eauto; lia.

(** Walks down a computation, spending the budget request by request. *)
Ltac conduct :=
  cbv zeta;
  match goal with
  | |- conducts _ _ _ (bind (http _) _) =>
      apply conducts_bind_request;
      [apply conducts_http; solve [conformity] | intros; conduct]
  | |- conducts _ _ _ (bind (callOpenAI _ _) _) =>
      apply conducts_bind_completion;
      [apply conducts_callOpenAI; solve [conformity] | intros; conduct]
  | |- conducts _ _ _ (bind Math_random _) =>
      apply conducts_bind_still;
      [apply conducts_random; intros; exact I | intros; conduct]
  | |- conducts _ _ _ (bind _ _) =>
      first [ apply conducts_bind_still; [solve [conduct] | intros; conduct]
            | apply conducts_bind_request; [solve [conduct] | intros; conduct]
            | apply conducts_bind_completion;
              [solve [conduct] | intros; conduct] ]
  | |- conducts _ _ _ (try_catch _ _) =>
      apply conducts_try_catch; [conduct | intros; conduct]
  | |- conducts _ _ _ (if ?b then _ else _) => destruct b; conduct
  | |- conducts _ _ _ (match ?x with _ => _ end) => destruct x; conduct
  | |- conducts _ _ _ _ =>
      first [ solve [auto with tools]
            | solve [ apply conducts_weaken with (h := 0%nat) (c := 0%nat);
                      [auto with tools | lia | lia] ]
            | solve [ apply conducts_weaken with (h := 1%nat) (c := 0%nat);
                      [auto with tools | lia | lia] ]
            | solve [ apply conducts_weaken with (h := 0%nat) (c := 1%nat);
                      [auto with tools | lia | lia] ]
            | idtac ]
  end.

Section BudgetFacts.
Context {B : Builtins} {X : External}.
Variable ENV : Env.

Lemma conducts_searchFirstByName (name : JV) :
  conducts (conforms ENV) 1 0 (searchFirstByName ENV name).
Proof. unfold searchFirstByName. conduct. Qed.

Lemma conducts_fetchSomeProjects (limit : Num) :
  conducts (conforms ENV) 1 0 (fetchSomeProjects ENV limit).
Proof. unfold fetchSomeProjects. conduct. Qed.

Hint Resolve conducts_searchFirstByName conducts_fetchSomeProjects : tools.

Lemma conducts_memoryTiers (id1 : option string) :
  conducts (conforms ENV) 0 0 (memoryTiers id1).
Proof. unfold memoryTiers. conduct. Qed.

Lemma conducts_memoryTiersDelete (r1 : option string * JV) :
  conducts (conforms ENV) 0 0 (memoryTiersDelete r1).
Proof. unfold memoryTiersDelete. conduct. Qed.

Hint Resolve conducts_memoryTiers conducts_memoryTiersDelete : tools.

Lemma conducts_resolveGetId (args : JV) :
  conducts (conforms ENV) 1 0 (resolveGetId ENV args).
Proof. unfold resolveGetId, nameTier. conduct. Qed.

Lemma conducts_resolveDeleteId (args : JV) :
  conducts (conforms ENV) 1 0 (resolveDeleteId ENV args).
Proof. unfold resolveDeleteId, nameTierDelete. conduct. Qed.

Lemma conducts_summarizeNotes (project : JV) :
  conducts (conforms ENV) 0 1 (summarizeNotes ENV project).
Proof. unfold summarizeNotes. conduct. Qed.

Hint Resolve conducts_resolveGetId conducts_resolveDeleteId
  conducts_summarizeNotes : tools.

Lemma conducts_deleteRandomlyFrom (its : list JV) :
  conducts (conforms ENV) 1 0 (deleteRandomlyFrom ENV its).
Proof. unfold deleteRandomlyFrom. conduct. Qed.

Lemma conducts_runTool (name : string) (args : JV) :
  conducts (conforms ENV) (fst (budget name)) (snd (budget name))
           (runTool ENV name args).
Proof.
  unfold runTool. cbv zeta.
  destruct (name =? "ai.summarize") eqn:E1.
  { apply String.eqb_eq in E1. subst name. cbn [budget String.eqb Ascii.eqb
      Bool.eqb orb fst snd]. unfold toolSummarize. conduct. }
  destruct (name =? "projects.create") eqn:E2.
  { apply String.eqb_eq in E2. subst name. unfold toolCreate.
    change (budget "projects.create") with (1, 0)%nat. cbn [fst snd].
    conduct. }
  destruct (name =? "projects.get") eqn:E3.
  { apply String.eqb_eq in E3. subst name. unfold toolGet.
    change (budget "projects.get") with (2, 1)%nat. cbn [fst snd].
    conduct. }
  destruct (name =? "projects.update") eqn:E4.
  { apply String.eqb_eq in E4. subst name. unfold toolUpdate.
    change (budget "projects.update") with (1, 0)%nat. cbn [fst snd].
    conduct. }
  destruct (name =? "projects.delete") eqn:E5.
  { apply String.eqb_eq in E5. subst name. unfold toolDelete.
    change (budget "projects.delete") with (2, 0)%nat. cbn [fst snd].
    conduct. }
  destruct (name =? "projects.deleteRandom") eqn:E6.
  { apply String.eqb_eq in E6. subst name. unfold toolDeleteRandom.
    change (budget "projects.deleteRandom") with (2, 0)%nat. cbn [fst snd].
    conduct. apply conducts_deleteRandomlyFrom. }
  destruct (name =? "projects.search") eqn:E7.
  { apply String.eqb_eq in E7. subst name. unfold toolSearch.
    change (budget "projects.search") with (1, 0)%nat. cbn [fst snd].
    conduct. }
  unfold budget. rewrite E1, E2, E3, E4, E5, E6, E7. cbn [orb fst snd].
  apply conducts_throw.
Qed.

Lemma budget_bounds (name : string) :
  (fst (budget name) <= 2)%nat /\ (snd (budget name) <= 1)%nat.
Proof.
  unfold budget.
  repeat match goal with
    | |- context [if ?b then _ else _] => destruct b
    end; simpl; lia.
Qed.

Lemma withApiKey_header (h : list (string * string)) :
  ~ (exists v, In ("x-api-key", v) h) ->
  (API_KEY ENV = "" -> forall v, ~ In ("x-api-key", v) (withApiKey ENV h))
  /\ (API_KEY ENV <> "" -> In ("x-api-key", API_KEY ENV) (withApiKey ENV h)).
Proof.
  intros Hh. unfold withApiKey. split.
  - intros E v. rewrite E. simpl. intros H. apply Hh. eauto.
  - intros E. apply String.eqb_neq in E. rewrite E.
    apply in_or_app. right. now left.
Qed.

(** X8. Every exchange of a tool invocation, whether it returns or
    throws, has the form its tool gives it: backend requests go to
    [API_BASE_URL]; GET and DELETE carry no body; POST goes to the
    collection and PUT to one entity, each with an object as body and
    the JSON content type; the [x-api-key] header is on every backend
    request when a key is configured and on none otherwise; a completion
    request is only made with a credential, for the configured model,
    with a system and a user message and at most 180 reply tokens. *)
Theorem exchanges_conform (name : string) (args : JV) (w : World) :
  exists evs,
    trace (snd (runTool ENV name args w)) = (trace w ++ evs)%list
    /\ Forall (conforms ENV) evs
    /\ (forall rq r,
          In (EvHttp rq r) evs ->
          (API_KEY ENV = "" -> forall v, ~ In ("x-api-key", v) (rq_headers rq))
          /\ (API_KEY ENV <> "" ->
              In ("x-api-key", API_KEY ENV) (rq_headers rq))
          /\ (In ("Content-Type", "application/json") (rq_headers rq)
              <-> rq_body rq <> None)).
Proof.
  destruct (conducts_runTool name args w) as (evs & E & HP & _ & _).
  exists evs. split; [exact E | split; [exact HP|]].
  intros rq r Hin. rewrite Forall_forall in HP. specialize (HP _ Hin).
  destruct HP as [_ HP].
  assert (Hplain : ~ (exists v, In ("x-api-key", v) (@nil (string * string)))).
  { intros [v []]. }
  assert (Hjson : ~ (exists v, In ("x-api-key", v)
                                  [("Content-Type", "application/json")])).
  { intros [v [H|[]]]. discriminate. }
  destruct (@withApiKey_header [] Hplain) as [Hno Hyes].
  assert (HnoCT : ~ In ("Content-Type", "application/json")
                       (withApiKey ENV [])).
  { unfold withApiKey. destruct (API_KEY ENV =? ""); simpl.
    - tauto.
    - intros [H|[]]. discriminate. }
  destruct (rq_method rq).
  - destruct HP as [-> ->].
    repeat split; auto; intros H; try contradiction; now elim H.
  - destruct HP as (-> & _ & fs & ->). unfold jsonHeaders. repeat split.
    + intros E0 v [H|H]; [discriminate | exact (Hno E0 v H)].
    + intros E0. right. exact (Hyes E0).
    + discriminate.
    + intros _. now left.
  - destruct HP as (-> & _ & fs & ->). unfold jsonHeaders. repeat split.
    + intros E0 v [H|H]; [discriminate | exact (Hno E0 v H)].
    + intros E0. right. exact (Hyes E0).
    + discriminate.
    + intros _. now left.
  - destruct HP as (-> & -> & _).
    repeat split; auto; intros H; try contradiction; now elim H.
Qed.

(** X9. One invocation makes at most two backend requests and at most
    one completion request, whether it returns or throws:
    [projects.create], [projects.update] and [projects.search] make at
    most one backend request; [projects.get], [projects.delete] and
    [projects.deleteRandom] at most two (the search or the batch, then
    the entity); only [projects.get] and [ai.summarize] may call the
    completion API, once, and never without a credential; an unknown
    tool exchanges nothing. *)
Theorem exchanges_within_budget (name : string) (args : JV) (w : World) :
  exists evs,
    trace (snd (runTool ENV name args w)) = (trace w ++ evs)%list
    /\ (backendRequests evs <= fst (budget name))%nat
    /\ (completions evs <= snd (budget name))%nat
    /\ (backendRequests evs <= 2)%nat
    /\ (completions evs <= 1)%nat
    /\ (OPENAI_API_KEY ENV = "" -> completions evs = 0%nat).
Proof.
  destruct (conducts_runTool name args w) as (evs & E & HP & H1 & H2).
  destruct (budget_bounds name) as [B1 B2].
  exists evs. repeat split; auto; try lia.
  intros Hkey. clear - HP Hkey. unfold completions.
  induction HP as [|ev evs Hev _ IH]; [reflexivity|].
  destruct ev as [rq r|rq r|r]; cbn [filter isCompletion]; auto.
  destruct Hev as [Hne _]. contradiction.
Qed.

End BudgetFacts.

(* --------------------------------------------------------------------- *)
(** *** The two front ends                                                *)
(* --------------------------------------------------------------------- *)

Section FrontEndFacts.
Context {B : Builtins} {H : Host} {X : External}.
Variable ENV : Env.

Lemma destructured_field (v : JV) (k : string) :
  nullish v = false -> destructured v k = Ok (getField v k).
Proof. intros Hn. unfold destructured. now rewrite Hn. Qed.

(** X10. The [CallTool] handler never throws: whatever the request
    holds, it resolves to a result.  On a request that names a tool by a
    string it runs that tool on the given arguments, an absent or falsy
    [arguments] standing for no argument; the result carries the tool's
    content when the tool returns, and is marked as an error with the
    text of the thrown value as its one text block when the tool throws.
    In both cases the world is left as the tool left it. *)
Theorem callTool_never_throws (params : JV) (w : World) :
  (exists res w', callToolHandler ENV params w = (Ok res, w'))
  /\ (forall name,
        nullish params = false ->
        getField params "name" = JStr name ->
        let args := or_else (getField params "arguments") (JObj []) in
        callToolHandler ENV params w
        = match runTool ENV name args w with
          | (Ok c, w') => (Ok {| isError := false; resultContent := c |}, w')
          | (Err e, w') =>
              (Ok {| isError := true;
                     resultContent := text (thrownText e) |}, w')
          end).
Proof.
  split.
  - unfold callToolHandler, try_catch.
    match goal with |- context [match ?m w with _ => _ end] =>
      destruct (m w) as [[res|e] w1] end; unfold ret; eauto.
  - intros name Hn Hname args.
    unfold callToolHandler, try_catch, bind, lift.
    rewrite !(getProp_there _ _ Hn), Hname. cbn [runToolOn]. fold args.
    destruct (runTool ENV name args w) as [[c|e] w1]; reflexivity.
Qed.

Lemma runAndRender_run (tool : string) (args : JV)
  (fields : list (string * JV)) (w : World) :
  runAndRender ENV tool args fields w
  = match runTool ENV tool (or_else args (JObj [])) w with
    | (Ok c, w') =>
        (match renderHumanFor tool c with
         | Ok human =>
             Ok (send 200 (JObj (fields
                                   ++ [ ("content", JArr (map blockValue c));
                                        ("human", human) ])%list))
         | Err e => Err e
         end, w')
    | (Err e, w') => (Err e, w')
    end.
Proof.
  unfold runAndRender, bind, lift, ret.
  destruct (runTool ENV tool (or_else args (JObj [])) w) as [[c|e] w1];
    [|reflexivity].
  destruct (renderHumanFor tool c); reflexivity.
Qed.

Lemma runAndRender_ok (tool : string) (args : JV)
  (fields : list (string * JV)) (w : World) (resp : BridgeResponse)
  (w' : World) :
  runAndRender ENV tool args fields w = (Ok resp, w') ->
  exists payload, resp = send 200 payload.
Proof.
  rewrite runAndRender_run.
  destruct (runTool ENV tool (or_else args (JObj [])) w) as [[c|e] w1];
    [|discriminate].
  destruct (renderHumanFor tool c); [|discriminate].
  intros E. injection E as <- _. eauto.
Qed.

(** What a route answers when it does not throw: the result of a tool,
    or a refusal that left the world alone. *)
Lemma toolRoute_ok (data : string) (w : World) (resp : BridgeResponse)
  (w' : World) :
  toolRoute ENV data w = (Ok resp, w') ->
  (exists payload, resp = send 200 payload)
  \/ ((exists payload, resp = send 400 payload) /\ w' = w).
Proof.
  unfold toolRoute. intros E.
  inv_lift E body w1 E1. inv_lift E name w2 E2. inv_lift E args w3 E3.
  destruct (negb (truthy name)).
  - injection E as <- <-. right. eauto.
  - inv_lift E tool w4 E4. left. exact (runAndRender_ok _ _ _ _ E).
Qed.

Lemma chatRoute_ok (data : string) (w : World) (resp : BridgeResponse)
  (w' : World) :
  chatRoute ENV data w = (Ok resp, w') ->
  (exists payload, resp = send 200 payload)
  \/ ((exists payload, resp = send 400 payload) /\ w' = w).
Proof.
  unfold chatRoute. destruct (OPENAI_API_KEY ENV =? "").
  { intros E. injection E as <- <-. right. eauto. }
  intros E. inv_lift E body w1 E1. inv_lift E userText w2 E2.
  destruct userText as [| |b|n|[|c r]|l|fs];
    try (injection E as <- <-; right; eauto; fail).
  inv_bind E reply w3 E3. inv_lift E plan w4 E4.
  destruct (negb (truthy (optGet plan "tool"))); [discriminate|].
  inv_lift E tool w5 E5. inv_lift E args w6 E6.
  left. exact (runAndRender_ok _ _ _ _ E).
Qed.

(** X11. The bridge answers every request and never throws.  The status
    is 200, 204, 400, 404 or 500; every response carries the three CORS
    headers; 204 is the answer to OPTIONS and to nothing else, and it
    alone has no body, the others being JSON; 404 is the answer to
    whatever is neither OPTIONS, nor POST /tool, nor POST /chat.  A
    response 204, 400 or 404 means that nothing happened: no exchange
    was made and the memory is as it was. *)
Theorem bridge_always_answers (req : BridgeRequest) (w : World) :
  exists resp w',
    bridge ENV req w = (Ok resp, w')
    /\ In (rs_status resp) [200; 204; 400; 404; 500]%nat
    /\ incl corsHeaders (rs_headers resp)
    /\ (rs_status resp = 204%nat <-> br_method req = "OPTIONS")
    /\ (rs_payload resp = None <-> rs_status resp = 204%nat)
    /\ (rs_status resp <> 204%nat ->
        In ("Content-Type", "application/json") (rs_headers resp))
    /\ (rs_status resp = 404%nat <->
        br_method req <> "OPTIONS"
        /\ ((br_method req =? "POST") && (br_url req =? "/tool") = false)
        /\ ((br_method req =? "POST") && (br_url req =? "/chat") = false))
    /\ (In (rs_status resp) [204; 400; 404]%nat -> w' = w).
Proof.
  assert (Hsend : forall status payload w',
             In status [200; 400; 404; 500]%nat ->
             (status = 404%nat <->
              br_method req <> "OPTIONS"
              /\ ((br_method req =? "POST") && (br_url req =? "/tool") = false)
              /\ ((br_method req =? "POST") && (br_url req =? "/chat") = false)) ->
             (In status [204; 400; 404]%nat -> w' = w) ->
             br_method req <> "OPTIONS" ->
             let resp := send status payload in
             In (rs_status resp) [200; 204; 400; 404; 500]%nat
             /\ incl corsHeaders (rs_headers resp)
             /\ (rs_status resp = 204%nat <-> br_method req = "OPTIONS")
             /\ (rs_payload resp = None <-> rs_status resp = 204%nat)
             /\ (rs_status resp <> 204%nat ->
                 In ("Content-Type", "application/json") (rs_headers resp))
             /\ (rs_status resp = 404%nat <->
                 br_method req <> "OPTIONS"
                 /\ ((br_method req =? "POST") && (br_url req =? "/tool")
                     = false)
                 /\ ((br_method req =? "POST") && (br_url req =? "/chat")
                     = false))
             /\ (In (rs_status resp) [204; 400; 404]%nat -> w' = w)).
  { intros status payload w' Hst H404 Hw Hm. cbv zeta.
    cbn [send rs_status rs_headers rs_payload].
    assert (Hne : status <> 204%nat).
    { simpl in Hst. intuition (subst; discriminate). }
    split; [simpl in Hst |- *; tauto|].
    split; [apply incl_appl, incl_refl|].
    split; [split; intros E; contradiction|].
    split; [split; [discriminate | intros E; contradiction]|].
    split; [intros _; apply in_or_app; right; now left|].
    split; [exact H404 | exact Hw]. }
  unfold bridge. destruct (br_method req =? "OPTIONS") eqn:Eo.
  { apply String.eqb_eq in Eo. eexists _, w. split; [reflexivity|].
    cbn [rs_status rs_headers rs_payload].
    split; [simpl; tauto|].
    split; [apply incl_refl|].
    split; [split; auto|].
    split; [split; auto|].
    split; [intros E; now elim E|].
    split; [split; [discriminate | intros (E & _); contradiction]|].
    reflexivity. }
  apply String.eqb_neq in Eo. unfold try_catch.
  destruct ((br_method req =? "POST") && (br_url req =? "/tool")) eqn:Et.
  { destruct (toolRoute ENV (br_data req) w) as [[resp|e] w1] eqn:E.
    - apply toolRoute_ok in E as [[p ->] | [[p ->] ->]];
        eexists _, _; (split; [reflexivity|]); apply Hsend; auto;
        try (simpl; tauto);
        try (split; [discriminate | intros (_ & E' & _); discriminate]).
      simpl. intros [E'|[E'|[E'|[]]]]; discriminate.
    - eexists _, _. split; [reflexivity|]. apply Hsend; auto.
      + simpl; tauto.
      + split; [discriminate | intros (_ & E' & _); discriminate].
      + simpl. intros [E'|[E'|[E'|[]]]]; discriminate. }
  destruct ((br_method req =? "POST") && (br_url req =? "/chat")) eqn:Ec.
  { destruct (chatRoute ENV (br_data req) w) as [[resp|e] w1] eqn:E.
    - apply chatRoute_ok in E as [[p ->] | [[p ->] ->]];
        eexists _, _; (split; [reflexivity|]); apply Hsend; auto;
        try (simpl; tauto);
        try (split; [discriminate | intros (_ & _ & E'); discriminate]).
      simpl. intros [E'|[E'|[E'|[]]]]; discriminate.
    - eexists _, _. split; [reflexivity|]. apply Hsend; auto.
      + simpl; tauto.
      + split; [discriminate | intros (_ & _ & E'); discriminate].
      + simpl. intros [E'|[E'|[E'|[]]]]; discriminate. }
  eexists _, w. split; [reflexivity|]. apply Hsend; auto.
  - simpl; tauto.
  - split; auto.
Qed.

Lemma bridge_tool_named (data : string) (w : World) (body : JV)
  (name : string) :
  readJson data = Ok body ->
  nullish body = false ->
  truthy (getField body "name") = true ->
  ToString (getField body "name") = Ok name ->
  bridge ENV {| br_method := "POST"; br_url := "/tool"; br_data := data |} w
  = match runTool ENV name (or_else (getField body "arguments") (JObj [])) w with
    | (Ok c, w') =>
        (Ok match renderHumanFor name c with
            | Ok human =>
                send 200 (JObj [ ("content", JArr (map blockValue c));
                                 ("human", human) ])
            | Err e => send 500 (errorPayload (thrownText e))
            end, w')
    | (Err e, w') => (Ok (send 500 (errorPayload (thrownText e))), w')
    end.
Proof.
  intros Hbody Hn Ht Hs.
  unfold bridge. cbn [br_method br_url br_data String.eqb Ascii.eqb Bool.eqb
                      andb].
  unfold try_catch, toolRoute.
  erewrite bind_lift_ok by exact Hbody.
  erewrite bind_lift_ok by (apply destructured_field; exact Hn).
  erewrite bind_lift_ok by (apply destructured_field; exact Hn).
  rewrite Ht. cbn [negb].
  erewrite bind_lift_ok by exact Hs.
  rewrite runAndRender_run.
  destruct (runTool ENV name _ w) as [[c|e] w1]; [|reflexivity].
  destruct (renderHumanFor name c); reflexivity.
Qed.

(** X12. POST /tool on a body that parses to a value with a truthy
    [name]: the tool of that name (as a string) is run on the given
    arguments, an absent or falsy [arguments] standing for no argument.
    When the tool returns and its result renders, the answer is 200 with
    the content and the rendered text; when the tool throws the answer
    is 500 with the text of the thrown value; when the rendering throws
    the answer is 500 as well, although the tool has run.  In all cases
    the world is left as the tool left it. *)
Theorem tool_route_runs_the_tool (data : string) (w : World) (body : JV)
  (name : string) :
  readJson data = Ok body ->
  nullish body = false ->
  truthy (getField body "name") = true ->
  ToString (getField body "name") = Ok name ->
  let args := or_else (getField body "arguments") (JObj []) in
  bridge ENV {| br_method := "POST"; br_url := "/tool"; br_data := data |} w
  = match runTool ENV name args w with
    | (Ok c, w') =>
        (Ok match renderHumanFor name c with
            | Ok human =>
                send 200 (JObj [ ("content", JArr (map blockValue c));
                                 ("human", human) ])
            | Err e => send 500 (errorPayload (thrownText e))
            end, w')
    | (Err e, w') => (Ok (send 500 (errorPayload (thrownText e))), w')
    end.
Proof.
  intros Hbody Hn Ht Hs args. now apply bridge_tool_named.
Qed.

(** X13. The two front ends run a tool alike: on the same tool name and
    arguments, POST /tool and the [CallTool] handler leave the same
    world behind; a result the handler marks as an error is a 500 of the
    bridge with the same text, and a 200 of the bridge carries the
    content the handler returns. *)
Theorem front_ends_agree (data : string) (w : World) (params : JV)
  (name : string) :
  readJson data = Ok params ->
  nullish params = false ->
  getField params "name" = JStr name ->
  name <> "" ->
  let post := bridge ENV {| br_method := "POST"; br_url := "/tool";
                            br_data := data |} w in
  let call := callToolHandler ENV params w in
  snd post = snd call
  /\ (forall res resp,
        fst call = Ok res -> fst post = Ok resp ->
        (isError res = true ->
         exists message,
           resultContent res = text message
           /\ resp = send 500 (errorPayload message))
        /\ (rs_status resp = 200%nat ->
            isError res = false
            /\ exists human,
                 rs_payload resp
                 = Some (JObj [ ("content",
                                 JArr (map blockValue (resultContent res)));
                                ("human", human) ]))).
Proof.
  intros Hbody Hn Hname Hne post call.
  assert (Ht : truthy (getField params "name") = true).
  { rewrite Hname. simpl. apply negb_true_iff. now apply String.eqb_neq. }
  assert (Hs : ToString (getField params "name") = Ok name)
    by now rewrite Hname.
  subst post call.
  rewrite (bridge_tool_named _ w Hbody Hn Ht Hs).
  unfold callToolHandler, try_catch, bind, lift.
  rewrite !(getProp_there _ _ Hn), Hname. cbn [runToolOn].
  destruct (runTool ENV name (or_else (getField params "arguments") (JObj []))
                    w) as [[c|e] w1]; cbn [fst snd ret].
  - split; [reflexivity|]. intros res resp Hres Hresp.
    injection Hres as <-. injection Hresp as <-.
    cbn [isError resultContent]. split; [discriminate|].
    destruct (renderHumanFor name c) as [human|e];
      cbn [send rs_status rs_payload]; [|discriminate].
    intros _. split; [reflexivity|]. eauto.
  - split; [reflexivity|]. intros res resp Hres Hresp.
    injection Hres as <-. injection Hresp as <-.
    cbn [isError resultContent send rs_status]. split.
    + intros _. eauto.
    + discriminate.
Qed.

Lemma planned_reply (reply : string) (K : JV -> M BridgeResponse)
  (w : World) :
  bind (lift (planOf (JStr reply)))
       (fun plan => if negb (truthy (optGet plan "tool")) then throw noTool
                    else K plan) w
  = match routerPlan reply with
    | Ok plan => K plan w
    | Err e => (Err e, w)
    end.
Proof.
  unfold bind, lift, routerPlan. cbn [planOf].
  destruct (parsePlan reply) as [plan|e]; cbn [rbind]; [|reflexivity].
  destruct (truthy (optGet plan "tool")); reflexivity.
Qed.

(** X14. POST /chat with a credential, on a body whose [text] is a
    non-empty string: one completion request is made, with the router
    prompt, the text as it is, 220 reply tokens at most and temperature
    0.  When that request fails, or when the reply yields no plan with a
    tool, the answer is 500 and nothing else has happened.  Otherwise
    the planned tool is run on the planned arguments exactly as POST
    /tool runs it, and a 200 carries the plan in front of the content
    and the rendered text. *)
Theorem chat_route_plans_then_runs (data : string) (w : World) (body : JV)
  (userText : string) (r : Result JV) (x : Ext) :
  OPENAI_API_KEY ENV <> "" ->
  readJson data = Ok body ->
  nullish body = false ->
  getField body "text" = JStr userText ->
  userText <> "" ->
  let rq := chatRequest ENV (routerPrompt userText) 220 0%Q in
  chat_step (ext w) rq = (r, x) ->
  let w1 := record x (EvChat rq r) w in
  let post := bridge ENV {| br_method := "POST"; br_url := "/chat";
                            br_data := data |} w in
  (forall e, r = Err e -> post = (Ok (send 500 (errorPayload (thrownText e))), w1))
  /\ (forall reply e,
        r = Ok (JStr reply) -> routerPlan reply = Err e ->
        post = (Ok (send 500 (errorPayload (thrownText e))), w1))
  /\ (forall reply plan tool,
        r = Ok (JStr reply) -> routerPlan reply = Ok plan ->
        ToString (getField plan "tool") = Ok tool ->
        let args := or_else (getField plan "arguments") (JObj []) in
        post
        = match runTool ENV tool args w1 with
          | (Ok c, w') =>
              (Ok match renderHumanFor tool c with
                  | Ok human =>
                      send 200 (JObj [ ("plan", plan);
                                       ("content", JArr (map blockValue c));
                                       ("human", human) ])
                  | Err e => send 500 (errorPayload (thrownText e))
                  end, w')
          | (Err e, w') => (Ok (send 500 (errorPayload (thrownText e))), w')
          end).
Proof.
  intros Hkey Hbody Hn Htext Hne rq Hstep w1 post.
  apply String.eqb_neq in Hkey.
  assert (Hpost : post
                  = try_catch
                      (reply <- callOpenAI ENV rq ;;
                       plan <- lift (planOf reply) ;;
                       if negb (truthy (optGet plan "tool")) then throw noTool
                       else
                         tool <- lift (t <-? getProp plan "tool" ;; ToString t) ;;
                         args <- lift (getProp plan "arguments") ;;
                         runAndRender ENV tool args [("plan", plan)])
                      (fun e => ret (send 500 (errorPayload (thrownText e))))
                      w).
  { subst post. unfold bridge.
    cbn [br_method br_url br_data String.eqb Ascii.eqb Bool.eqb andb].
    unfold try_catch, chatRoute. rewrite Hkey.
    erewrite bind_lift_ok by exact Hbody.
    erewrite bind_lift_ok by (apply destructured_field; exact Hn).
    rewrite Htext. destruct userText as [|c u]; [now elim Hne|].
    reflexivity. }
  rewrite Hpost. clear Hpost post.
  assert (Hcall : callOpenAI ENV rq w = (r, w1)).
  { unfold callOpenAI. rewrite Hkey, Hstep. reflexivity. }
  repeat apply conj.
  - intros e ->. unfold try_catch. erewrite bind_err by exact Hcall.
    reflexivity.
  - intros reply e -> Hplan. unfold try_catch.
    erewrite bind_ok by exact Hcall.
    rewrite planned_reply, Hplan. reflexivity.
  - intros reply plan tool -> Hplan Htool args. unfold try_catch.
    erewrite bind_ok by exact Hcall.
    rewrite planned_reply, Hplan.
    assert (Hp : nullish plan = false).
    { unfold routerPlan in Hplan.
      destruct (parsePlan reply) as [p|e]; [|discriminate].
      cbn [rbind] in Hplan.
      destruct (truthy (optGet p "tool")) eqn:E; [|discriminate].
      injection Hplan as <-. unfold optGet in E.
      destruct (nullish p); [discriminate | reflexivity]. }
    rewrite (getProp_there _ _ Hp). cbn [rbind].
    erewrite bind_lift_ok by exact Htool.
    erewrite bind_lift_ok by (apply getProp_there; exact Hp).
    rewrite runAndRender_run. fold args.
    destruct (runTool ENV tool args w1) as [[c|e] w2]; [|reflexivity].
    destruct (renderHumanFor tool c); reflexivity.
Qed.

(** X15. What the bridge refuses before anything happens.  POST /chat
    without a credential is answered 400, whatever the body, which is
    not even parsed.  A body that is not JSON is answered 500 with the
    parser's message, on both routes.  POST /tool without a truthy
    [name], and POST /chat with a credential but without a [text] that
    is a non-empty string, are answered 400.  None of these runs a
    tool or exchanges anything. *)
Theorem bridge_refusals (data : string) (w : World) :
  let tool := bridge ENV {| br_method := "POST"; br_url := "/tool";
                            br_data := data |} w in
  let chat := bridge ENV {| br_method := "POST"; br_url := "/chat";
                            br_data := data |} w in
  (OPENAI_API_KEY ENV = "" ->
   chat = (Ok (send 400 (errorPayload "OpenAI not configured")), w))
  /\ (forall e,
        readJson data = Err e ->
        tool = (Ok (send 500 (errorPayload (thrownText e))), w)
        /\ (OPENAI_API_KEY ENV <> "" ->
            chat = (Ok (send 500 (errorPayload (thrownText e))), w)))
  /\ (forall body,
        readJson data = Ok body -> nullish body = false ->
        (truthy (getField body "name") = false ->
         tool = (Ok (send 400 (errorPayload missingName)), w))
        /\ (OPENAI_API_KEY ENV <> "" ->
            (forall s, getField body "text" = JStr s -> s = "") ->
            chat = (Ok (send 400 (errorPayload missingText)), w))).
Proof.
  cbv zeta. unfold bridge.
  cbn [br_method br_url br_data String.eqb Ascii.eqb Bool.eqb andb].
  unfold try_catch, toolRoute, chatRoute. repeat apply conj.
  - intros ->. reflexivity.
  - intros e He. split.
    + unfold bind, lift. rewrite He. reflexivity.
    + intros Hkey. apply String.eqb_neq in Hkey. rewrite Hkey.
      unfold bind, lift. rewrite He. reflexivity.
  - intros body Hbody Hn. split.
    + intros Ht.
      erewrite bind_lift_ok by exact Hbody.
      erewrite bind_lift_ok by (apply destructured_field; exact Hn).
      erewrite bind_lift_ok by (apply destructured_field; exact Hn).
      rewrite Ht. reflexivity.
    + intros Hkey Htext. apply String.eqb_neq in Hkey. rewrite Hkey.
      erewrite bind_lift_ok by exact Hbody.
      erewrite bind_lift_ok by (apply destructured_field; exact Hn).
      destruct (getField body "text") as [| |b|n|[|c s]|l|fs];
        try reflexivity.
      specialize (Htext _ eq_refl). discriminate.
Qed.

End FrontEndFacts.

(* --------------------------------------------------------------------- *)
(** *** Rounding of products                                              *)
(* --------------------------------------------------------------------- *)

Section RoundingFacts.
Open Scope Z_scope.

Lemma pow2_pos (k : Z) : 0 < 2 ^ k \/ k < 0.
Proof.
  destruct (Z.lt_ge_cases k 0); [now right | left].
  now apply Z.pow_pos_nonneg.
Qed.

Lemma pow2_split (x y : Z) : 0 <= x -> 0 <= y -> 2 ^ (x + y) = 2 ^ x * 2 ^ y.
Proof. intros. now apply Z.pow_add_r. Qed.

(** [2^e <= a/b] *)
Lemma exponentOf_below (a b : Z) :
  0 < a -> 0 < b ->
  b * 2 ^ Z.max 0 (exponentOf a b) <= a * 2 ^ Z.max 0 (- exponentOf a b).
Proof.
  intros Ha Hb. unfold exponentOf. cbv zeta.
  pose proof (Z.log2_spec a Ha) as [Hla _].
  pose proof (Z.log2_spec b Hb) as [_ Hlb].
  pose proof (Z.log2_nonneg a) as Na. pose proof (Z.log2_nonneg b) as Nb.
  set (la := Z.log2 a) in *. set (lb := Z.log2 b) in *.
  destruct (Z.ltb_spec (a * 2 ^ Z.max 0 (- (la - lb)))
                       (b * 2 ^ Z.max 0 (la - lb))) as [Hc|Hc];
    [|exact Hc].
  unfold Z.succ in Hlb.
  destruct (Z.le_gt_cases 1 (la - lb)) as [He|He].
  - rewrite (Z.max_r 0 (la - lb - 1)), (Z.max_l 0 (- (la - lb - 1))) by lia.
    rewrite Z.pow_0_r, Z.mul_1_r.
    assert (E : 2 ^ la = 2 ^ (lb + 1) * 2 ^ (la - lb - 1)).
    { rewrite <- pow2_split by lia. f_equal. lia. }
    assert (0 < 2 ^ (la - lb - 1)) by (apply Z.pow_pos_nonneg; lia).
    nia.
  - rewrite (Z.max_l 0 (la - lb - 1)), (Z.max_r 0 (- (la - lb - 1))) by lia.
    rewrite Z.pow_0_r, Z.mul_1_r.
    assert (E : 2 ^ (lb + 1) = 2 ^ la * 2 ^ (- (la - lb - 1))).
    { rewrite <- pow2_split by lia. f_equal. lia. }
    assert (0 < 2 ^ (- (la - lb - 1))) by (apply Z.pow_pos_nonneg; lia).
    nia.
Qed.

(** [a/b < 2^(e+1)] *)
Lemma exponentOf_above (a b : Z) :
  0 < a -> 0 < b ->
  a * 2 ^ Z.max 0 (- (exponentOf a b + 1))
  < b * 2 ^ Z.max 0 (exponentOf a b + 1).
Proof.
  intros Ha Hb. unfold exponentOf. cbv zeta.
  pose proof (Z.log2_spec a Ha) as [_ Hla].
  pose proof (Z.log2_spec b Hb) as [Hlb _].
  pose proof (Z.log2_nonneg a) as Na. pose proof (Z.log2_nonneg b) as Nb.
  set (la := Z.log2 a) in *. set (lb := Z.log2 b) in *.
  destruct (Z.ltb_spec (a * 2 ^ Z.max 0 (- (la - lb)))
                       (b * 2 ^ Z.max 0 (la - lb))) as [Hc|Hc].
  - now replace (la - lb - 1 + 1) with (la - lb) by lia.
  - unfold Z.succ in Hla.
    destruct (Z.le_gt_cases 0 (la - lb + 1)) as [He|He].
    + rewrite (Z.max_r 0 (la - lb + 1)), (Z.max_l 0 (- (la - lb + 1))) by lia.
      rewrite Z.pow_0_r, Z.mul_1_r.
      assert (E : 2 ^ (la + 1) = 2 ^ lb * 2 ^ (la - lb + 1)).
      { rewrite <- pow2_split by lia. f_equal. lia. }
      assert (0 < 2 ^ (la - lb + 1)) by (apply Z.pow_pos_nonneg; lia).
      nia.
    + rewrite (Z.max_l 0 (la - lb + 1)), (Z.max_r 0 (- (la - lb + 1))) by lia.
      rewrite Z.pow_0_r, Z.mul_1_r.
      assert (E : 2 ^ lb = 2 ^ (la + 1) * 2 ^ (- (la - lb + 1))).
      { rewrite <- pow2_split by lia. f_equal. lia. }
      assert (0 < 2 ^ (- (la - lb + 1))) by (apply Z.pow_pos_nonneg; lia).
      nia.
Qed.

Lemma nearestEven_cases (num den : Z) :
  0 < den ->
  let fl := num / den in
  (nearestEven num den = fl /\ 2 * (num mod den) <= den)
  \/ (nearestEven num den = fl + 1 /\ den <= 2 * (num mod den)).
Proof.
  intros Hd fl. unfold nearestEven. cbv zeta. fold fl.
  destruct (Z.compare_spec (2 * (num mod den)) den) as [E|E|E].
  - destruct (Z.even fl); [left | right]; split; auto; lia.
  - left. split; auto; lia.
  - right. split; auto; lia.
Qed.

Lemma nearestEven_nonneg (num den : Z) :
  0 <= num -> 0 < den -> 0 <= nearestEven num den.
Proof.
  intros Hn Hd.
  assert (0 <= num / den) by (apply Z.div_pos; lia).
  destruct (@nearestEven_cases num den Hd) as [[-> _]|[-> _]]; lia.
Qed.

(** Below the midpoint of [N - 1] and [N], the nearest integer is
    [N - 1] at most. *)
Lemma nearestEven_below (num den N : Z) :
  0 < den -> 2 * num < den * (2 * N - 1) -> nearestEven num den <= N - 1.
Proof.
  intros Hd Hlt.
  pose proof (Z.div_mod num den ltac:(lia)) as E.
  pose proof (Z.mod_pos_bound num den Hd) as Hr.
  destruct (@nearestEven_cases num den Hd) as [[-> H]|[-> H]]; nia.
Qed.

End RoundingFacts.

Section ProductFacts.

Lemma pow2_nonpos (k : Z) :
  (k <= 0)%Z -> (pow2 k == 1 # Z.to_pos (2 ^ (- k)))%Q.
Proof.
  intros Hk. unfold pow2. destruct (Z.leb_spec 0 k) as [H|H]; [|reflexivity].
  assert (k = 0%Z) by lia. subst k. reflexivity.
Qed.

Lemma Qnum_nonneg (r : Q) : (0 <= r)%Q -> (0 <= Qnum r)%Z.
Proof. unfold Qle. simpl. lia. Qed.

Lemma Qbelow_one (r : Q) : (r < 1)%Q -> (Qnum r < Zpos (Qden r))%Z.
Proof. unfold Qlt. simpl. lia. Qed.

(** A binary64 value below 1 is [1 - 2^-53] at most. *)
Lemma binary64_below_one (r : Q) :
  binary64 r = true -> (0 <= r)%Q -> (r < 1)%Q ->
  (Qnum r * 2 ^ 53 <= Zpos (Qden r) * (2 ^ 53 - 1))%Z.
Proof.
  intros Hb H0 H1.
  apply Qnum_nonneg in H0. apply Qbelow_one in H1.
  unfold binary64 in Hb. apply andb_true_iff in Hb as [Hb _].
  apply Qeq_bool_eq in Hb. unfold round64 in Hb. cbv zeta in Hb.
  rewrite (Z.abs_eq (Qnum r)) in Hb by exact H0.
  set (a := Qnum r) in *. set (b := Zpos (Qden r)) in *.
  assert (Hbpos : (0 < b)%Z) by (subst b; lia).
  destruct (Z.eqb_spec a 0) as [Ha|Ha]; [rewrite Ha; lia|].
  assert (Hapos : (0 < a)%Z) by lia.
  pose proof (exponentOf_below Hapos Hbpos) as Hlo.
  pose proof (exponentOf_above Hapos Hbpos) as Hhi.
  set (e := exponentOf a b) in *.
  assert (He : (e <= -1)%Z).
  { destruct (Z.le_gt_cases 0 e) as [Hge|]; [|lia].
    rewrite (Z.max_r 0 e), (Z.max_l 0 (- e)) in Hlo by lia.
    rewrite Z.pow_0_r in Hlo.
    assert (0 < 2 ^ e)%Z by (apply Z.pow_pos_nonneg; lia). nia. }
  destruct (Z.le_gt_cases e (-2)) as [He2|He2].
  - rewrite (Z.max_l 0 (e + 1)), (Z.max_r 0 (- (e + 1))) in Hhi by lia.
    rewrite Z.pow_0_r in Hhi.
    assert (2 ^ 1 <= 2 ^ (- (e + 1)))%Z by (apply Z.pow_le_mono_r; lia).
    change (2 ^ 1)%Z with 2%Z in *.
    assert (2 * a < b)%Z by nia.
    change (2 ^ 53)%Z with 9007199254740992%Z. lia.
  - assert (Ee : e = (-1)%Z) by lia. rewrite Ee in Hb.
    change (Z.max (-1) (-1022) - 52)%Z with (-53)%Z in Hb.
    change (Z.max 0 (- -53)) with 53%Z in Hb.
    change (Z.max 0 (-53)) with 0%Z in Hb.
    set (m := nearestEven (a * 2 ^ 53) (b * 2 ^ 0)) in *.
    assert (Hs : Z.sgn a = 1%Z) by (apply Z.sgn_pos; lia).
    rewrite Hs in Hb.
    change (pow2 (-53)) with (1 # 9007199254740992)%Q in Hb.
    unfold Qeq in Hb. cbn [Qnum Qden Qmult inject_Z] in Hb.
    rewrite Pos.mul_1_l in Hb. fold a b in Hb.
    change (2 ^ 53)%Z with 9007199254740992%Z in *.
    assert (Hmb : (m * b = a * 9007199254740992)%Z) by lia.
    assert (Hm : (m < 9007199254740992)%Z).
    { destruct (Z.lt_ge_cases m 9007199254740992) as [|Hge]; [assumption|].
      assert (9007199254740992 * b <= m * b)%Z
        by (apply Z.mul_le_mono_nonneg_r; lia).
      lia. }
    assert (m * b <= 9007199254740991 * b)%Z
      by (apply Z.mul_le_mono_nonneg_r; lia).
    lia.
Qed.

(** The product of a draw and a length, in binary64, is below the
    length. *)
Lemma round64_below (r : Q) (n : Z) :
  (0 <= Qnum r)%Z ->
  (Qnum r * 2 ^ 53 <= Zpos (Qden r) * (2 ^ 53 - 1))%Z ->
  (1 <= n < 2 ^ 53)%Z ->
  (0 <= round64 (Qmult r (inject_Z n)))%Q
  /\ (round64 (Qmult r (inject_Z n)) < inject_Z n)%Q.
Proof.
  intros H0 Hr Hn. unfold round64. cbv zeta.
  change (Qnum (Qmult r (inject_Z n))) with (Qnum r * n)%Z.
  change (Qden (Qmult r (inject_Z n))) with (Qden r * 1)%positive.
  rewrite Pos.mul_1_r.
  set (a := Qnum r) in *. set (b := Zpos (Qden r)) in *.
  assert (Hbpos : (0 < b)%Z) by (subst b; lia).
  assert (Hab : (a < b)%Z).
  { change (2 ^ 53)%Z with 9007199254740992%Z in Hr. lia. }
  rewrite (Z.abs_eq (a * n)) by nia.
  destruct (Z.eqb_spec (a * n) 0) as [Hz|Hz].
  { split; [apply Qle_refl|]. unfold Qlt. simpl. lia. }
  assert (HA : (0 < a * n)%Z) by nia.
  pose proof (exponentOf_below HA Hbpos) as Hlo.
  set (e := exponentOf (a * n) b) in *.
  assert (He : (e <= 52)%Z).
  { destruct (Z.le_gt_cases e 52) as [|Hgt]; [assumption|].
    rewrite (Z.max_r 0 e), (Z.max_l 0 (- e)) in Hlo by lia.
    rewrite Z.pow_0_r in Hlo.
    assert (2 ^ 53 <= 2 ^ e)%Z by (apply Z.pow_le_mono_r; lia).
    nia. }
  set (k := (Z.max e (-1022) - 52)%Z).
  assert (Hk : (k <= 0)%Z) by (subst k; lia).
  rewrite (Z.max_r 0 (- k)), (Z.max_l 0 k) by lia.
  rewrite Z.pow_0_r, Z.mul_1_r.
  set (P := (2 ^ (- k))%Z).
  assert (HP : (0 < P)%Z) by (subst P; apply Z.pow_pos_nonneg; lia).
  assert (HN : (2 ^ 52 < n * P)%Z).
  { destruct (Z.le_gt_cases 0 e) as [Hge|Hlt].
    - rewrite (Z.max_r 0 e), (Z.max_l 0 (- e)) in Hlo by lia.
      rewrite Z.pow_0_r in Hlo.
      assert (Hen : (2 ^ e < n)%Z) by nia.
      assert (EP : (2 ^ 52 = 2 ^ e * P)%Z).
      { subst P k. rewrite <- pow2_split by lia. f_equal. lia. }
      nia.
    - assert (2 ^ 53 <= P)%Z by (subst P k; apply Z.pow_le_mono_r; lia).
      assert (2 ^ 52 < 2 ^ 53)%Z by (apply Z.pow_lt_mono_r; lia).
      nia. }
  set (m := nearestEven (a * n * P) b).
  assert (Hm0 : (0 <= m)%Z) by (subst m; apply nearestEven_nonneg; nia).
  assert (Hm : (m <= n * P - 1)%Z).
  { subst m. apply nearestEven_below; [exact Hbpos|].
    change (2 ^ 53)%Z with 9007199254740992%Z in Hr.
    change (2 ^ 52)%Z with 4503599627370496%Z in HN.
    nia. }
  assert (Hs : Z.sgn (a * n) = 1%Z) by (apply Z.sgn_pos; lia).
  rewrite Hs, Z.mul_1_l.
  rewrite (pow2_nonpos Hk). fold P.
  unfold Qle, Qlt. cbn [Qnum Qden Qmult inject_Z].
  rewrite Pos.mul_1_l, Z2Pos.id by exact HP.
  split; lia.
Qed.

End ProductFacts.

Section DrawFacts.

Lemma times_draw (r : Q) (n : Z) :
  binary64 r = true -> (0 <= r)%Q -> (r < 1)%Q -> (1 <= n < 2 ^ 53)%Z ->
  exists p, times r (inject_Z n) = NFin p /\ (0 <= Qfloor p < n)%Z.
Proof.
  intros Hb H0 H1 Hn.
  destruct (@round64_below r n (Qnum_nonneg H0)
              (binary64_below_one Hb H0 H1) Hn) as [Hlo Hhi].
  exists (round64 (Qmult r (inject_Z n))). split.
  - unfold times. cbv zeta.
    destruct (Qle_bool (pow2 1024)
                (Qabs (round64 (Qmult r (inject_Z n))))) eqn:E;
      [|reflexivity].
    exfalso. apply Qle_bool_iff in E. rewrite (Qabs_pos _ Hlo) in E.
    assert (Hlt : (pow2 1024 < inject_Z n)%Q)
      by (eapply Qle_lt_trans; [exact E | exact Hhi]).
    change (pow2 1024) with (inject_Z (2 ^ 1024)) in Hlt.
    rewrite <- Zlt_Qlt in Hlt.
    assert (Hpow : (2 ^ 53 <= 2 ^ 1024)%Z) by (apply Z.pow_le_mono_r; lia).
    set (large := (2 ^ 1024)%Z) in *. set (bound := (2 ^ 53)%Z) in *. lia.
  - split.
    + change 0%Z with (Qfloor 0). now apply Qfloor_resp_le.
    + rewrite Zlt_Qlt. eapply Qle_lt_trans; [apply Qfloor_le | exact Hhi].
Qed.

(** The pick is an item of the batch: an array has fewer than [2^32]
    elements, and [Math.random] draws a binary64 value of [0, 1). *)
Lemma pickAt_in (its : list JV) (r : Q) :
  its <> [] -> (Z.of_nat (List.length its) < 2 ^ 32)%Z ->
  binary64 r = true -> (0 <= r)%Q -> (r < 1)%Q ->
  In (pickAt its r) its.
Proof.
  intros Hne Hlen Hb H0 H1.
  assert (Hn : (1 <= Z.of_nat (List.length its) < 2 ^ 53)%Z).
  { split.
    - destruct its; [now elim Hne | cbn [List.length]; lia].
    - assert (2 ^ 32 <= 2 ^ 53)%Z by (apply Z.pow_le_mono_r; lia). lia. }
  destruct (times_draw Hb H0 H1 Hn) as (p & Hp & Hlo & Hhi).
  unfold pickAt. rewrite Hp. cbv zeta.
  destruct (Z.ltb_spec (Qfloor p) 0); [lia|].
  apply nth_In. lia.
Qed.

End DrawFacts.

(* --------------------------------------------------------------------- *)
(** *** More on the normalizer, the random pick and the notes summary     *)
(* --------------------------------------------------------------------- *)

Section DataFacts.
Context {B : Builtins} {X : External}.
Variable ENV : Env.

Lemma payloadOf_finite (obj : JV) (its : list JV) (p : Payload) :
  payloadOf obj its = Ok p -> Num_isFinite (total p) = true /\ items p = its.
Proof.
  unfold payloadOf. destruct (ToNumber _) as [n|e]; [|discriminate].
  cbn [rbind]. intros E. injection E as <-. cbn [total items].
  split; [|reflexivity]. destruct (Num_isFinite n) eqn:En; [exact En|].
  reflexivity.
Qed.

Lemma probe_finite (cs : list (string * JV)) (p : Payload) :
  probe cs = Some (Ok p) -> Num_isFinite (total p) = true.
Proof.
  induction cs as [|[key obj] rest IH]; [discriminate|].
  cbn [probe]. destruct (truthy obj && typeofObject obj); [|exact IH].
  destruct (getField obj key); try exact IH.
  intros E. injection E as E. exact (proj1 (payloadOf_finite _ _ E)).
Qed.

Lemma normalize_cases (result : JV) (p : Payload) :
  normalizeListPayload result = Ok p ->
  (exists l, result = JArr l
             /\ p = {| items := l; total := num_of_nat (List.length l) |})
  \/ (exists fs, result = JObj fs
                 /\ (probe (candidates result) = Some (Ok p)
                     \/ (probe (candidates result) = None
                         /\ p = {| items := [result]; total := NFin 1 |}))).
Proof.
  unfold normalizeListPayload.
  destruct result as [| |b|n|s|l|fs]; try discriminate.
  - rewrite orb_true_r. discriminate.
  - rewrite orb_true_r. discriminate.
  - rewrite orb_true_r. discriminate.
  - intros E. injection E as <-. left. eauto.
  - cbn [truthy typeofObject negb orb]. intros E. right. exists fs.
    split; [reflexivity|].
    destruct (probe (candidates (JObj fs))) as [r|].
    + subst r. now left.
    + injection E as <-. now right.
Qed.

(** X16. The total of a normalized payload is always a finite number,
    whatever the backend put in [total], [count] or [totalCount]; and a
    normalized payload, as [projects.search] returns it, is itself a
    list payload that normalizes to itself. *)
Theorem normalized_total_is_finite (result : JV) (p : Payload) :
  normalizeListPayload result = Ok p ->
  Num_isFinite (total p) = true
  /\ normalizeListPayload (payloadJson p) = Ok p.
Proof.
  intros E.
  assert (Hf : Num_isFinite (total p) = true).
  { destruct (normalize_cases _ E) as [(l & -> & ->) | (fs & -> & [Hp | [_ ->]])].
    - reflexivity.
    - exact (probe_finite _ Hp).
    - reflexivity. }
  split; [exact Hf|].
  destruct p as [its t]. cbn [total] in Hf.
  unfold normalizeListPayload, payloadJson. cbn [items total].
  cbn. unfold payloadOf. cbn. rewrite Hf. reflexivity.
Qed.

Lemma deleteRandomlyFrom_exchanges (its : list JV) (w : World) (r : Q)
  (x : Ext) (id : string) (resp : Result JV) (x' : Ext) :
  its <> [] ->
  random_step (ext w) = (r, x) ->
  nullish (pickAt its r) = false ->
  ToString (identifierField (pickAt its r)) = Ok id ->
  http_step x (request ENV DELETE (ProjectById id) (withApiKey ENV []) None)
  = (resp, x') ->
  trace (snd (deleteRandomlyFrom ENV its w))
  = (trace w
       ++ [ EvRandom r;
            EvHttp (request ENV DELETE (ProjectById id) (withApiKey ENV [])
                      None) resp ])%list.
Proof.
  intros Hne Hdraw Hp Hid Hstep.
  set (rq := request ENV DELETE (ProjectById id) (withApiKey ENV []) None)
    in *.
  unfold deleteRandomlyFrom. rewrite truthy_length.
  destruct its as [|p l]; [now elim Hne|].
  cbn [List.length Nat.eqb negb].
  unfold bind at 1. unfold Math_random. rewrite Hdraw. cbv zeta.
  set (pick := pickAt (p :: l) r) in *.
  rewrite <- (identifierOf_there _ Hp) in Hid.
  erewrite bind_lift_ok by exact Hid.
  unfold getProp. rewrite Hp. cbn [rbind].
  match goal with |- context [lift ?res] =>
    assert (Hname : exists name, res = Ok name)
      by (destruct (nullish (getField pick "projectName")); cbn; eauto)
  end.
  destruct Hname as [name Hname].
  erewrite bind_lift_ok by exact Hname.
  fold rq. unfold bind, http. cbn [ext record]. rewrite Hstep.
  destruct resp as [v|e]; [|cbn [snd trace record]; now rewrite <- app_assoc].
  unfold setLastProject, lift, ret.
  destruct (deletedRandomMessage name id);
    cbn [snd trace withLastProject record]; now rewrite <- app_assoc.
Qed.

(** X17. [projects.deleteRandom] deletes an entity of the batch it
    fetched.  The backend answers the list request with a payload whose
    items are not empty (an array: fewer than [2^32] of them), and
    [Math.random] draws a binary64 value of the range from 0, included,
    to 1, excluded; the index is the floor of the product of the draw
    and the length, rounded as binary64 products are.  Then the pick is
    one of the items of that payload, never [undefined]; and when the
    pick is there with an identifier that converts to a string, the
    invocation consists of the list request, the draw, and one DELETE
    request for that identifier: no other exchange is made. *)
Theorem random_pick_is_in_batch (args : JV) (w : World) (limit : Num)
  (result : JV) (payload : Payload) (x1 : Ext) (r : Q) (x2 : Ext) :
  args <> JNull ->
  batchLimitOf (optGet args "limit") = Ok limit ->
  http_step (ext w) (listRequest ENV [("limit", NumberToString limit)])
  = (Ok result, x1) ->
  normalizeListPayload result = Ok payload ->
  items payload <> [] ->
  (Z.of_nat (List.length (items payload)) < 2 ^ 32)%Z ->
  random_step x1 = (r, x2) ->
  binary64 r = true ->
  (0 <= r)%Q ->
  (r < 1)%Q ->
  In (pickAt (items payload) r) (items payload)
  /\ (forall id resp x3,
        nullish (pickAt (items payload) r) = false ->
        ToString (identifierField (pickAt (items payload) r)) = Ok id ->
        http_step x2
          (request ENV DELETE (ProjectById id) (withApiKey ENV []) None)
        = (resp, x3) ->
        trace (snd (runTool ENV "projects.deleteRandom" args w))
        = (trace w
             ++ [ EvHttp (listRequest ENV [("limit", NumberToString limit)])
                    (Ok result);
                  EvRandom r;
                  EvHttp (request ENV DELETE (ProjectById id)
                            (withApiKey ENV []) None) resp ])%list).
Proof.
  intros Hargs Hlimit Hlist Hnorm Hne Hlen Hdraw Hb H0 H1.
  split; [now apply pickAt_in|].
  intros id resp x3 Hp Hid Hstep.
  change (runTool ENV "projects.deleteRandom" args)
    with (toolDeleteRandom ENV (defaultArgs args)).
  unfold toolDeleteRandom.
  erewrite bind_lift_ok by (apply getProp_defaultArgs; exact Hargs).
  erewrite bind_lift_ok by exact Hlimit.
  unfold fetchSomeProjects. rewrite bind_assoc.
  erewrite bind_http_ok by exact Hlist. rewrite bind_assoc.
  erewrite bind_lift_ok by exact Hnorm. rewrite bind_ret.
  rewrite (@deleteRandomlyFrom_exchanges (items payload)
             (record x1
                (EvHttp (listRequest ENV [("limit", NumberToString limit)])
                   (Ok result)) w)
             r x2 id resp x3 Hne Hdraw Hp Hid Hstep).
  cbn [trace record]. now rewrite <- app_assoc.
Qed.

Lemma lookup_setField_other (k k' : string) (x : JV)
  (fs : list (string * JV)) :
  k <> k' -> lookup k (setField k' x fs) = lookup k fs.
Proof.
  intros Hne. induction fs as [|[k0 v] fs IH]; cbn [setField lookup].
  - apply not_eq_sym in Hne. apply String.eqb_neq in Hne. now rewrite Hne.
  - destruct (k0 =? k') eqn:E0; cbn [lookup].
    + apply String.eqb_eq in E0. subst k0.
      apply not_eq_sym in Hne. apply String.eqb_neq in Hne. now rewrite Hne.
    + now rewrite IH.
Qed.

(** X18. The notes summary of [projects.get] never throws and never
    touches the memory; the entity it returns is the fetched one or, for
    an object, the fetched one with [notes_summary] or
    [notes_summary_error] set: every other field, the identifier and the
    notes among them, is as the backend sent it. *)
Theorem summary_keeps_the_entity (project : JV) (w : World) :
  exists p w',
    summarizeNotes ENV project w = (Ok p, w')
    /\ memory w' = memory w
    /\ (forall k,
          k <> "notes_summary" -> k <> "notes_summary_error" ->
          getField p k = getField project k)
    /\ (p = project \/ exists fs gs, project = JObj fs /\ p = JObj gs).
Proof.
  pose proof (preserves_summarizeNotes ENV project w) as Hmem.
  unfold summarizeNotes in *.
  destruct (negb (OPENAI_API_KEY ENV =? "") && truthy (optGet project "notes"))
    eqn:Ea.
  - apply andb_true_iff in Ea as [_ Hnotes].
    destruct (truthy_notes_object _ Hnotes) as [fs ->].
    unfold try_catch in *.
    match goal with |- context [match ?m w with _ => _ end] =>
      destruct (m w) as [[p|e] w1] eqn:E end.
    + exists p, w1. split; [reflexivity|]. split; [exact Hmem|].
      inv_lift E notes w2 E1. inv_bind E summary w3 E2.
      apply lift_inv in E as [E _]. cbn [setProp] in E. injection E as E.
      subst p.
      split.
      * intros k Hk _. cbn [getField]. now apply lookup_setField_other.
      * right. eauto.
    + eexists _, w1. split; [reflexivity|]. split; [exact Hmem|]. split.
      * intros k _ Hk. cbn [getField]. now apply lookup_setField_other.
      * right. eauto.
  - exists project, w. repeat split; auto.
Qed.

End DataFacts.

(* --------------------------------------------------------------------- *)
(** *** What the tools return, rendered                                   *)
(* --------------------------------------------------------------------- *)

Section RenderedFacts.
Context {B : Builtins} {H : Host} {X : External}.
Variable ENV : Env.

Lemma deletedMessage_text (nameUsed : JV) (id msg : string) :
  deletedMessage nameUsed id = Ok msg -> msg <> "".
Proof.
  unfold deletedMessage. destruct (truthy nameUsed).
  - destruct (ToString nameUsed); [|discriminate]. cbn [rbind].
    intros E. injection E as <-. discriminate.
  - intros E. injection E as <-. discriminate.
Qed.

Lemma deletedRandomMessage_text (name : JV) (id msg : string) :
  deletedRandomMessage name id = Ok msg -> msg <> "".
Proof.
  unfold deletedRandomMessage. destruct (ToString name); [|discriminate].
  cbn [rbind]. intros E. injection E as <-. discriminate.
Qed.

Lemma renderDelete_text (msg : string) :
  msg <> "" -> renderDelete (text msg) = Ok (checkMark ++ " " ++ msg).
Proof.
  intros Hne. unfold renderDelete, text. cbn [hd_error blockText].
  unfold or_else. cbn [truthy]. apply String.eqb_neq in Hne. rewrite Hne.
  reflexivity.
Qed.

(** X19. What a deletion returns is one text block with a confirmation
    that is not empty, and the bridge renders it as that very text
    behind a check mark: the fallback [Deleted.] never shows after a
    deletion that succeeded. *)
Theorem delete_confirmation_rendered (name : string) (args : JV) (w : World)
  (c : list Block) (w' : World) :
  name = "projects.delete" \/ name = "projects.deleteRandom" ->
  runTool ENV name args w = (Ok c, w') ->
  exists msg,
    c = text msg /\ msg <> ""
    /\ renderHumanFor name c = Ok (JStr (checkMark ++ " " ++ msg)).
Proof.
  intros [-> | ->] Hrun.
  - change (runTool ENV "projects.delete" args)
      with (toolDelete ENV (defaultArgs args)) in Hrun.
    unfold toolDelete in Hrun.
    inv_bind Hrun r w1 Hr. inv_bind Hrun v w2 Hh. inv_bind Hrun u w3 Hs.
    inv_lift Hrun msg w4 Hm. unfold ret in Hrun. injection Hrun as <- _.
    symmetry in Hm. pose proof (deletedMessage_text _ _ Hm) as Hne.
    exists msg. repeat split; auto.
    unfold renderHumanFor.
    cbn [String.eqb Ascii.eqb Bool.eqb orb].
    now rewrite (renderDelete_text Hne).
  - change (runTool ENV "projects.deleteRandom" args)
      with (toolDeleteRandom ENV (defaultArgs args)) in Hrun.
    unfold toolDeleteRandom in Hrun.
    inv_lift Hrun limit w1 H1. inv_lift Hrun batchLimit w2 H2.
    inv_bind Hrun its w3 Hf. unfold deleteRandomlyFrom in Hrun.
    destruct (negb (truthy (JNat (List.length its)))); [discriminate|].
    inv_bind Hrun r w4 Hd. cbv zeta in Hrun.
    inv_lift Hrun pid w5 Hi. inv_lift Hrun nm w6 Hn.
    inv_bind Hrun v w7 Hh. inv_bind Hrun u w8 Hs.
    inv_lift Hrun msg w9 Hm. unfold ret in Hrun. injection Hrun as <- _.
    symmetry in Hm. pose proof (deletedRandomMessage_text _ _ Hm) as Hne.
    exists msg. repeat split; auto.
    unfold renderHumanFor.
    cbn [String.eqb Ascii.eqb Bool.eqb orb].
    now rewrite (renderDelete_text Hne).
Qed.

End RenderedFacts.

(* --------------------------------------------------------------------- *)
(** *** The entity card                                                   *)
(* --------------------------------------------------------------------- *)

Section CardFacts.
Context {B : Builtins} {H : Host}.

Lemma pushIfTruthy_extends (project : JV) (k before after : string)
  (lines lines' : list string) :
  pushIfTruthy project k before after lines = Ok lines' ->
  exists more, lines' = (lines ++ more)%list.
Proof.
  unfold pushIfTruthy. destruct (getProp project k) as [v|e]; [|discriminate].
  cbn [rbind]. destruct (truthy v).
  - destruct (ToString v) as [s|e]; [|discriminate]. cbn [rbind].
    intros E. injection E as <-. eauto.
  - intros E. injection E as <-. exists []. now rewrite app_nil_r.
Qed.

Lemma shown1_total (p : JV) (k d : string) :
  nullish p = false -> convertible (getField p k) = true ->
  exists s, shown1 p k d = Ok s.
Proof.
  intros Hn Hc. unfold shown1, getProp, coalesce. rewrite Hn. cbn [rbind].
  destruct (nullish (getField p k)).
  - simpl. eauto.
  - rewrite (ToString_convertible _ Hc). eauto.
Qed.

Lemma shown2_total (p : JV) (k1 k2 d : string) :
  nullish p = false ->
  convertible (getField p k1) = true -> convertible (getField p k2) = true ->
  exists s, shown2 p k1 k2 d = Ok s.
Proof.
  intros Hn H1 H2. unfold shown2, getProp, coalesce. rewrite Hn. cbn [rbind].
  destruct (nullish (getField p k1)) eqn:E1; cbn [rbind].
  - destruct (nullish (getField p k2)).
    + simpl. eauto.
    + rewrite (ToString_convertible _ H2). eauto.
  - rewrite E1, (ToString_convertible _ H1). eauto.
Qed.

Lemma pushIfTruthy_total (project : JV) (k before after : string)
  (lines : list string) :
  nullish project = false -> convertible (getField project k) = true ->
  exists lines', pushIfTruthy project k before after lines = Ok lines'.
Proof.
  intros Hn Hc. unfold pushIfTruthy, getProp. rewrite Hn. cbn [rbind].
  destruct (truthy (getField project k)); [|eauto].
  rewrite (ToString_convertible _ Hc). cbn [rbind]. eauto.
Qed.

(** X20. [renderGet] answers [Project not found.] exactly when it is
    given no entity: on a value that is falsy or not an object it
    returns that sentence, and on an object it never does, whatever the
    object holds: what it returns then starts with the name in bold.  On
    an object whose ten shown fields convert to strings (strings,
    numbers and absent fields do) it does not throw. *)
Theorem renderGet_not_found_without_entity (project : JV) :
  (truthy project && typeofObject project = false ->
   renderGet project = Ok projectNotFound)
  /\ (truthy project && typeofObject project = true ->
      (forall s, renderGet project = Ok s ->
                 s <> projectNotFound /\ exists t, s = "**" ++ t)
      /\ (forallb (fun k => convertible (getField project k)) shownKeys = true ->
          exists s, renderGet project = Ok s)).
Proof.
  unfold renderGet. split.
  - intros E. rewrite <- negb_andb, E. reflexivity.
  - intros E. rewrite <- negb_andb, E. cbn [negb].
    assert (Hn : nullish project = false).
    { destruct project; try reflexivity; discriminate. }
    split.
    + intros s.
      destruct (shown2 project "projectName" "name" "Project") as [name|e];
        [|discriminate]. cbn [rbind].
      destruct (shown1 project "id" emdash) as [id|e]; [|discriminate].
      cbn [rbind].
      destruct (shown1 project "address" emdash) as [addr|e]; [|discriminate].
      cbn [rbind].
      destruct (shown2 project "zoningCode" "zoning_code" emdash) as [zc|e];
        [|discriminate]. cbn [rbind].
      destruct (shown2 project "zoneType" "zone_type" emdash) as [zt|e];
        [|discriminate]. cbn [rbind]. cbv zeta.
      destruct (pushIfTruthy project "notes_summary" _ _ _) as [l1|e] eqn:E1;
        [|discriminate]. cbn [rbind].
      destruct (pushIfTruthy project "notes" _ _ l1) as [l2|e] eqn:E2;
        [|discriminate]. cbn [rbind].
      apply pushIfTruthy_extends in E1 as [m1 ->].
      apply pushIfTruthy_extends in E2 as [m2 ->].
      intros E0. injection E0 as <-.
      split; [discriminate | eexists; reflexivity].
    + cbn [forallb shownKeys]. rewrite !andb_true_iff.
      intros (H1 & H2 & H3 & H4 & H5 & H6 & H7 & H8 & H9 & H10 & _).
      destruct (shown2_total project "projectName" "name" "Project" Hn H1 H2)
        as [name ->]. cbn [rbind].
      destruct (shown1_total project "id" emdash Hn H3) as [id ->].
      cbn [rbind].
      destruct (shown1_total project "address" emdash Hn H4) as [addr ->].
      cbn [rbind].
      destruct (shown2_total project "zoningCode" "zoning_code" emdash Hn H5 H6)
        as [zc ->]. cbn [rbind].
      destruct (shown2_total project "zoneType" "zone_type" emdash Hn H7 H8)
        as [zt ->]. cbn [rbind]. cbv zeta.
      match goal with |- context [pushIfTruthy project "notes_summary" ?b ?a ?l] =>
        destruct (pushIfTruthy_total project "notes_summary" b a l Hn H9)
          as [l1 ->] end.
      cbn [rbind].
      match goal with |- context [pushIfTruthy project "notes" ?b ?a ?l] =>
        destruct (pushIfTruthy_total project "notes" b a l Hn H10)
          as [l2 ->] end.
      cbn [rbind]. eauto.
Qed.

End CardFacts.

(* --------------------------------------------------------------------- *)
(** *** The memory as context of the next invocation                      *)
(* --------------------------------------------------------------------- *)

Section ContextFacts.
Context {B : Builtins} {X : External}.
Variable ENV : Env.

Lemma truthy_field_truthy (v : JV) (k : string) :
  truthy (optGet v k) = true -> truthy v = true.
Proof.
  destruct v as [| |b|n|s|l|fs]; cbn; try discriminate; try reflexivity.
  destruct (k =? "length"); [|discriminate].
  rewrite truthy_length. destruct s; [discriminate | reflexivity].
Qed.

(** What create, update and get leave in [lastProject]. *)
Lemma stored_entity (name : string) (args : JV) (w : World) (c : list Block)
  (w' : World) :
  name = "projects.create" \/ name = "projects.update"
  \/ name = "projects.get" ->
  runTool ENV name args w = (Ok c, w') ->
  exists v, c = [BJson v] /\ lastProject (memory w') = or_else v JNull.
Proof.
  intros [-> | [-> | ->]] Hrun.
  - change (runTool ENV "projects.create" args)
      with (toolCreate ENV (defaultArgs args)) in Hrun.
    unfold toolCreate in Hrun.
    inv_lift Hrun projectName w1 H1. inv_lift Hrun address w2 H2.
    inv_lift Hrun zoningCode w3 H3. inv_lift Hrun zoneType w4 H4.
    inv_lift Hrun notes w5 H5. cbv zeta in Hrun.
    inv_bind Hrun created w6 Hh. inv_bind Hrun u w7 Hs.
    unfold setLastProject in Hs. injection Hs as _ <-.
    unfold ret in Hrun. injection Hrun as <- <-. eauto.
  - change (runTool ENV "projects.update" args)
      with (toolUpdate ENV (defaultArgs args)) in Hrun.
    unfold toolUpdate in Hrun.
    inv_lift Hrun pid w1 H1. inv_lift Hrun f1 w2 H2. inv_lift Hrun f2 w3 H3.
    inv_lift Hrun f3 w4 H4. inv_lift Hrun f4 w5 H5. inv_lift Hrun f5 w6 H6.
    cbv zeta in Hrun.
    inv_bind Hrun updated w7 Hh. inv_bind Hrun u w8 Hs.
    unfold setLastProject in Hs. injection Hs as _ <-.
    unfold ret in Hrun. injection Hrun as <- <-. eauto.
  - change (runTool ENV "projects.get" args)
      with (toolGet ENV (defaultArgs args)) in Hrun.
    unfold toolGet in Hrun.
    inv_bind Hrun pid w1 Hr. inv_bind Hrun fetched w2 Hh.
    inv_bind Hrun project w3 Hn. inv_bind Hrun u w4 Hs.
    unfold setLastProject in Hs. injection Hs as _ <-.
    unfold ret in Hrun. injection Hrun as <- <-. eauto.
Qed.

(** X21. The entity that create, update or get returns is the context of
    the next invocation: when it has a truthy [id], it is what
    [lastProject] holds, and a following [projects.get] or
    [projects.delete] that is given neither an [id] nor a [projectName]
    acts on that identifier, without any search. *)
Theorem returned_entity_is_next_context (name : string) (args : JV)
  (w : World) (entity : JV) (w' : World) (next : JV) (s : string) :
  name = "projects.create" \/ name = "projects.update"
  \/ name = "projects.get" ->
  runTool ENV name args w = (Ok [BJson entity], w') ->
  truthy (optGet entity "id") = true ->
  ToString (getField entity "id") = Ok s ->
  s <> "" ->
  hasNonEmptyString next "id" = false ->
  hasNonEmptyString next "projectName" = false ->
  lastProject (memory w') = entity
  /\ resolveGetId ENV next w' = (Ok s, w')
  /\ exists n, resolveDeleteId ENV next w' = (Ok (s, n), w').
Proof.
  intros Hname Hrun Ht Hs Hne Hid Hpn.
  destruct (stored_entity args w Hname Hrun) as (v & Hc & Hlast).
  injection Hc as <-.
  rewrite (or_else_truthy _ _ (truthy_field_truthy _ _ Ht)) in Hlast.
  split; [exact Hlast|].
  destruct (nameTier_skip ENV next None w') as [Hg Hd].
  { now rewrite Hpn. }
  unfold resolveGetId, resolveDeleteId.
  erewrite !bind_lift_ok by (now apply explicitId_absent).
  erewrite bind_ok by exact Hg. erewrite bind_ok by exact Hd.
  split.
  - apply memoryTiers_lastProject; auto; now rewrite Hlast.
  - eexists. apply memoryTiersDelete_lastProject; auto; now rewrite Hlast.
Qed.

Lemma memoryTiersDelete_last_search (r1 : option string * JV) (w w2 : World) :
  truthy (optGet (lastProject (memory w)) "id") = false ->
  truthy (optGet (lastProject (memory w2)) "id") = false ->
  lastSearchItems (memory w2) = lastSearchItems (memory w) ->
  fst (memoryTiersDelete r1 w2) = fst (memoryTiersDelete r1 w)
  /\ snd (memoryTiersDelete r1 w) = w /\ snd (memoryTiersDelete r1 w2) = w2.
Proof.
  intros H1 H2 Hl.
  unfold memoryTiersDelete, bind, getMemory, ret, lift, throw.
  rewrite H1, H2, !andb_false_r. cbv beta iota zeta. rewrite Hl.
  destruct (idMissing (fst r1)
            && truthy (optGet (nth 0 (lastSearchItems (memory w)) JUndef) "id")).
  - destruct (rbind (getProp (nth 0 (lastSearchItems (memory w)) JUndef) "id") _)
      as [s|e]; [|auto].
    destruct (getProp (nth 0 (lastSearchItems (memory w)) JUndef) "projectName")
      as [n|e]; [|auto].
    cbn [fst snd]. destruct (s =? ""); auto.
  - destruct (fst r1) as [s|]; [|auto]. destruct (s =? ""); auto.
Qed.

(** X22. A deletion does not update the remembered search results.  When
    [projects.delete], given neither an [id] nor a [projectName] and
    without a last project to fall back on, has deleted the first item
    of the last search, that item is still the first of
    [lastSearchItems]: the same invocation, repeated, resolves to the
    identifier it has just deleted. *)
Theorem deleted_item_stays_in_context (args : JV) (w : World)
  (c : list Block) (w' : World) :
  hasNonEmptyString args "id" = false ->
  hasNonEmptyString args "projectName" = false ->
  truthy (optGet (lastProject (memory w)) "id") = false ->
  runTool ENV "projects.delete" args w = (Ok c, w') ->
  exists s n,
    resolveDeleteId ENV (defaultArgs args) w = (Ok (s, n), w)
    /\ truthy (optGet (nth 0 (lastSearchItems (memory w)) JUndef) "id") = true
    /\ lastSearchItems (memory w') = lastSearchItems (memory w)
    /\ resolveDeleteId ENV (defaultArgs args) w' = (Ok (s, n), w').
Proof.
  intros Hid Hpn Hlast Hrun.
  rewrite <- (hasNonEmptyString_defaultArgs args) in Hid, Hpn.
  assert (Hres : forall w0,
             resolveDeleteId ENV (defaultArgs args) w0
             = memoryTiersDelete (None, JNull) w0).
  { intros w0. unfold resolveDeleteId.
    erewrite bind_lift_ok by (now apply explicitId_absent).
    destruct (nameTier_skip ENV (defaultArgs args) None w0) as [_ Hd].
    { now rewrite Hpn. }
    erewrite bind_ok by exact Hd. reflexivity. }
  change (runTool ENV "projects.delete" args)
    with (toolDelete ENV (defaultArgs args)) in Hrun.
  unfold toolDelete in Hrun.
  inv_bind Hrun r w1 Hr. inv_bind Hrun v w2 Hh. inv_bind Hrun u w3 Hs.
  unfold setLastProject in Hs. injection Hs as _ <-.
  inv_lift Hrun msg w4 Hm. unfold ret in Hrun. injection Hrun as _ <-.
  rewrite Hres in Hr.
  assert (Hmem : memory w2 = memory w1).
  { pose proof (preserves_http
                  (request ENV DELETE (ProjectById (fst r)) (withApiKey ENV [])
                           None) w1) as Hp.
    now rewrite Hh in Hp. }
  assert (Hnull : truthy (optGet (lastProject
                     (memory (withLastProject JNull w2))) "id") = false)
    by reflexivity.
  assert (Hitems : lastSearchItems (memory (withLastProject JNull w2))
                   = lastSearchItems (memory w)).
  { cbn [withLastProject memory lastSearchItems].
    destruct (memoryTiersDelete_last_search (None, JNull) w w Hlast Hlast eq_refl)
      as (_ & Hw & _).
    rewrite Hr in Hw. cbn [snd] in Hw. subst w1. now rewrite Hmem. }
  destruct (memoryTiersDelete_last_search (None, JNull) w
              (withLastProject JNull w2) Hlast Hnull Hitems)
    as (Hfst & Hw & Hw2).
  rewrite Hr in Hfst, Hw. cbn [fst snd] in Hfst, Hw. subst w1.
  destruct r as [s n]. exists s, n.
  rewrite !Hres. split; [exact Hr|]. split; [|split; [exact Hitems|]].
  - destruct (truthy (optGet (nth 0 (lastSearchItems (memory w)) JUndef) "id"))
      eqn:E; [reflexivity|].
    rewrite (memoryTiersDelete_empty (None, JNull) w eq_refl Hlast E) in Hr.
    discriminate.
  - destruct (memoryTiersDelete (None, JNull) (withLastProject JNull w2))
      as [res wz] eqn:Ez.
    cbn [fst snd] in Hfst, Hw2. now subst.
Qed.

End ContextFacts.

(* --------------------------------------------------------------------- *)
(** *** The tools over [fetch]                                            *)
(* --------------------------------------------------------------------- *)

Section NetworkFacts.
Context {B : Builtins} {N : Network}.
Variable ENV : Env.

#[local] Existing Instance overNetwork.

Lemma http_over_network (rq : Request) (w : World)
  (f : Result Response) (x : Ext) :
  fetch_backend (ext w) rq = (f, x) ->
  http rq w
  = (httpOutcome f, record x (EvHttp rq (httpOutcome f)) w).
Proof.
  intros Hf. unfold http. cbn [http_step overNetwork]. now rewrite Hf.
Qed.

Lemma httpOutcome_read (res : Response) (body : string) :
  res_text res = Ok body ->
  httpOutcome (Ok res)
  = if negb (res_ok res) then Err (httpError res body)
    else match JSON_parse body with
         | Ok v => Ok v
         | Err _ => Ok (JStr body)
         end.
Proof. intros Ht. unfold httpOutcome. cbn [rbind]. now rewrite Ht. Qed.

Lemma completionOutcome_read (res : Response) (body : string) :
  res_text res = Ok body ->
  completionOutcome (Ok res)
  = if negb (res_ok res) then Err (openAIError res body)
    else (json <-? JSON_parse body ;; Ok (replyText json)).
Proof. intros Ht. unfold completionOutcome. cbn [rbind]. now rewrite Ht. Qed.

Lemma raw_text_is_no_list (body : string) :
  normalizeListPayload (JStr body) = Err invalidListPayload.
Proof. unfold normalizeListPayload. now rewrite orb_true_r. Qed.

(** X23. [http] under [projects.get] with an [id] argument.  A rejected
    [fetch] (the timeout aborts it that way) and an unreadable body fail
    the invocation with that error; a status outside 2xx fails it with
    [HTTP <status> <statusText>: <body>]; the memory is untouched in
    these cases.  A 2xx body that is JSON is the entity.  A 2xx body
    that is not JSON does not fail: the raw text is returned as the
    entity and, unless empty, stored as [lastProject].  The helpers that
    expect a list reject such a text as an invalid list payload. *)
Theorem get_over_fetch (args : JV) (w : World) (id : string)
  (f : Result Response) (x : Ext) :
  hasNonEmptyString args "id" = true ->
  getField args "id" = JStr id ->
  let rq := request ENV GET (ProjectById id) (withApiKey ENV []) None in
  fetch_backend (ext w) rq = (f, x) ->
  let run := runTool ENV "projects.get" args w in
  (forall e,
      f = Err e \/ (exists res, f = Ok res /\ res_text res = Err e) ->
      fst run = Err e /\ memory (snd run) = memory w)
  /\ (forall res body,
        f = Ok res -> res_text res = Ok body -> res_ok res = false ->
        fst run = Err (httpError res body) /\ memory (snd run) = memory w)
  /\ (forall res body e,
        f = Ok res -> res_text res = Ok body -> res_ok res = true ->
        JSON_parse body = Err e ->
        fst run = Ok [BJson (JStr body)]
        /\ lastProject (memory (snd run))
           = (if body =? "" then JNull else JStr body)
        /\ forall name limit w0,
             fetch_backend (ext w0)
               (listRequest ENV [("q", name); ("limit", "1")]) = (f, x) ->
             fetch_backend (ext w0)
               (listRequest ENV [("limit", NumberToString limit)]) = (f, x) ->
             fst (searchFirstByName ENV (JStr name) w0)
             = Err invalidListPayload
             /\ fst (fetchSomeProjects ENV limit w0)
                = Err invalidListPayload)
  /\ (forall res body entity,
        f = Ok res -> res_text res = Ok body -> res_ok res = true ->
        JSON_parse body = Ok entity ->
        OPENAI_API_KEY ENV = "" ->
        fst run = Ok [BJson entity]
        /\ lastProject (memory (snd run)) = or_else entity JNull).
Proof.
  intros Hid Hfield rq Hf run.
  assert (Hargs : defaultArgs args = args).
  { destruct args; try reflexivity. discriminate. }
  assert (Hres : resolveGetId ENV args w = (Ok id, w)).
  { destruct (explicitId_given _ Hid) as (s & Hs & Hne & He).
    rewrite Hfield in Hs. injection Hs as <-.
    unfold resolveGetId. erewrite bind_lift_ok by exact He.
    destruct (nameTier_skip ENV args (Some id) w) as [Hg _].
    { now rewrite (idMissing_given Hne). }
    erewrite bind_ok by exact Hg. now apply memoryTiers_given. }
  assert (Hrun : run
                 = match httpOutcome f with
                   | Ok fetched =>
                       (project <- summarizeNotes ENV fetched ;;
                        setLastProject (or_else project JNull) ;;;
                        ret [BJson project])
                         (record x (EvHttp rq (httpOutcome f)) w)
                   | Err e => (Err e, record x (EvHttp rq (httpOutcome f)) w)
                   end).
  { subst run.
    change (runTool ENV "projects.get" args)
      with (toolGet ENV (defaultArgs args)).
    rewrite Hargs. unfold toolGet. erewrite bind_ok by exact Hres.
    fold rq. unfold bind at 1. rewrite (http_over_network _ _ Hf).
    destruct (httpOutcome f); reflexivity. }
  rewrite Hrun. clear Hrun run.
  repeat apply conj.
  - intros e [-> | (res & -> & Ht)]; cbn [httpOutcome rbind].
    + split; reflexivity.
    + rewrite Ht. split; reflexivity.
  - intros res body -> Ht Hok. rewrite (httpOutcome_read _ Ht), Hok.
    split; reflexivity.
  - intros res body e -> Ht Hok Hp.
    rewrite (httpOutcome_read _ Ht), Hok, Hp. cbn [negb].
    unfold summarizeNotes. cbn [optGet nullish getField truthy].
    assert (Hl : ("notes" =? "length") = false) by reflexivity.
    rewrite Hl. cbn [truthy]. rewrite andb_false_r.
    unfold bind, ret, setLastProject. cbn [fst snd].
    split; [reflexivity|]. split.
    + cbn [withLastProject memory lastProject]. unfold or_else. cbn [truthy].
      destruct (body =? ""); reflexivity.
    + intros name limit w0 H1 H2.
      unfold searchFirstByName, fetchSomeProjects, bind, lift.
      cbn [ToString]. rewrite (http_over_network _ _ H1).
      rewrite (http_over_network _ _ H2).
      rewrite (httpOutcome_read _ Ht), Hok, Hp. cbn [negb].
      rewrite raw_text_is_no_list. split; reflexivity.
  - intros res body entity -> Ht Hok Hp Hkey.
    rewrite (httpOutcome_read _ Ht), Hok, Hp. cbn [negb].
    unfold summarizeNotes. rewrite Hkey. cbn [String.eqb negb andb].
    unfold bind, ret, setLastProject. cbn [fst snd].
    split; reflexivity.
Qed.

Lemma replyText_there (json : JV) : nullish (replyText json) = false.
Proof.
  unfold replyText, coalesce.
  destruct (nullish (optGet _ "content")) eqn:E; [reflexivity | exact E].
Qed.

(** X24. [callOpenAI] under [ai.summarize].  A rejected [fetch] fails
    the invocation with that error; a status outside 2xx fails it with
    [OpenAI API error <status>: <body>]; a 2xx body that is not JSON
    fails it with the parser's error (here, unlike in [http], the text
    is not passed on).  Otherwise the invocation returns one text block
    whose text is the content of the first choice of the completion; it
    is never [undefined] or [null]: a completion without choices, or
    without a message or a content in the first one, gives the empty
    string. *)
Theorem summarize_over_fetch (args : JV) (w : World)
  (input : string) (f : Result Response) (x : Ext) :
  OPENAI_API_KEY ENV <> "" ->
  requireString args "text" = Ok input ->
  let rq := chatRequest ENV (summarizePrompt input) 180 defaultTemperature in
  fetch_completion (ext w) rq = (f, x) ->
  let run := runTool ENV "ai.summarize" args w in
  (forall e, f = Err e -> fst run = Err e)
  /\ (forall res body,
        f = Ok res -> res_text res = Ok body -> res_ok res = false ->
        fst run = Err (openAIError res body))
  /\ (forall res body e,
        f = Ok res -> res_text res = Ok body -> res_ok res = true ->
        JSON_parse body = Err e ->
        fst run = Err e)
  /\ (forall res body json,
        f = Ok res -> res_text res = Ok body -> res_ok res = true ->
        JSON_parse body = Ok json ->
        fst run = Ok [BText (replyText json)]
        /\ nullish (replyText json) = false
        /\ (nullish (optGet json "choices") = true -> replyText json = JStr "")
        /\ (forall choice rest message content,
              getField json "choices" = JArr (choice :: rest) ->
              getField choice "message" = message ->
              getField message "content" = content ->
              nullish json = false -> nullish choice = false ->
              nullish message = false ->
              replyText json = coalesce content (JStr ""))).
Proof.
  intros Hkey Hin rq Hf run. apply String.eqb_neq in Hkey.
  assert (Hargs : defaultArgs args = args).
  { destruct args; try reflexivity. discriminate. }
  assert (Hrun : fst run = rbind (completionOutcome f)
                                 (fun summary => Ok [BText summary])).
  { subst run.
    change (runTool ENV "ai.summarize" args)
      with (toolSummarize ENV (defaultArgs args)).
    rewrite Hargs. unfold toolSummarize.
    erewrite bind_lift_ok by exact Hin. rewrite Hkey.
    unfold bind, callOpenAI. rewrite Hkey. fold rq.
    cbn [chat_step overNetwork]. rewrite Hf.
    destruct (completionOutcome f); reflexivity. }
  rewrite Hrun. repeat apply conj.
  - intros e ->. reflexivity.
  - intros res body -> Ht Hok. rewrite (completionOutcome_read _ Ht), Hok.
    reflexivity.
  - intros res body e -> Ht Hok Hp.
    rewrite (completionOutcome_read _ Ht), Hok, Hp. reflexivity.
  - intros res body json -> Ht Hok Hp.
    rewrite (completionOutcome_read _ Ht), Hok, Hp. repeat apply conj.
    + reflexivity.
    + apply replyText_there.
    + intros Hn. unfold replyText.
      destruct (optGet json "choices"); try discriminate; reflexivity.
    + intros choice rest message content Hc Hm Hct Hj Hch Hmsg.
      assert (H1 : optGet json "choices" = JArr (choice :: rest))
        by (unfold optGet; now rewrite Hj).
      assert (H2 : firstChoice (JArr (choice :: rest)) = choice)
        by reflexivity.
      assert (H3 : optGet choice "message" = message)
        by (unfold optGet; now rewrite Hch).
      assert (H4 : optGet message "content" = content)
        by (unfold optGet; now rewrite Hmsg).
      unfold replyText. now rewrite H1, H2, H3, H4.
Qed.

End NetworkFacts.

(* ===================================================================== *)
(** ** The theorems at work on the scripted world                         *)
(* ===================================================================== *)

Import Sample.



(** C3 (the code does not do what the claim says).  With an entity that
    carries its identifier under [projectId] only in [lastProject] and at
    the head of [lastSearchItems], [projects.get] and [projects.delete]
    called without arguments fail and ask for an id or a name, without
    any request: the two memory tiers read [id] alone.  So does a
    [projects.delete] that follows a search which returned that entity.
    The search by name tier and [projects.deleteRandom] do read that
    same entity's identifier. *)
Theorem memory_tiers_ignore_projectId :
  runTool env "projects.get" argsNone (world memPine [] [] [])
  = (Err provideIdOrName, world memPine [] [] [])
  /\ runTool env "projects.delete" argsNone (world memPine [] [] [])
     = (Err provideIdOrName, world memPine [] [] [])
  /\ (let w1 := snd (runTool env "projects.search" argsNone
                        (world initialMemory [Ok (JArr [pine])] [] [])) in
      lastSearchItems (memory w1) = [pine]
      /\ fst (runTool env "projects.delete" argsNone w1)
         = Err provideIdOrName)
  /\ identifierOf pine = Ok "7"
  /\ fst (resolveGetId env argsName
            (world initialMemory [Ok (JArr [pine])] [] []))
     = Ok "7"
  /\ fst (runTool env "projects.deleteRandom" argsNone
            (world initialMemory [Ok (JArr [pine]); Ok JNull] [] []))
     = Ok (text ("Deleted random project " ++ dq ++ "Pine Rd" ++ dq
                   ++ " (id: 7).")).
Proof. repeat split. Qed.

(** C4 fails as stated: with a credential, [projects.get] on an entity
    with notes stores the entity with its [notes_summary], which is not
    the value the backend call returned. *)
Lemma get_stores_summarized_entity :
  let w0 := world initialMemory [Ok noted] [Ok (JStr "short")] [] in
  let run := runTool envWithKey "projects.get" argsId w0 in
  fst run = Ok [BJson notedSummary]
  /\ nth 0 (trace (snd run)) (EvRandom 0)
     = EvHttp (getRequest envWithKey "42") (Ok noted)
  /\ lastProject (memory (snd run)) = notedSummary
  /\ lastProject (memory (snd run)) <> noted.
Proof. repeat split. discriminate. Qed.

Lemma lastProject_after_success_witness :
  (let w0 := world memOak [Ok oak] [] [] in
   runTool env "projects.create" argsCreate w0
   = (Ok [BJson oak], snd (runTool env "projects.create" argsCreate w0))
   /\ lastProject (memory (snd (runTool env "projects.create" argsCreate w0)))
      = oak)
  /\ (let w0 := world initialMemory [Ok oak] [] [] in
      runTool env "projects.update" argsUpdate w0
      = (Ok [BJson oak], snd (runTool env "projects.update" argsUpdate w0))
      /\ lastProject (memory (snd (runTool env "projects.update" argsUpdate w0)))
         = oak)
  /\ (let w0 := world initialMemory [Ok noted] [Ok (JStr "short")] [] in
      runTool envWithKey "projects.get" argsId w0
      = (Ok [BJson notedSummary],
         snd (runTool envWithKey "projects.get" argsId w0))
      /\ lastProject (memory (snd (runTool envWithKey "projects.get" argsId w0)))
         = notedSummary)
  /\ (let w0 := world memOak [Ok JNull] [] [] in
      fst (runTool env "projects.delete" argsNone w0)
      = Ok (text ("Deleted project " ++ dq ++ "Oak St" ++ dq ++ " (id: 1)."))
      /\ lastProject (memory (snd (runTool env "projects.delete" argsNone w0)))
         = JNull)
  /\ (let w0 := world memOak [Ok (JArr [oak]); Ok JNull] [] [] in
      fst (runTool env "projects.deleteRandom" argsNone w0)
      = Ok (text ("Deleted random project " ++ dq ++ "Oak St" ++ dq
                    ++ " (id: 1)."))
      /\ lastProject
           (memory (snd (runTool env "projects.deleteRandom" argsNone w0)))
         = JNull).
Proof.
  split; [|split; [|split; [|split]]]; cbv zeta.
  - split; [reflexivity|].
    destruct (proj1 (lastProject_after_success env argsCreate
                       (world memOak [Ok oak] [] []) _ _) eq_refl)
      as (rq & created & w1 & _ & _ & Hc & _ & Hobj).
    injection Hc as <-. exact (Hobj _ eq_refl).
  - split; [reflexivity|].
    destruct (proj1 (proj2 (lastProject_after_success env argsUpdate
                              (world initialMemory [Ok oak] [] []) _ _))
                eq_refl)
      as (rq & updated & w1 & _ & _ & Hc & _ & Hobj).
    injection Hc as <-. exact (Hobj _ eq_refl).
  - split; [reflexivity|].
    destruct (proj1 (proj2 (proj2 (lastProject_after_success envWithKey argsId
                 (world initialMemory [Ok noted] [Ok (JStr "short")] []) _ _)))
                eq_refl)
      as (pid & w1 & fetched & w2 & project & _ & _ & Hc & _ & Hobj & _).
    injection Hc as <-. exact (Hobj _ eq_refl).
  - split; [reflexivity|].
    exact (proj1 (proj2 (proj2 (proj2 (lastProject_after_success env argsNone
             (world memOak [Ok JNull] [] []) _ _)))) eq_refl).
  - split; [reflexivity|].
    exact (proj2 (proj2 (proj2 (proj2 (lastProject_after_success env argsNone
             (world memOak [Ok (JArr [oak]); Ok JNull] [] []) _ _)))) eq_refl).
Defined.

(** A search without result empties a list that held an item; a get
    leaves the list alone. *)
Lemma search_overwrites_lastSearchItems_witness :
  (let w0 := world memSearch [nothing] [] [] in
   runTool env "projects.search" argsName w0
   = (Ok [BJson (payloadJson {| items := []; total := NFin 0 |})],
      snd (runTool env "projects.search" argsName w0))
   /\ lastSearchItems (memory w0) = [oak]
   /\ lastSearchItems (memory (snd (runTool env "projects.search" argsName w0)))
      = [])
  /\ ("projects.get" <> "projects.search"
      /\ lastSearchItems
           (memory (snd (runTool env "projects.get" argsId
                           (world memSearch [Ok oak] [] []))))
         = [oak]).
Proof.
  split; cbv zeta.
  - split; [reflexivity | split; [reflexivity|]].
    set (run := runTool env "projects.search" argsName
                  (world memSearch [nothing] [] [])).
    assert (Hrun : run
                   = (Ok [BJson (payloadJson {| items := [];
                                                total := NFin 0 |})],
                      snd run)) by reflexivity.
    destruct (proj1 (search_overwrites_lastSearchItems env argsName
                       (world memSearch [nothing] [] [])) _ _ Hrun)
      as (rq & result & payload & w1 & Hh & Hn & Hc & _ & Hl & _).
    rewrite Hl. injection Hc as Hi _. now rewrite <- Hi.
  - split; [discriminate|].
    exact (proj2 (search_overwrites_lastSearchItems env argsId
                    (world memSearch [Ok oak] [] []))
             "projects.get" ltac:(discriminate)).
Defined.

(** The summary call fails: the get succeeds with the error attached,
    whichever the error: one with a message of its own, the network
    failure of an unanswered call, one without message; without a
    credential no call is made. *)
Lemma get_summary_best_effort_witness :
  (let w0 := world initialMemory [Ok noted] [Err (Error "boom")] [] in
   negb (OPENAI_API_KEY envWithKey =? "") && truthy (optGet noted "notes")
   = true
   /\ fst (runTool envWithKey "projects.get" argsId w0)
      = Ok [BJson notedError]
   /\ lastProject (memory (snd (runTool envWithKey "projects.get" argsId w0)))
      = notedError)
  /\ (let w0 := world initialMemory [Ok noted] [] [] in
      runTool envWithKey "projects.get" argsId w0
      = (Ok [BJson (JObj [ ("id", JStr "1"); ("notes", JStr "long notes");
                           ("notes_summary_error", JStr "fetch failed") ])],
         snd (runTool envWithKey "projects.get" argsId w0)))
  /\ (let w0 := world initialMemory [Ok noted] [Err (mkErr ErrSyntaxError "")] []
      in
      fst (runTool envWithKey "projects.get" argsId w0)
      = Ok [BJson (JObj [ ("id", JStr "1"); ("notes", JStr "long notes");
                          ("notes_summary_error", JStr "SyntaxError") ])])
  /\ (let w0 := world initialMemory [Ok noted] [Err (Error "boom")] [] in
      negb (OPENAI_API_KEY env =? "") && truthy (optGet noted "notes") = false
      /\ runTool env "projects.get" argsId w0
         = (Ok [BJson noted],
            withLastProject noted (snd (http (getRequest env "42") w0)))).
Proof.
  repeat apply conj; cbv zeta.
  - reflexivity.
  - destruct (@get_summary_best_effort _ _ envWithKey argsId
                (world initialMemory [Ok noted] [Err (Error "boom")] [])
                "42" _ noted _ eq_refl eq_refl) as (Hyes & _ & _).
    destruct (Hyes eq_refl "long notes" _ _ eq_refl eq_refl)
      as (project & Hp & Hrun).
    injection Hp as <-. rewrite Hrun. reflexivity.
  - destruct (@get_summary_best_effort _ _ envWithKey argsId
                (world initialMemory [Ok noted] [Err (Error "boom")] [])
                "42" _ noted _ eq_refl eq_refl) as (Hyes & _ & _).
    destruct (Hyes eq_refl "long notes" _ _ eq_refl eq_refl)
      as (project & Hp & Hrun).
    injection Hp as <-. rewrite Hrun. reflexivity.
  - destruct (@get_summary_best_effort _ _ envWithKey argsId
                (world initialMemory [Ok noted] [] [])
                "42" _ noted _ eq_refl eq_refl) as (Hyes & _ & _).
    destruct (Hyes eq_refl "long notes" _ _ eq_refl eq_refl)
      as (project & Hp & Hrun).
    injection Hp as <-. rewrite Hrun. reflexivity.
  - destruct (@get_summary_best_effort _ _ envWithKey argsId
                (world initialMemory [Ok noted]
                   [Err (mkErr ErrSyntaxError "")] [])
                "42" _ noted _ eq_refl eq_refl) as (Hyes & _ & _).
    destruct (Hyes eq_refl "long notes" _ _ eq_refl eq_refl)
      as (project & Hp & Hrun).
    injection Hp as <-. rewrite Hrun. reflexivity.
  - reflexivity.
  - destruct (@get_summary_best_effort _ _ env argsId
                (world initialMemory [Ok noted] [Err (Error "boom")] [])
                "42" _ noted _ eq_refl eq_refl) as (_ & _ & Hno).
    exact (Hno eq_refl).
Defined.


(** C8 fails as stated: on a reply with two objects in prose the code
    parses from the first opening brace to the last closing brace, which
    is not JSON, and fails; the first balanced substring is the first
    object, which parses. *)
Lemma router_reply_not_first_balanced :
  JSON_parse routerReply = Err syntaxError
  /\ firstBalanced routerReply = Some firstPlanText
  /\ JSON_parse firstPlanText = Ok (JObj [("tool", JStr "projects.search")])
  /\ matchBraces routerReply = Some firstToLastText
  /\ firstToLastText <> firstPlanText
  /\ parsePlan routerReply = Err syntaxError.
Proof. repeat split. discriminate. Qed.

Lemma parsePlan_first_to_last_brace_witness :
  (JSON_parse firstPlanText = Ok (JObj [("tool", JStr "projects.search")])
   /\ parsePlan firstPlanText = Ok (JObj [("tool", JStr "projects.search")]))
  /\ (JSON_parse ("Plan: " ++ firstPlanText ++ " done") = Err syntaxError
      /\ parsePlan ("Plan: " ++ firstPlanText ++ " done")
         = Ok (JObj [("tool", JStr "projects.search")]))
  /\ (JSON_parse "no plan" = Err syntaxError
      /\ ~ braceDelimited "no plan"
      /\ parsePlan "no plan" = Err noJson).
Proof.
  assert (Hnone : ~ braceDelimited "no plan").
  { intros H. apply braceDelimited_split in H
      as (pre & mid & post & E & _ & _).
    apply (f_equal (occurs braceOpen)) in E. rewrite occurs_app in E.
    rewrite occurs_head, orb_true_r in E. discriminate. }
  split; [|split].
  - split; [reflexivity|].
    exact (proj1 (parsePlan_first_to_last_brace firstPlanText) _ eq_refl).
  - split; [reflexivity|].
    rewrite (proj1 (proj2 (parsePlan_first_to_last_brace (B := builtins)
                             ("Plan: " ++ firstPlanText ++ " done")))
               syntaxError "Plan: "
               (dq ++ "tool" ++ dq ++ ":" ++ dq ++ "projects.search" ++ dq)
               " done" eq_refl eq_refl eq_refl eq_refl).
    reflexivity.
  - split; [reflexivity | split; [exact Hnone|]].
    exact (proj1 (proj2 (proj2 (parsePlan_first_to_last_brace "no plan")))
             syntaxError eq_refl Hnone).
Defined.

(** The normalizer on a nested batch with its count as a string, on a
    total that is no number, on a value that is no object, and on a
    total that does not convert. *)
Lemma normalizeListPayload_spec_witness :
  normalizeListPayload
    (JObj [("data", JObj [("items", JArr [oak; pine]); ("count", JStr "7")])])
  = Ok {| items := [oak; pine]; total := NFin 7 |}
  /\ normalizeListPayload manyOaks = Ok {| items := [oak]; total := NFin 1 |}
  /\ normalizeListPayload (JStr "oak")
     = Err (Error "Invalid list payload: expected array or object")
  /\ normalizeListPayload
       (JObj [("rows", JArr []); ("total", JArr [JObj [("toString", JNull)]])])
     = Err (TypeError "Cannot convert object to primitive value").
Proof.
  repeat apply conj.
  - rewrite (proj1 (normalizeListPayload_spec _)); [reflexivity|].
    intros obj its H. injection H as <- <-. reflexivity.
  - rewrite (proj1 (normalizeListPayload_spec _)); [reflexivity|].
    intros obj its H. injection H as <- <-. reflexivity.
  - rewrite (proj1 (normalizeListPayload_spec _)); [reflexivity|].
    intros obj its H. discriminate H.
  - eapply (proj2 (normalizeListPayload_spec _)); reflexivity.
Defined.

(** C2 fails as stated: the total of the batch is an object with a
    [toString] key; section 4.3 gives the batch with its length for
    total, the normalizer throws. *)
Lemma normalizeListPayload_throws_on_total :
  let value :=
    JObj [ ("items", JArr [JNum (NFin 1); JNum (NFin 2)]);
           ("total", JObj [("toString", JNum (NFin 1))]) ] in
  normalize_spec value
  = Ok {| items := [JNum (NFin 1); JNum (NFin 2)]; total := NFin 2 |}
  /\ normalizeListPayload value
     = Err (TypeError "Cannot convert object to primitive value").
Proof. split; reflexivity. Qed.

(** Six results, of which five are shown: the heading and the note carry
    the total, the second row has dashes for its missing fields, the
    third a backslash in front of its pipe; and the scenario of
    section 8, one row and no note. *)
Lemma renderSearch_table_witness :
  forallb displayable (firstn 5 sixResults) = true
  /\ renderSearch (payloadJson {| items := sixResults; total := NFin 6 |})
     = Ok ("**Found 6 projects**" ++ lineFeed ++ lineFeed
             ++ "| Project | Address | Zoning | Zone Type | ID |" ++ lineFeed
             ++ "|---|---|---|---|---|" ++ lineFeed
             ++ "| Oak St | 1 Oak | R1 | Residential | `1` |" ++ lineFeed
             ++ "| Pine Rd | " ++ placeholder ++ " | " ++ placeholder
             ++ " | " ++ placeholder ++ " | `7` |" ++ lineFeed
             ++ "| Elm\|Ash | 3 Elm | C2 | Commercial | `3` |" ++ lineFeed
             ++ "| Oak St | 1 Oak | R1 | Residential | `1` |" ++ lineFeed
             ++ "| Pine Rd | " ++ placeholder ++ " | " ++ placeholder
             ++ " | " ++ placeholder ++ " | `7` |"
             ++ lineFeed ++ lineFeed ++ "_Showing 5 of 6 results._")
  /\ renderSearch (payloadJson {| items := [oak]; total := NFin 1 |})
     = Ok ("**Found 1 project**" ++ lineFeed ++ lineFeed
             ++ "| Project | Address | Zoning | Zone Type | ID |" ++ lineFeed
             ++ "|---|---|---|---|---|" ++ lineFeed
             ++ "| Oak St | 1 Oak | R1 | Residential | `1` |").
Proof.
  split; [reflexivity|]. split.
  - rewrite (proj1 (renderSearch_table sixResults (NFin 6)) eq_refl).
    reflexivity.
  - rewrite (proj1 (renderSearch_table [oak] (NFin 1)) eq_refl).
    reflexivity.
Defined.

(** C9 fails as stated: the normalizer accepts a batch that holds
    [null], and the renderer throws on the normalized payload. *)
Lemma renderSearch_throws_on_null_item :
  normalizeListPayload (JArr [JNull])
  = Ok {| items := [JNull]; total := NFin 1 |}
  /\ renderSearch (payloadJson {| items := [JNull]; total := NFin 1 |})
     = Err (TypeError "Cannot read properties of null (reading 'projectName')").
Proof. split; reflexivity. Qed.

(** C10 fails as stated: the batch holds an entity whose name does not
    convert to a string; the backend deletes it, [lastProject] is
    cleared, and the invocation then throws. *)
Lemma deleteRandom_failure_clears_lastProject :
  let w0 := world memOak [Ok (JArr [shadowed]); Ok JNull] [] [] in
  let run := runTool env "projects.deleteRandom" argsNone w0 in
  fst run = Err cannotConvert
  /\ lastProject (memory w0) = oak
  /\ lastProject (memory (snd run)) = JNull
  /\ memory (snd run) <> memory w0
  /\ nth 2 (trace (snd run)) (EvRandom 0)
     = EvHttp (deleteRequest env "1") (Ok JNull).
Proof. repeat split. discriminate. Qed.

(** A failure before the backend call, and the failure after it. *)
Lemma failure_leaves_memory_or_cleared_witness :
  (let w0 := world memSearch [] [] [] in
   runTool env "projects.get" argsName w0
   = (Err fetchFailed, snd (runTool env "projects.get" argsName w0))
   /\ memory (snd (runTool env "projects.get" argsName w0)) = memory w0)
  /\ (let w0 := world memOak [Ok (JArr [shadowed]); Ok JNull] [] [] in
      let run := runTool env "projects.deleteRandom" argsNone w0 in
      run = (Err cannotConvert, snd run)
      /\ clearedByDelete (memory w0) cannotConvert (snd run)).
Proof.
  split; cbv zeta.
  - split; [reflexivity|].
    destruct (failure_leaves_memory_or_cleared env "projects.get" argsName
                (world memSearch [] [] []) eq_refl) as [H | [[H | H] _]].
    + exact H.
    + discriminate H.
    + discriminate H.
  - split; [reflexivity|].
    destruct (failure_leaves_memory_or_cleared env "projects.deleteRandom"
                argsNone
                (world memOak [Ok (JArr [shadowed]); Ok JNull] [] [])
                eq_refl) as [H | [_ H]].
    + discriminate H.
    + exact H.
Defined.

(** An unregistered name is refused before anything happens. *)
Lemma dispatcher_agrees_with_registry_witness :
  ~ In "projects.rename" toolNames
  /\ runTool env "projects.rename" argsNone (world memOak [] [] [])
     = (Err (unknownTool "projects.rename"), world memOak [] [] []).
Proof.
  assert (Hn : ~ In "projects.rename" toolNames).
  { unfold toolNames. simpl. intuition discriminate. }
  split; [exact Hn|].
  exact (proj1 (proj2 (@dispatcher_agrees_with_registry builtins scripted env
                         "projects.rename" argsNone (world memOak [] [] [])))
           Hn).
Defined.

(** A create that gives the name only stops at the address. *)
Lemma required_arguments_enforced_witness :
  In createEntry tools
  /\ In "zoneType" (requiredKeys createEntry)
  /\ hasNonEmptyString argsName "zoneType" = false
  /\ exists key,
       In key (requiredKeys createEntry)
       /\ runTool env "projects.create" argsName (world memOak [] [] [])
          = (Err (missingOrInvalid key), world memOak [] [] []).
Proof.
  assert (Ht : In createEntry tools) by (right; left; reflexivity).
  assert (Hk : In "zoneType" (requiredKeys createEntry)) by (simpl; auto).
  split; [exact Ht|]. split; [exact Hk|]. split; [reflexivity|].
  destruct (@required_arguments_enforced builtins scripted env createEntry
              "zoneType" argsName (world memOak [] [] []) Ht Hk eq_refl)
    as (k & Hin & _ & Hrun).
  exists k. split; assumption.
Defined.

Lemma requireString_trimmed_witness :
  requireString argsText "text" = Ok "long text"
  /\ "long text" <> ""
  /\ trim "long text" = "long text".
Proof.
  split; [reflexivity|].
  destruct (proj1 (proj2 (requireString_trimmed argsText "text"))
              "long text" eq_refl) as (Hne & Htrim & _).
  split; assumption.
Defined.

(** An update of the address alone. *)
Lemma update_sends_provided_fields_witness :
  let w0 := world initialMemory [Ok oak] [] [] in
  requireString argsUpdate "id" = Ok "1"
  /\ fst (runTool env "projects.update" argsUpdate w0) = Ok [BJson oak]
  /\ trace (snd (runTool env "projects.update" argsUpdate w0))
     = [EvHttp (request env PUT (ProjectById "1") (jsonHeaders env)
                        (Some (JObj [("address", JStr "1 Oak")])))
               (Ok oak)].
Proof.
  cbv zeta. split; [reflexivity|].
  destruct (@update_sends_provided_fields builtins scripted env argsUpdate
              (world initialMemory [Ok oak] [] []) "1" (Ok oak) _
              eq_refl eq_refl eq_refl) as [Hrun _].
  rewrite Hrun. split; reflexivity.
Defined.

Lemma create_sends_trimmed_fields_witness :
  let w0 := world initialMemory [Ok oak] [] [] in
  requireString argsCreate "projectName" = Ok "Oak St"
  /\ fst (runTool env "projects.create" argsCreate w0) = Ok [BJson oak]
  /\ trace (snd (runTool env "projects.create" argsCreate w0))
     = [EvHttp (request env POST (Projects []) (jsonHeaders env)
                        (Some argsCreate))
               (Ok oak)].
Proof.
  cbv zeta. split; [reflexivity|].
  rewrite (@create_sends_trimmed_fields builtins scripted env argsCreate
             (world initialMemory [Ok oak] [] []) "Oak St" "1 Oak" "R1"
             "Residential" (Ok oak) _
             eq_refl eq_refl eq_refl eq_refl eq_refl eq_refl).
  split; reflexivity.
Defined.

(** The filter and the limit are sent; the page, given as a string, is
    not. *)
Lemma search_query_from_arguments_witness :
  let w0 := world initialMemory [nothing] [] [] in
  argsQuery <> JNull
  /\ trace (snd (runTool env "projects.search" argsQuery w0))
     = [EvHttp (listRequest env [("q", "oak"); ("limit", "5")]) nothing].
Proof.
  cbv zeta. split; [discriminate|].
  exact (proj1 (@search_query_from_arguments builtins scripted env argsQuery
                  (world initialMemory [nothing] [] []) nothing _
                  ltac:(discriminate) eq_refl eq_refl)).
Defined.

Lemma summarize_one_completion_witness :
  requireString argsText "text" = Ok "long text"
  /\ runTool env "ai.summarize" argsText (world memOak [] [] [])
     = (Err notConfigured, world memOak [] [] [])
  /\ fst (runTool envWithKey "ai.summarize" argsText
            (world memOak [] [Ok (JStr "- short")] []))
     = Ok [BText (JStr "- short")].
Proof.
  split; [reflexivity|]. split.
  - exact (proj1 (@summarize_one_completion builtins scripted env argsText
                    (world memOak [] [] []) "long text" eq_refl) eq_refl).
  - rewrite (proj1 (proj2 (@summarize_one_completion builtins scripted
                             envWithKey argsText
                             (world memOak [] [Ok (JStr "- short")] [])
                             "long text" eq_refl))
               ltac:(discriminate) (Ok (JStr "- short")) _ eq_refl).
    reflexivity.
Defined.

(** An unknown tool through the [CallTool] handler. *)
Lemma callTool_never_throws_witness :
  callToolHandler env (JObj [("name", JStr "projects.rename")])
    (world memOak [] [] [])
  = (Ok {| isError := true;
           resultContent :=
             text "MCP error -32601: Unknown tool: projects.rename" |},
     world memOak [] [] []).
Proof.
  rewrite (proj2 (@callTool_never_throws builtins host scripted env
                    (JObj [("name", JStr "projects.rename")])
                    (world memOak [] [] []))
             "projects.rename" eq_refl eq_refl).
  reflexivity.
Defined.

(** A search without result through POST /tool. *)
Lemma tool_route_runs_the_tool_witness :
  let w0 := world memOak [nothing] [] [] in
  @readJson bridgeBuiltins toolBody = Ok (JObj [("name", JStr "projects.search")])
  /\ fst (@bridge bridgeBuiltins host scripted env (postTool toolBody) w0)
     = Ok (send 200
             (JObj [ ("content",
                      JArr [blockValue
                              (BJson (payloadJson {| items := [];
                                                     total := NFin 0 |}))]);
                     ("human", JStr noMatching) ])).
Proof.
  cbv zeta. split; [reflexivity|].
  unfold postTool.
  rewrite (@tool_route_runs_the_tool bridgeBuiltins host scripted env toolBody
             (world memOak [nothing] [] [])
             (JObj [("name", JStr "projects.search")]) "projects.search"
             eq_refl eq_refl eq_refl eq_refl).
  reflexivity.
Defined.

Lemma front_ends_agree_witness :
  let w0 := world memSearch [oneOak] [] [] in
  let params := JObj [("name", JStr "projects.search")] in
  @readJson bridgeBuiltins toolBody = Ok params
  /\ snd (@bridge bridgeBuiltins host scripted env (postTool toolBody) w0)
     = snd (@callToolHandler bridgeBuiltins host scripted env params w0).
Proof.
  cbv zeta. split; [reflexivity|].
  exact (proj1 (@front_ends_agree bridgeBuiltins host scripted env toolBody
                  (world memSearch [oneOak] [] [])
                  (JObj [("name", JStr "projects.search")]) "projects.search"
                  eq_refl eq_refl eq_refl ltac:(discriminate))).
Defined.

(** The router plans a search, which finds nothing. *)
Lemma chat_route_plans_then_runs_witness :
  let w0 := world memOak [nothing] [Ok (JStr firstPlanText)] [] in
  @readJson bridgeBuiltins chatBody = Ok (JObj [("text", JStr "find oak")])
  /\ @routerPlan bridgeBuiltins firstPlanText
     = Ok (JObj [("tool", JStr "projects.search")])
  /\ fst (@bridge bridgeBuiltins host scripted envWithKey (postChat chatBody) w0)
     = Ok (send 200
             (JObj [ ("plan", JObj [("tool", JStr "projects.search")]);
                     ("content",
                      JArr [blockValue
                              (BJson (payloadJson {| items := [];
                                                     total := NFin 0 |}))]);
                     ("human", JStr noMatching) ])).
Proof.
  cbv zeta. split; [reflexivity|]. split; [reflexivity|].
  unfold postChat.
  rewrite (proj2 (proj2 (@chat_route_plans_then_runs bridgeBuiltins host
                           scripted envWithKey chatBody
                           (world memOak [nothing] [Ok (JStr firstPlanText)] [])
                           (JObj [("text", JStr "find oak")]) "find oak"
                           (Ok (JStr firstPlanText)) _
                           ltac:(discriminate) eq_refl eq_refl eq_refl
                           ltac:(discriminate) eq_refl))
             firstPlanText (JObj [("tool", JStr "projects.search")])
             "projects.search" eq_refl eq_refl eq_refl).
  reflexivity.
Defined.

(** Without a credential the body of POST /chat is not even parsed. *)
Lemma bridge_refusals_witness :
  @readJson bridgeBuiltins "no json" = Err syntaxError
  /\ @bridge bridgeBuiltins host scripted env (postChat "no json")
       (world memOak [] [] [])
     = (Ok (send 400 (errorPayload "OpenAI not configured")),
        world memOak [] [] [])
  /\ @bridge bridgeBuiltins host scripted env (postTool "no json")
       (world memOak [] [] [])
     = (Ok (send 500 (errorPayload "Unexpected token")),
        world memOak [] [] []).
Proof.
  split; [reflexivity|]. split.
  - exact (proj1 (@bridge_refusals bridgeBuiltins host scripted env "no json"
                    (world memOak [] [] [])) eq_refl).
  - exact (proj1 (proj1 (proj2 (@bridge_refusals bridgeBuiltins host scripted
                                  env "no json" (world memOak [] [] [])))
                    syntaxError eq_refl)).
Defined.

(** A total that is no number gives way to the number of items. *)
Lemma normalized_total_is_finite_witness :
  let p := {| items := [oak]; total := NFin 1 |} in
  normalizeListPayload manyOaks = Ok p
  /\ Num_isFinite (total p) = true
  /\ normalizeListPayload (payloadJson p) = Ok p.
Proof.
  cbv zeta. split; [reflexivity|].
  exact (@normalized_total_is_finite builtins manyOaks
           {| items := [oak]; total := NFin 1 |} eq_refl).
Defined.

(** Twenty-five items and the draw 0.24: the floor of the exact product
    is 5, the program picks the item at 6 and deletes it. *)
Lemma random_pick_is_in_batch_witness :
  let w0 := world memOak [Ok (JArr batch25); Ok JNull] [] [draw24] in
  (binary64 draw24 = true /\ (0 <= draw24)%Q /\ (draw24 < 1)%Q)
  /\ Qfloor (Qmult draw24 25) = 5%Z
  /\ pickAt batch25 draw24 = numbered 6
  /\ In (pickAt batch25 draw24) batch25
  /\ trace (snd (runTool env "projects.deleteRandom" argsNone w0))
     = [ EvHttp (listRequest env [("limit", "25")]) (Ok (JArr batch25));
         EvRandom draw24;
         EvHttp (deleteRequest env "6") (Ok JNull) ].
Proof.
  cbv zeta.
  assert (H0 : (0 <= draw24)%Q) by (intros H; discriminate H).
  assert (H1 : (draw24 < 1)%Q) by reflexivity.
  split; [split; [reflexivity | split; [exact H0 | exact H1]]|].
  split; [reflexivity|]. split; [reflexivity|].
  destruct (@random_pick_is_in_batch builtins scripted env argsNone
              (world memOak [Ok (JArr batch25); Ok JNull] [] [draw24])
              (NFin 25) (JArr batch25)
              {| items := batch25; total := NFin 25 |} _ draw24 _
              ltac:(discriminate) eq_refl eq_refl eq_refl
              ltac:(discriminate) eq_refl eq_refl eq_refl H0 H1)
    as [Hin Htrace].
  split; [exact Hin|].
  exact (Htrace "6" (Ok JNull) _ eq_refl eq_refl eq_refl).
Defined.

Lemma delete_confirmation_rendered_witness :
  let w0 := world memOak [Ok JNull] [] [] in
  let msg := "Deleted project " ++ dq ++ "Oak St" ++ dq ++ " (id: 1)." in
  fst (runTool env "projects.delete" argsNone w0) = Ok (text msg)
  /\ renderHumanFor "projects.delete" (text msg)
     = Ok (JStr (checkMark ++ " " ++ msg)).
Proof.
  cbv zeta. split; [reflexivity|].
  destruct (@delete_confirmation_rendered builtins host scripted env
              "projects.delete" argsNone (world memOak [Ok JNull] [] [])
              (text ("Deleted project " ++ dq ++ "Oak St" ++ dq ++ " (id: 1)."))
              (snd (runTool env "projects.delete" argsNone
                      (world memOak [Ok JNull] [] [])))
              (or_introl eq_refl) eq_refl) as (msg & Hc & _ & Hr).
  injection Hc as <-. exact Hr.
Defined.

(** After a create, a get without arguments fetches the created
    entity. *)
Lemma returned_entity_is_next_context_witness :
  let w0 := world initialMemory [Ok oak] [] [] in
  let w1 := snd (runTool env "projects.create" argsCreate w0) in
  runTool env "projects.create" argsCreate w0 = (Ok [BJson oak], w1)
  /\ lastProject (memory w1) = oak
  /\ resolveGetId env argsNone w1 = (Ok "1", w1).
Proof.
  cbv zeta. split; [reflexivity|].
  destruct (@returned_entity_is_next_context builtins scripted env
              "projects.create" argsCreate
              (world initialMemory [Ok oak] [] []) oak
              (snd (runTool env "projects.create" argsCreate
                      (world initialMemory [Ok oak] [] [])))
              argsNone "1" (or_introl eq_refl) eq_refl eq_refl eq_refl
              ltac:(discriminate) eq_refl eq_refl) as (Hlast & Hget & _).
  split; assumption.
Defined.

(** The first search result is deleted, and stays the target. *)
Lemma deleted_item_stays_in_context_witness :
  let w0 := world memSearch [Ok JNull] [] [] in
  let w1 := snd (runTool env "projects.delete" argsNone w0) in
  fst (runTool env "projects.delete" argsNone w0)
  = Ok (text ("Deleted project " ++ dq ++ "Oak St" ++ dq ++ " (id: 1)."))
  /\ lastSearchItems (memory w1) = [oak]
  /\ resolveDeleteId env argsNone w1 = (Ok ("1", JStr "Oak St"), w1).
Proof.
  cbv zeta. split; [reflexivity|].
  destruct (@deleted_item_stays_in_context builtins scripted env argsNone
              (world memSearch [Ok JNull] [] [])
              (text ("Deleted project " ++ dq ++ "Oak St" ++ dq ++ " (id: 1)."))
              (snd (runTool env "projects.delete" argsNone
                      (world memSearch [Ok JNull] [] [])))
              eq_refl eq_refl eq_refl eq_refl)
    as (s & n & Hfirst & _ & Hitems & Hagain).
  split; [exact Hitems|].
  change (defaultArgs argsNone) with argsNone in Hfirst, Hagain.
  assert (E : resolveDeleteId env argsNone (world memSearch [Ok JNull] [] [])
              = (Ok ("1", JStr "Oak St"), world memSearch [Ok JNull] [] []))
    by reflexivity.
  rewrite E in Hfirst. injection Hfirst as <- <-. exact Hagain.
Defined.

(** A page of HTML answered with status 200 becomes the entity. *)
Lemma get_over_fetch_witness :
  let w0 := wiredWorld initialMemory [Ok (answered "<html>")] [] in
  let run := @runTool bridgeBuiltins (@overNetwork bridgeBuiltins wired) env
               "projects.get" argsId w0 in
  @JSON_parse bridgeBuiltins "<html>" = Err syntaxError
  /\ fst run = Ok [BJson (JStr "<html>")]
  /\ lastProject (memory (snd run)) = JStr "<html>".
Proof.
  cbv zeta. split; [reflexivity|].
  destruct (proj1 (proj2 (proj2 (@get_over_fetch bridgeBuiltins wired env argsId
               (wiredWorld initialMemory [Ok (answered "<html>")] [])
               "42" (Ok (answered "<html>")) _ eq_refl eq_refl eq_refl)))
              (answered "<html>") "<html>" syntaxError
              eq_refl eq_refl eq_refl eq_refl) as (Hrun & Hlast & _).
  split; [exact Hrun | exact Hlast].
Defined.

Lemma summarize_over_fetch_witness :
  let w0 := wiredWorld initialMemory [] [Ok (answered completionBody)] in
  @JSON_parse bridgeBuiltins completionBody = Ok completion
  /\ fst (@runTool bridgeBuiltins (@overNetwork bridgeBuiltins wired)
            envWithKey "ai.summarize" argsText w0)
     = Ok [BText (JStr "short")].
Proof.
  cbv zeta. split; [reflexivity|].
  destruct (proj2 (proj2 (proj2 (@summarize_over_fetch bridgeBuiltins wired
               envWithKey argsText
               (wiredWorld initialMemory [] [Ok (answered completionBody)])
               "long text" (Ok (answered completionBody)) _
               ltac:(discriminate) eq_refl eq_refl)))
              (answered completionBody) completionBody completion
              eq_refl eq_refl eq_refl eq_refl) as (Hrun & _).
  exact Hrun.
Defined.
